(** * WATHAQ: trash lifecycle and external-storage synchronisation

    A shallow embedding of the server side of the repository:
    - [googleDrive]            the external storage client (google-drive.ts),
    - [projectsRepository], [foldersRepository], [filesMetadataRepository],
      [driveConnectionsRepository]   the Supabase repositories,
    - [storage]                the [SupabaseStorage] facade (storage.ts),
    - the Hono application (app.ts): the auth middleware and the project,
      folder, file and trash routes.

    Asynchronous code is sequential here (every [await] is a plain bind);
    the Metadata Store, the credential cache and everything the process
    observes of the outside (HTTP responses, database faults, the clock) live
    in one [World] that is threaded through a state-and-exception monad. *)

From Stdlib Require Import String Ascii List ZArith Bool Lia.
Import ListNotations.
Open Scope string_scope.
Open Scope Z_scope.

(** ** JavaScript values *)

(** Truthiness of a string: every string but the empty one. *)
Definition truthy (s : string) : bool := negb (s =? "")%string.

(** Truthiness of [string | null | undefined]. *)
Definition truthy_opt (o : option string) : bool :=
  match o with
  | Some s => truthy s
  | None => false
  end.

(** [a || b] on strings where [a] may be missing. *)
Definition or_else (a : option string) (b : string) : string :=
  match a with
  | Some s => if truthy s then s else b
  | None => b
  end.

(** ** The schema (shared/schema.ts)

    Timestamps are the ISO strings of [new Date().toISOString()]; a timestamp
    is kept as the number of milliseconds it renders. *)

Module Project.
Record t := mk {
  id : string;
  user_id : string;
  title : string;
  description : option string;
  root_drive_id : option string;
  status : string;
  is_deleted : bool;
  deleted_at : option Z;
  created_at : Z;
  updated_at : Z
}.

(** The object handed to [.update(...)]: a column is assigned when present. *)
Record update := mkUpdate {
  set_title : option string;
  set_root_drive_id : option (option string);
  set_status : option string;
  set_is_deleted : option bool;
  set_deleted_at : option (option Z);
  set_updated_at : option Z
}.

Definition assign {A} (new : option A) (old : A) : A :=
  match new with
  | Some v => v
  | None => old
  end.

Definition apply (u : update) (p : t) : t :=
  {| id := id p;
     user_id := user_id p;
     title := assign (set_title u) (title p);
     description := description p;
     root_drive_id := assign (set_root_drive_id u) (root_drive_id p);
     status := assign (set_status u) (status p);
     is_deleted := assign (set_is_deleted u) (is_deleted p);
     deleted_at := assign (set_deleted_at u) (deleted_at p);
     created_at := created_at p;
     updated_at := assign (set_updated_at u) (updated_at p) |}.
End Project.

Module Folder.
Record t := mk {
  id : string;
  project_id : string;
  parent_id : option string;
  drive_folder_id : string;
  folder_name : string;
  sort_order : Z;
  is_deleted : bool;
  deleted_at : option Z;
  created_at : Z;
  updated_at : Z
}.

Record update := mkUpdate {
  set_is_deleted : option bool;
  set_deleted_at : option (option Z);
  set_updated_at : option Z
}.

Definition apply (u : update) (f : t) : t :=
  {| id := id f;
     project_id := project_id f;
     parent_id := parent_id f;
     drive_folder_id := drive_folder_id f;
     folder_name := folder_name f;
     sort_order := sort_order f;
     is_deleted := Project.assign (set_is_deleted u) (is_deleted f);
     deleted_at := Project.assign (set_deleted_at u) (deleted_at f);
     created_at := created_at f;
     updated_at := Project.assign (set_updated_at u) (updated_at f) |}.
End Folder.

Module FileMetadata.
Record t := mk {
  id : string;
  project_id : string;
  folder_id : option string;
  drive_file_id : string;
  file_name : string;
  mime_type : string;
  size_bytes : option Z;
  checksum : option string;
  web_view_link : option string;
  is_deleted : bool;
  deleted_at : option Z;
  created_at : Z;
  updated_at : Z
}.

Record update := mkUpdate {
  set_is_deleted : option bool;
  set_deleted_at : option (option Z);
  set_updated_at : option Z
}.

Definition apply (u : update) (f : t) : t :=
  {| id := id f;
     project_id := project_id f;
     folder_id := folder_id f;
     drive_file_id := drive_file_id f;
     file_name := file_name f;
     mime_type := mime_type f;
     size_bytes := size_bytes f;
     checksum := checksum f;
     web_view_link := web_view_link f;
     is_deleted := Project.assign (set_is_deleted u) (is_deleted f);
     deleted_at := Project.assign (set_deleted_at u) (deleted_at f);
     created_at := created_at f;
     updated_at := Project.assign (set_updated_at u) (updated_at f) |}.
End FileMetadata.

(** The provider credential of a user: [{ token, refreshToken? }]. A token
    taken from a refresh response that has no [access_token] is undefined. *)
Record Tokens := mkTokens {
  token : option string;
  refreshToken : option string
}.

(** The column [refresh_token_encrypted]: the encrypted JSON of
    [{ accessToken, refreshToken }]. *)
Inductive Ciphertext :=
| Blank                      (* null or the empty string *)
| Garbled                    (* does not decrypt, or decrypts to no JSON *)
| Sealed (accessToken refreshToken : option string).

(** A row of [drive_connections], as far as the code writes it. *)
Record DriveConnection := mkDriveConnection {
  dc_user_id : string;
  dc_provider : string;
  refresh_token_encrypted : Ciphertext;
  dc_updated_at : Z
}.

(** ** HTTP as the process sees it *)

Record Request := mkRequest {
  method : string;
  url : string;
  authorization : option string;
  payload : list string
}.

(** The fields the code reads off a JSON response body. *)
Record Json := mkJson {
  error_message : option string;      (* error.error?.message *)
  error_description : option string;  (* error.error_description *)
  file_id : option string;            (* result.id *)
  file_name : option string;          (* result.name *)
  access_token : option string        (* refreshed.access_token *)
}.

(** A response; [body = None] when the body is not JSON. *)
Record Response := mkResponse {
  status : Z;
  statusText : string;
  body : option Json
}.

Definition ok (r : Response) : bool := (200 <=? status r) && (status r <=? 299).

(** What [fetch] gives: a response, or a rejection (no response at all). *)
Inductive FetchResult :=
| Rejected
| Responded (r : Response).

(** ** The world *)

Inductive Level := LOG | WARN | ERROR.

Inductive Verb := SELECT | INSERT | UPDATE | UPSERT | DELETE.

Inductive Event :=
| EvFetch (req : Request) (res : FetchResult)
| EvQuery (table : string) (v : Verb) (failed : bool)
| EvConsole (lvl : Level) (msg : string)
| EvDate (ms : Z).

(** A value the middleware reads off the payload and stores in the context:
    it tests whether the value is truthy, compares it with a header (a
    string) and stores it as it is. *)
Inductive Claim :=
| Missing            (* undefined, or a falsy value that is no string: null, false, 0 *)
| Text (s : string)  (* a string *)
| NonText.           (* a truthy value that is no string: a number, true, an object,
                        an array, a function *)

(** [decoded.exp] as [decoded.exp && decoded.exp < now] uses it, [now] being
    a whole number of seconds. *)
Inductive Expiry :=
| NoExp              (* falsy, or a value that is below no number (NaN, Infinity) *)
| ExpAt (e : Z)      (* truthy, and compared as a number whose integer part,
                        rounded down, is [e] *)
| ExpAlways.         (* truthy and below every number (-Infinity) *)

(** The payload of an access token, as far as the middleware reads it.
    [decodeJwt] answers whatever [JSON.parse] gives, and the fields are what
    [decoded.sub], [decoded.exp] and [decoded.email] evaluate to on it: on a
    payload that is a JSON string, [sub] is the method [String.prototype.sub]
    ([NonText]) and the other two are missing; on a number, a boolean or an
    array all three are missing. *)
Record JwtPayload := mkJwt {
  sub : Claim;
  exp : Expiry;
  email : Claim
}.

(** The process environment and the behaviour of everything outside the
    process. The n-th effect of a run asks the oracle at index n. *)
Record Env := mkEnv {
  isProduction : bool;
  GOOGLE_CLIENT_ID : option string;
  GOOGLE_CLIENT_SECRET : option string;
  net : nat -> Request -> FetchResult;   (* the network *)
  db_error : nat -> bool;                (* does this query come back with an error *)
  clock : nat -> Z;                      (* Date.now() *)
  gen_uuid : nat -> string;              (* the id default of an inserted row *)
  getFullYear : Z -> string;             (* new Date().getFullYear().toString() *)
  payload_of : string -> option JwtPayload (* base64 decoding and JSON.parse *)
}.

Record World := mkWorld {
  env : Env;
  projects : list Project.t;
  folders : list Folder.t;
  files_metadata : list FileMetadata.t;
  drive_connections : list DriveConnection;
  providerTokensCache : list (string * Tokens);
  trace : list Event   (* newest first *)
}.

Definition record (e : Event) (w : World) : World :=
  {| env := env w; projects := projects w; folders := folders w;
     files_metadata := files_metadata w;
     drive_connections := drive_connections w;
     providerTokensCache := providerTokensCache w;
     trace := e :: trace w |}.

Definition with_projects (ps : list Project.t) (w : World) : World :=
  {| env := env w; projects := ps; folders := folders w;
     files_metadata := files_metadata w;
     drive_connections := drive_connections w;
     providerTokensCache := providerTokensCache w;
     trace := trace w |}.

Definition with_folders (fs : list Folder.t) (w : World) : World :=
  {| env := env w; projects := projects w; folders := fs;
     files_metadata := files_metadata w;
     drive_connections := drive_connections w;
     providerTokensCache := providerTokensCache w;
     trace := trace w |}.

Definition with_files_metadata (fs : list FileMetadata.t) (w : World) : World :=
  {| env := env w; projects := projects w; folders := folders w;
     files_metadata := fs;
     drive_connections := drive_connections w;
     providerTokensCache := providerTokensCache w;
     trace := trace w |}.

Definition with_drive_connections (ds : list DriveConnection) (w : World) : World :=
  {| env := env w; projects := projects w; folders := folders w;
     files_metadata := files_metadata w;
     drive_connections := ds;
     providerTokensCache := providerTokensCache w;
     trace := trace w |}.

Definition with_providerTokensCache (c : list (string * Tokens)) (w : World) : World :=
  {| env := env w; projects := projects w; folders := folders w;
     files_metadata := files_metadata w;
     drive_connections := drive_connections w;
     providerTokensCache := c;
     trace := trace w |}.

(** The index of the next effect. *)
Definition tick (w : World) : nat := length (trace w).

(** ** The monad: state that survives a throw *)

Inductive Exn :=
| Error (msg : string)     (* new Error(msg) *)
| SyntaxError              (* response.json() on a body that is not JSON *)
| FetchError               (* fetch rejected *)
| PostgrestError.          (* the error object of a failed query, thrown *)

Inductive Outcome (A : Type) :=
| Ok (a : A)
| Throw (e : Exn).
Arguments Ok {A} a.
Arguments Throw {A} e.

Definition M (A : Type) : Type := World -> Outcome A * World.

Definition ret {A} (a : A) : M A := fun w => (Ok a, w).

Definition throw {A} (e : Exn) : M A := fun w => (Throw e, w).

Definition bind {A B} (m : M A) (k : A -> M B) : M B :=
  fun w =>
    match m w with
    | (Ok a, w1) => k a w1
    | (Throw e, w1) => (Throw e, w1)
    end.

(** [try { m } catch (e) { h e }] *)
Definition try_catch {A} (m : M A) (h : Exn -> M A) : M A :=
  fun w =>
    match m w with
    | (Ok a, w1) => (Ok a, w1)
    | (Throw e, w1) => h e w1
    end.

Notation "x <- m ;; k" := (bind m (fun x => k))
  (at level 61, m at next level, right associativity).
Notation "m ;; k" := (bind m (fun _ => k))
  (at level 61, right associativity).

Definition console (lvl : Level) (msg : string) : M unit :=
  fun w => (Ok tt, record (EvConsole lvl msg) w).

(** [process.env] and the oracles. *)
Definition ask : M Env := fun w => (Ok (env w), w).

(** [this.providerTokensCache] *)
Definition get_cache : M (list (string * Tokens)) :=
  fun w => (Ok (providerTokensCache w), w).

Definition modify_cache (f : list (string * Tokens) -> list (string * Tokens)) : M unit :=
  fun w => (Ok tt, with_providerTokensCache (f (providerTokensCache w)) w).

(** [new Date()] / [Date.now()] *)
Definition date_now : M Z :=
  fun w => let t := clock (env w) (tick w) in (Ok t, record (EvDate t) w).

Definition fetch (req : Request) : M Response :=
  fun w =>
    let res := net (env w) (tick w) req in
    let w1 := record (EvFetch req res) w in
    match res with
    | Rejected => (Throw FetchError, w1)
    | Responded r => (Ok r, w1)
    end.

(** [await response.json()] *)
Definition json_of (r : Response) : M Json :=
  match body r with
  | Some j => ret j
  | None => throw SyntaxError
  end.

(** ** google-drive.ts *)

Module googleDrive.

Definition GOOGLE_DRIVE_API := "https://www.googleapis.com/drive/v3".

Definition bearer (accessToken : string) : option string :=
  Some ("Bearer " ++ accessToken).

Definition file_url (fileId : string) : string :=
  GOOGLE_DRIVE_API ++ "/files/" ++ fileId.

Definition createFolder_request (accessToken name : string) (parentId : option string)
  : Request :=
  {| method := "POST";
     url := GOOGLE_DRIVE_API ++ "/files";
     authorization := bearer accessToken;
     payload := name :: (match parentId with
                         | Some p => if truthy p then [p] else []
                         | None => []
                         end) |}.

Definition createFolder (accessToken name : string) (parentId : option string)
  : M Json :=
  console LOG "=== Google Drive Create Folder ===" ;;
  console LOG "URL:" ;;
  console LOG "Token (first 20 chars):" ;;
  console LOG "Metadata:" ;;
  response <- fetch (createFolder_request accessToken name parentId) ;;
  console LOG "Response status:" ;;
  if negb (ok response) then
    console ERROR "=== Google Drive API Error ===" ;;
    console ERROR "Status:" ;;
    console ERROR "Response:" ;;
    let errorMessage :=
      match body response with
      | Some errorJson => or_else (error_message errorJson) (statusText response)
      | None => statusText response
      end in
    throw (Error ("Failed to create folder: " ++ errorMessage))
  else
    result <- json_of response ;;
    console LOG "Folder created successfully:" ;;
    ret result.

Definition deleteFile_request (accessToken fileId : string) : Request :=
  {| method := "DELETE"; url := file_url fileId;
     authorization := bearer accessToken; payload := [] |}.

Definition deleteFile (accessToken fileId : string) : M unit :=
  response <- fetch (deleteFile_request accessToken fileId) ;;
  if negb (ok response) && negb (status response =? 404) then
    error <- json_of response ;;
    throw (Error ("Failed to delete file: "
                  ++ or_else (error_message error) (statusText response)))
  else ret tt.

Definition trashFile_request (accessToken fileId : string) : Request :=
  {| method := "PATCH"; url := file_url fileId;
     authorization := bearer accessToken; payload := ["trashed"; "true"] |}.

Definition trashFile (accessToken fileId : string) : M unit :=
  response <- fetch (trashFile_request accessToken fileId) ;;
  if negb (ok response) && negb (status response =? 404) then
    error <- json_of response ;;
    throw (Error ("Failed to trash file: "
                  ++ or_else (error_message error) (statusText response)))
  else ret tt.

Definition untrashFile_request (accessToken fileId : string) : Request :=
  {| method := "PATCH"; url := file_url fileId;
     authorization := bearer accessToken; payload := ["trashed"; "false"] |}.

Definition untrashFile (accessToken fileId : string) : M unit :=
  response <- fetch (untrashFile_request accessToken fileId) ;;
  if negb (ok response) && negb (status response =? 404) then
    error <- json_of response ;;
    throw (Error ("Failed to untrash file: "
                  ++ or_else (error_message error) (statusText response)))
  else ret tt.

Definition permanentDeleteFile_request (accessToken fileId : string) : Request :=
  {| method := "DELETE"; url := file_url fileId;
     authorization := bearer accessToken; payload := [] |}.

Definition permanentDeleteFile (accessToken fileId : string) : M unit :=
  response <- fetch (permanentDeleteFile_request accessToken fileId) ;;
  if negb (ok response) && negb (status response =? 404) then
    error <- json_of response ;;
    throw (Error ("Failed to permanently delete file: "
                  ++ or_else (error_message error) (statusText response)))
  else ret tt.

Definition refreshAccessToken_request (clientId clientSecret refreshToken : string)
  : Request :=
  {| method := "POST"; url := "https://oauth2.googleapis.com/token";
     authorization := None;
     payload := [clientId; clientSecret; refreshToken; "refresh_token"] |}.

Definition refreshAccessToken (clientId clientSecret refreshToken : string) : M Json :=
  response <- fetch (refreshAccessToken_request clientId clientSecret refreshToken) ;;
  if negb (ok response) then
    error <- json_of response ;;
    throw (Error ("Failed to refresh token: "
                  ++ or_else (error_description error) (statusText response)))
  else json_of response.

End googleDrive.

(** ** The Supabase client

    A query answers [{ data, error }] and never throws. A query either fails
    as a whole (the fault oracle) and changes nothing, or runs. *)

Inductive PgResult (A : Type) :=
| PgError
| PgData (data : A).
Arguments PgError {A}.
Arguments PgData {A} data.

Definition query {A} (table : string) (v : Verb)
  (run : nat -> World -> PgResult A * World) : M (PgResult A) :=
  fun w =>
    let n := tick w in
    let failed := db_error (env w) n in
    let w1 := record (EvQuery table v failed) w in
    if failed then (Ok PgError, w1)
    else let (r, w2) := run n w1 in (Ok r, w2).

(** [.single()]: an error unless exactly one row came back. *)
Definition single {A} (rows : list A) : PgResult A :=
  match rows with
  | [r] => PgData r
  | _ => PgError
  end.

(** [.order(column)]: an insertion sort by the column's order. *)
Fixpoint insert_by {A} (leb : A -> A -> bool) (x : A) (l : list A) : list A :=
  match l with
  | [] => [x]
  | y :: l' => if leb x y then x :: l else y :: insert_by leb x l'
  end.

Fixpoint order_by {A} (leb : A -> A -> bool) (l : list A) : list A :=
  match l with
  | [] => []
  | x :: l' => insert_by leb x (order_by leb l')
  end.

(** [.update(u).eq(...)]: the rows the filter selects are rewritten. *)
Definition update_where {A} (sel : A -> bool) (u : A -> A) (l : list A) : list A :=
  map (fun r => if sel r then u r else r) l.

(** [.delete().eq(...)] *)
Definition delete_where {A} (sel : A -> bool) (l : list A) : list A :=
  filter (fun r => negb (sel r)) l.

(** ** supabase-repository.ts *)

Module driveConnectionsRepository.

Definition selects (userId provider : string) (d : DriveConnection) : bool :=
  (dc_user_id d =? userId)%string && (dc_provider d =? provider)%string.

(** [storeTokens]: both tokens, encrypted together, upserted on
    (user_id, provider). *)
Definition storeTokens (userId : string) (accessToken refreshToken : option string)
  : M unit :=
  let encryptedTokens := Sealed accessToken refreshToken in
  now <- date_now ;;
  r <- query "drive_connections" UPSERT (fun _ w =>
         let row := {| dc_user_id := userId; dc_provider := "google";
                       refresh_token_encrypted := encryptedTokens;
                       dc_updated_at := now |} in
         let ds := drive_connections w in
         (PgData tt,
          with_drive_connections
            (if existsb (selects userId "google") ds
             then update_where (selects userId "google") (fun _ => row) ds
             else ds ++ [row]) w)) ;;
  match r with
  | PgError => console ERROR "Failed to store tokens:" ;; throw PostgrestError
  | PgData _ => console LOG "Tokens stored successfully for user:"
  end.

(** [getTokens]: [{ accessToken, refreshToken }] decrypted, or null. *)
Definition getTokens (userId : string) : M (option (option string * option string)) :=
  r <- query "drive_connections" SELECT (fun _ w =>
         (single (map refresh_token_encrypted
                      (filter (selects userId "google") (drive_connections w))), w)) ;;
  match r with
  | PgError => console LOG "No drive connection found for user:" ;; ret None
  | PgData Blank => console LOG "No encrypted token found for user:" ;; ret None
  | PgData Garbled => console ERROR "Failed to decrypt/parse token:" ;; ret None
  | PgData (Sealed a r) => console LOG "Retrieved tokens for user:" ;; ret (Some (a, r))
  end.

End driveConnectionsRepository.

Record ProjectFilters := mkProjectFilters {
  pf_user_id : string;
  pf_status : option string;
  pf_is_deleted : option bool
}.

(** The columns the project route inserts; the others take their defaults. *)
Record InsertProject := mkInsertProject {
  ins_user_id : string;
  ins_title : string;
  ins_status : option string;
  ins_root_drive_id : option string
}.

Module projectsRepository.

Definition matches (f : ProjectFilters) (p : Project.t) : bool :=
  (Project.user_id p =? pf_user_id f)%string
  && (match pf_status f with
      | Some s => if truthy s then (Project.status p =? s)%string else true
      | None => true
      end)
  && (match pf_is_deleted f with
      | Some b => Bool.eqb (Project.is_deleted p) b
      | None => Bool.eqb (Project.is_deleted p) false
      end).

Definition newest_first (a b : Project.t) : bool :=
  Project.created_at b <=? Project.created_at a.

Definition getAll (filters : ProjectFilters) : M (list Project.t) :=
  console LOG "Supabase projectsRepository.getAll called with filters:" ;;
  try_catch
    (r <- query "projects" SELECT (fun _ w =>
            (PgData (order_by newest_first (filter (matches filters) (projects w))), w)) ;;
     match r with
     | PgError =>
         console ERROR "Supabase Error in projectsRepository.getAll:" ;;
         throw PostgrestError
     | PgData data =>
         console LOG "Supabase projectsRepository.getAll result count:" ;;
         ret data
     end)
    (fun err => console ERROR "Catch error in projectsRepository.getAll:" ;; ret []).

Definition getByIdWithoutUser (id : string) : M (option Project.t) :=
  r <- query "projects" SELECT (fun _ w =>
         (single (filter (fun p => (Project.id p =? id)%string) (projects w)), w)) ;;
  match r with
  | PgError => ret None
  | PgData data => ret (Some data)
  end.

(** The inserted row: the given columns, [status || 'active'],
    [root_drive_id || ''], and the column defaults of the table (a fresh id,
    no description, not deleted, both timestamps now). *)
Definition new_row (n : nat) (e : Env) (project : InsertProject) : Project.t :=
  {| Project.id := gen_uuid e n;
     Project.user_id := ins_user_id project;
     Project.title := ins_title project;
     Project.description := None;
     Project.root_drive_id := Some (or_else (ins_root_drive_id project) "");
     Project.status := or_else (ins_status project) "active";
     Project.is_deleted := false;
     Project.deleted_at := None;
     Project.created_at := clock e n;
     Project.updated_at := clock e n |}.

Definition create (project : InsertProject) : M Project.t :=
  r <- query "projects" INSERT (fun n w =>
         let row := new_row n (env w) project in
         (PgData row, with_projects (projects w ++ [row]) w)) ;;
  match r with
  | PgError => throw PostgrestError
  | PgData data => ret data
  end.

Definition updateWithoutUser (id : string) (updates : Project.update)
  : M (option Project.t) :=
  now <- date_now ;;
  let u := {| Project.set_title := Project.set_title updates;
              Project.set_root_drive_id := Project.set_root_drive_id updates;
              Project.set_status := Project.set_status updates;
              Project.set_is_deleted := Project.set_is_deleted updates;
              Project.set_deleted_at := Project.set_deleted_at updates;
              Project.set_updated_at := Some now |} in
  r <- query "projects" UPDATE (fun _ w =>
         let sel := fun p => (Project.id p =? id)%string in
         let ps := update_where sel (Project.apply u) (projects w) in
         (single (filter sel ps), with_projects ps w)) ;;
  match r with
  | PgError => ret None
  | PgData data => ret (Some data)
  end.

Definition owned (id userId : string) (p : Project.t) : bool :=
  (Project.id p =? id)%string && (Project.user_id p =? userId)%string.

Definition softDelete (id userId : string) : M bool :=
  deleted <- date_now ;;
  updated <- date_now ;;
  let u := {| Project.set_title := None; Project.set_root_drive_id := None;
              Project.set_status := None;
              Project.set_is_deleted := Some true;
              Project.set_deleted_at := Some (Some deleted);
              Project.set_updated_at := Some updated |} in
  r <- query "projects" UPDATE (fun _ w =>
         (PgData tt,
          with_projects (update_where (owned id userId) (Project.apply u) (projects w)) w)) ;;
  match r with
  | PgError => ret false
  | PgData _ => ret true
  end.

Definition restore (id userId : string) : M bool :=
  updated <- date_now ;;
  let u := {| Project.set_title := None; Project.set_root_drive_id := None;
              Project.set_status := None;
              Project.set_is_deleted := Some false;
              Project.set_deleted_at := Some None;
              Project.set_updated_at := Some updated |} in
  r <- query "projects" UPDATE (fun _ w =>
         (PgData tt,
          with_projects (update_where (owned id userId) (Project.apply u) (projects w)) w)) ;;
  match r with
  | PgError => ret false
  | PgData _ => ret true
  end.

Definition hardDelete (id userId : string) : M bool :=
  r <- query "projects" DELETE (fun _ w =>
         (PgData tt, with_projects (delete_where (owned id userId) (projects w)) w)) ;;
  match r with
  | PgError => ret false
  | PgData _ => ret true
  end.

End projectsRepository.

(** [parent_id?: string | null]: absent, null, or an id. *)
Record FolderFilters := mkFolderFilters {
  ff_project_id : string;
  ff_parent_id : option (option string);
  ff_is_deleted : option bool
}.

Module foldersRepository.

Definition matches (f : FolderFilters) (d : Folder.t) : bool :=
  (Folder.project_id d =? ff_project_id f)%string
  && (match ff_parent_id f with
      | None => true
      | Some None => match Folder.parent_id d with None => true | Some _ => false end
      | Some (Some p) =>
          match Folder.parent_id d with
          | Some q => (q =? p)%string
          | None => false
          end
      end)
  && (match ff_is_deleted f with
      | Some b => Bool.eqb (Folder.is_deleted d) b
      | None => Bool.eqb (Folder.is_deleted d) false
      end).

Definition by_sort_order (a b : Folder.t) : bool :=
  Folder.sort_order a <=? Folder.sort_order b.

Definition getAll (filters : FolderFilters) : M (list Folder.t) :=
  r <- query "folders" SELECT (fun _ w =>
         (PgData (order_by by_sort_order (filter (matches filters) (folders w))), w)) ;;
  match r with
  | PgError => throw PostgrestError
  | PgData data => ret data
  end.

Definition getById (id : string) : M (option Folder.t) :=
  r <- query "folders" SELECT (fun _ w =>
         (single (filter (fun d => (Folder.id d =? id)%string) (folders w)), w)) ;;
  match r with
  | PgError => ret None
  | PgData data => ret (Some data)
  end.

Definition has_id (id : string) (d : Folder.t) : bool := (Folder.id d =? id)%string.

Definition softDelete (id : string) : M bool :=
  deleted <- date_now ;;
  updated <- date_now ;;
  let u := {| Folder.set_is_deleted := Some true;
              Folder.set_deleted_at := Some (Some deleted);
              Folder.set_updated_at := Some updated |} in
  r <- query "folders" UPDATE (fun _ w =>
         (PgData tt,
          with_folders (update_where (has_id id) (Folder.apply u) (folders w)) w)) ;;
  match r with
  | PgError => ret false
  | PgData _ => ret true
  end.

Definition restore (id : string) : M bool :=
  updated <- date_now ;;
  let u := {| Folder.set_is_deleted := Some false;
              Folder.set_deleted_at := Some None;
              Folder.set_updated_at := Some updated |} in
  r <- query "folders" UPDATE (fun _ w =>
         (PgData tt,
          with_folders (update_where (has_id id) (Folder.apply u) (folders w)) w)) ;;
  match r with
  | PgError => ret false
  | PgData _ => ret true
  end.

Definition hardDelete (id : string) : M bool :=
  r <- query "folders" DELETE (fun _ w =>
         (PgData tt, with_folders (delete_where (has_id id) (folders w)) w)) ;;
  match r with
  | PgError => ret false
  | PgData _ => ret true
  end.

End foldersRepository.

Record FileFilters := mkFileFilters {
  fl_project_id : option string;
  fl_folder_id : option string;
  fl_is_deleted : option bool
}.

Module filesMetadataRepository.

Definition matches (f : FileFilters) (d : FileMetadata.t) : bool :=
  (match fl_project_id f with
   | Some p => if truthy p then (FileMetadata.project_id d =? p)%string else true
   | None => true
   end)
  && (match fl_folder_id f with
      | Some p =>
          if truthy p then
            match FileMetadata.folder_id d with
            | Some q => (q =? p)%string
            | None => false
            end
          else true
      | None => true
      end)
  && (match fl_is_deleted f with
      | Some b => Bool.eqb (FileMetadata.is_deleted d) b
      | None => Bool.eqb (FileMetadata.is_deleted d) false
      end).

Definition newest_first (a b : FileMetadata.t) : bool :=
  FileMetadata.created_at b <=? FileMetadata.created_at a.

Definition getAll (filters : FileFilters) : M (list FileMetadata.t) :=
  r <- query "files_metadata" SELECT (fun _ w =>
         (PgData (order_by newest_first (filter (matches filters) (files_metadata w))), w)) ;;
  match r with
  | PgError => throw PostgrestError
  | PgData data => ret data
  end.

Definition getById (id : string) : M (option FileMetadata.t) :=
  r <- query "files_metadata" SELECT (fun _ w =>
         (single (filter (fun d => (FileMetadata.id d =? id)%string) (files_metadata w)), w)) ;;
  match r with
  | PgError => ret None
  | PgData data => ret (Some data)
  end.

Definition has_id (id : string) (d : FileMetadata.t) : bool :=
  (FileMetadata.id d =? id)%string.

Definition softDelete (id : string) : M bool :=
  deleted <- date_now ;;
  updated <- date_now ;;
  let u := {| FileMetadata.set_is_deleted := Some true;
              FileMetadata.set_deleted_at := Some (Some deleted);
              FileMetadata.set_updated_at := Some updated |} in
  r <- query "files_metadata" UPDATE (fun _ w =>
         (PgData tt,
          with_files_metadata
            (update_where (has_id id) (FileMetadata.apply u) (files_metadata w)) w)) ;;
  match r with
  | PgError => ret false
  | PgData _ => ret true
  end.

Definition hardDelete (id : string) : M bool :=
  r <- query "files_metadata" DELETE (fun _ w =>
         (PgData tt,
          with_files_metadata (delete_where (has_id id) (files_metadata w)) w)) ;;
  match r with
  | PgError => ret false
  | PgData _ => ret true
  end.

Definition restore (id : string) : M bool :=
  updated <- date_now ;;
  let u := {| FileMetadata.set_is_deleted := Some false;
              FileMetadata.set_deleted_at := Some None;
              FileMetadata.set_updated_at := Some updated |} in
  r <- query "files_metadata" UPDATE (fun _ w =>
         (PgData tt,
          with_files_metadata
            (update_where (has_id id) (FileMetadata.apply u) (files_metadata w)) w)) ;;
  match r with
  | PgError => ret false
  | PgData _ => ret true
  end.

End filesMetadataRepository.

(** ** storage.ts: [SupabaseStorage] *)

Module storage.

Definition cache_get (userId : string) (c : list (string * Tokens)) : option Tokens :=
  option_map snd (find (fun e => (fst e =? userId)%string) c).

Definition cache_delete (userId : string) (c : list (string * Tokens))
  : list (string * Tokens) :=
  filter (fun e => negb (fst e =? userId)%string) c.

Definition cache_set (userId : string) (v : Tokens) (c : list (string * Tokens))
  : list (string * Tokens) :=
  (userId, v) :: cache_delete userId c.

Definition getProjects (userId : string) : M (list Project.t) :=
  projectsRepository.getAll
    {| pf_user_id := userId; pf_status := None; pf_is_deleted := None |}.

Definition getProject (id : string) : M (option Project.t) :=
  projectsRepository.getByIdWithoutUser id.

Definition createProject (project : InsertProject) : M Project.t :=
  try_catch
    (console LOG "Creating project in Supabase:" ;;
     result <- projectsRepository.create project ;;
     console LOG "Project created in Supabase:" ;;
     ret result)
    (fun error => console ERROR "Error creating project:" ;; throw error).

Definition updateProject (id : string) (updates : Project.update)
  : M (option Project.t) :=
  projectsRepository.updateWithoutUser id updates.

Definition getDeletedProjects (userId : string) : M (list Project.t) :=
  projectsRepository.getAll
    {| pf_user_id := userId; pf_status := None; pf_is_deleted := Some true |}.

Definition softDeleteProject (id userId : string) : M bool :=
  projectsRepository.softDelete id userId.

Definition restoreProject (id userId : string) : M bool :=
  projectsRepository.restore id userId.

Definition hardDeleteProject (id userId : string) : M bool :=
  projectsRepository.hardDelete id userId.

Definition getFolder (id : string) : M (option Folder.t) :=
  foldersRepository.getById id.

Definition getFile (id : string) : M (option FileMetadata.t) :=
  filesMetadataRepository.getById id.

Definition deleteFile (id : string) : M bool :=
  filesMetadataRepository.softDelete id.

Definition getDeletedFiles (projectId : string) : M (list FileMetadata.t) :=
  filesMetadataRepository.getAll
    {| fl_project_id := Some projectId; fl_folder_id := None;
       fl_is_deleted := Some true |}.

Definition restoreFile (id : string) : M bool :=
  filesMetadataRepository.restore id.

Definition hardDeleteFile (id : string) : M bool :=
  filesMetadataRepository.hardDelete id.

Definition getDeletedFolders (projectId : string) : M (list Folder.t) :=
  foldersRepository.getAll
    {| ff_project_id := projectId; ff_parent_id := None;
       ff_is_deleted := Some true |}.

Definition softDeleteFolder (id : string) : M bool :=
  foldersRepository.softDelete id.

Definition restoreFolder (id : string) : M bool :=
  foldersRepository.restore id.

Definition hardDeleteFolder (id : string) : M bool :=
  foldersRepository.hardDelete id.

Definition storeProviderToken (userId : string) (tok refresh : option string)
  : M unit :=
  driveConnectionsRepository.storeTokens userId tok refresh ;;
  modify_cache (cache_set userId {| token := tok; refreshToken := refresh |}).

Definition getProviderToken (userId : string) : M (option Tokens) :=
  cache <- get_cache ;;
  match cache_get userId cache with
  | Some cached => ret (Some cached)
  | None =>
      tokens <- driveConnectionsRepository.getTokens userId ;;
      match tokens with
      | Some (accessToken, refresh) =>
          if truthy_opt accessToken then
            let result := {| token := accessToken; refreshToken := refresh |} in
            modify_cache (cache_set userId result) ;;
            ret (Some result)
          else ret None
      | None => ret None
      end
  end.

Definition clearProviderTokenCache (userId : string) : M unit :=
  modify_cache (cache_delete userId).

End storage.

(** ** app.ts *)

(** [token.split(".")] *)
Fixpoint split (sep : ascii) (s : string) : list string :=
  match s with
  | EmptyString => [EmptyString]
  | String c s' =>
      if Ascii.eqb c sep then EmptyString :: split sep s'
      else match split sep s' with
           | h :: t => String c h :: t
           | [] => [String c EmptyString]
           end
  end.

(** [s.replace(/a/g, b)] for single characters. *)
Fixpoint replace_all (a b : ascii) (s : string) : string :=
  match s with
  | EmptyString => EmptyString
  | String c s' => String (if Ascii.eqb c a then b else c) (replace_all a b s')
  end.

(** [decodeJwt]: the payload part of a three-part token, decoded; null when
    the token has not three parts or decoding throws. *)
Definition decodeJwt (e : Env) (tok : string) : option JwtPayload :=
  let parts := split "." tok in
  if negb (Nat.eqb (length parts) 3) then None
  else
    let base64 := replace_all "_" "/" (replace_all "-" "+" (nth 1 parts "")) in
    payload_of e base64.

(** The variables a request carries after the middleware, [userId] as the
    routes declare it: [string | null]. *)
Record Variables := mkVariables {
  userId : option string;
  userEmail : Claim
}.

Definition anonymous : Variables := {| userId := None; userEmail := Missing |}.

(** What the middleware leaves in the context. [decoded.sub] is stored
    whatever it is: [OtherUser] is a context whose [userId] is a truthy value
    that is no string. The routes compare [userId] with stored ids and hand
    it to the store; they are modelled for a [userId] of the declared type
    only. *)
Inductive Context :=
| Declared (c : Variables)
| OtherUser.

(** Whether a value is truthy. *)
Definition claimed (v : Claim) : bool :=
  match v with
  | Missing => false
  | Text s => truthy s
  | NonText => true
  end.

(** [header !== value] *)
Definition differs (header : string) (v : Claim) : bool :=
  match v with
  | Text s => negb (header =? s)%string
  | Missing | NonText => true
  end.

(** [decoded.exp && decoded.exp < now] *)
Definition expired (p : JwtPayload) (now : Z) : bool :=
  match exp p with
  | NoExp => false
  | ExpAt e => e <? now
  | ExpAlways => true
  end.

(** [app.use("/api/*", ...)]: the headers [x-access-token] and [x-user-id]
    decide who the caller is. *)
Definition auth_middleware (accessToken userIdHeader : option string) : M Context :=
  e <- ask ;;
    (if truthy_opt accessToken then
       match decodeJwt e (or_else accessToken "") with
       | Some decoded =>
           if claimed (sub decoded) then
             ms <- date_now ;;
             let now := ms / 1000 in
             if expired decoded now then ret (Declared anonymous)
             else if match userIdHeader with
                     | Some h => truthy h && differs h (sub decoded)
                     | None => false
                     end
             then ret (Declared anonymous)
             else
               let userEmail := if claimed (email decoded)
                                then email decoded else Text "" in
               match sub decoded with
               | Text subject =>
                   ret (Declared {| userId := Some subject; userEmail := userEmail |})
               | NonText => ret OtherUser
               | Missing => ret (Declared {| userId := None; userEmail := userEmail |})
               end
           else ret (Declared anonymous)
       | None => ret (Declared anonymous)
       end
     else if negb (isProduction e) && truthy_opt userIdHeader then
       console WARN "Using development auth fallback - not secure for production" ;;
       ret (Declared {| userId := userIdHeader; userEmail := Text "" |})
     else ret (Declared anonymous)).

(** [requireAuth] *)
Definition requireAuth (c : Variables) : option string :=
  match userId c with
  | Some u => if truthy u then Some u else None
  | None => None
  end.

Definition about_request (tok : string) : Request :=
  {| method := "GET";
     url := "https://www.googleapis.com/drive/v3/about?fields=user";
     authorization := googleDrive.bearer tok;
     payload := [] |}.

(** [`${x}`] of a string that may be undefined. *)
Definition interpolate (o : option string) : string :=
  match o with
  | Some s => s
  | None => "undefined"
  end.

(** [getValidProviderToken]: the stored provider token when the provider
    accepts it, a refreshed one when it does not and a refresh token is there,
    else null. *)
Definition getValidProviderToken (user : string) : M (option string) :=
  tokens <- storage.getProviderToken user ;;
  match tokens with
  | None => console LOG "No token found for user:" ;; ret None
  | Some tokens =>
      if negb (truthy_opt (token tokens)) then
        console LOG "No token found for user:" ;; ret None
      else
        try_catch
          (testResponse <- fetch (about_request (interpolate (token tokens))) ;;
           if ok testResponse then
             console LOG "Current token is valid" ;;
             ret (token tokens)
           else
             console LOG "Current token failed with status:" ;;
             if truthy_opt (refreshToken tokens) then
               console LOG "Attempting to refresh token..." ;;
               e <- ask ;;
                 (let clientId := GOOGLE_CLIENT_ID e in
                  let clientSecret := GOOGLE_CLIENT_SECRET e in
                  if negb (truthy_opt clientId) || negb (truthy_opt clientSecret) then
                    console ERROR "Missing Google OAuth credentials for token refresh" ;;
                    ret None
                  else
                    try_catch
                      (refreshed <- googleDrive.refreshAccessToken
                                      (interpolate clientId) (interpolate clientSecret)
                                      (interpolate (refreshToken tokens)) ;;
                       console LOG "Token refreshed successfully" ;;
                       storage.clearProviderTokenCache user ;;
                       storage.storeProviderToken user (access_token refreshed)
                                                  (refreshToken tokens) ;;
                       ret (access_token refreshed))
                      (fun refreshError =>
                         
                         console ERROR "Failed to refresh token:" ;; ret None))

             else
               console LOG "No refresh token available" ;; ret None)
          (fun error => console ERROR "Error validating token:" ;; ret (token tokens))
  end.

(** What a route answers: [c.json(body, status)]. *)
Inductive JsonBody :=
| JError (error : string)                         (* { error } *)
| JFailure (e : Exn) (fallback : string)           (* { error: error.message || fallback } *)
| JSuccess (message : string)                     (* { success: true, message } *)
| JProject (p : option Project.t)                 (* the updated project *)
| JCreated (p : Project.t) (folderDisplayName : string)
| JTrash (files : list FileMetadata.t) (folders : list Folder.t).

Record HttpResponse := mkHttpResponse {
  http_body : JsonBody;
  http_status : Z
}.

Definition json (b : JsonBody) (st : Z) : HttpResponse :=
  {| http_body := b; http_status := st |}.

(** [if (x) { k }] on a string that may be missing. *)
Definition if_truthy (o : option string) (k : string -> M unit) : M unit :=
  match o with
  | Some s => if truthy s then k s else ret tt
  | None => ret tt
  end.

(** [!project || project.user_id !== userId] *)
Definition not_owner (project : option Project.t) (user : string) : bool :=
  match project with
  | None => true
  | Some p => negb (Project.user_id p =? user)%string
  end.

(** [for (const x of l) { body }] *)
Fixpoint for_each {A} (l : list A) (body : A -> M unit) : M unit :=
  match l with
  | [] => ret tt
  | x :: l' => body x ;; for_each l' body
  end.

(** The JSON bodies of the two project routes that read one; [None] is a
    body [c.req.json()] rejects. *)
Record CreateProjectBody := mkCreateProjectBody {
  cp_title : option string;
  cp_academicYear : option string;
  cp_status : option string
}.

Record PatchProjectBody := mkPatchProjectBody {
  pb_title : option string;
  pb_status : option string
}.

Definition req_json {A} (b : option A) : M A :=
  match b with
  | Some v => ret v
  | None => throw SyntaxError
  end.

(** [app.post("/api/projects")] *)
Definition POST_projects (c : Variables) (body : option CreateProjectBody)
  : M HttpResponse :=
  try_catch
    (match requireAuth c with
     | None => ret (json (JError "Unauthorized") 401)
     | Some user =>
         body <- req_json body ;;
         if negb (truthy_opt (cp_title body)) then
           ret (json (JError "العنوان مطلوب") 400)
         else
           yearSuffix <-
             (if truthy_opt (cp_academicYear body)
              then ret (interpolate (cp_academicYear body))
              
              else (ms <- date_now ;; e <- ask ;; ret (getFullYear e ms))) ;;
           let folderDisplayName := interpolate (cp_title body) ++ " - " ++ yearSuffix in
           existingProjects <- storage.getProjects user ;;
           match find (fun p => (Project.title p =? folderDisplayName)%string)
                      existingProjects with
           | Some duplicateProject =>
               ret (json (JError "عذراً، لديك مشروع بنفس هذا الاسم مسبقاً") 400)
           | None =>
               providerToken <- getValidProviderToken user ;;
               if truthy_opt providerToken then
                 let providerToken := interpolate providerToken in
                 created <-
                   try_catch
                     (console LOG "Creating Drive folder:" ;;
                      driveFolder <- googleDrive.createFolder providerToken
                                       folderDisplayName None ;;
                      console LOG "Drive folder created successfully:" ;;
                      ret (inl driveFolder))
                     (fun driveError =>
                        console ERROR "Failed to create Drive folder:" ;;
                        ret (inr (json (JError "فشل في إنشاء المجلد في Google Drive. يرجى المحاولة مرة أخرى.") 500))) ;;
                 match created with
                 | inr response => ret response
                 | inl driveFolder =>
                     project <-
                       try_catch
                         (storage.createProject
                            {| ins_user_id := user;
                               ins_title := folderDisplayName;
                               ins_status := Some (or_else (cp_status body) "active");
                               ins_root_drive_id := file_id driveFolder |})
                         (fun createError =>
                            console ERROR "Database create error, cleaning up Drive folder:" ;;
                            try_catch
                              (googleDrive.deleteFile providerToken
                                 (interpolate (file_id driveFolder)) ;;
                               console LOG "Drive folder cleaned up after DB create error")
                              (fun cleanupError =>
                                 console ERROR "Failed to cleanup Drive folder:") ;;
                            throw createError) ;;
                     ret (json (JCreated project folderDisplayName) 201)
                 end
               else
                 console WARN "No provider token found for user:" ;;
                 ret (json (JError "لم يتم ربط حساب Google Drive. يرجى تسجيل الخروج وتسجيل الدخول مرة أخرى.") 400)
           end
     end)
    (fun error =>
       console ERROR "Create project error:" ;;
       ret (json (JFailure error "فشل في إنشاء المشروع") 500)).

(** [app.patch("/api/projects/:id")] *)
Definition PATCH_projects_id (c : Variables) (projectId : string)
  (body : option PatchProjectBody) : M HttpResponse :=
  try_catch
    (match requireAuth c with
     | None => ret (json (JError "Unauthorized") 401)
     | Some user =>
         project <- storage.getProject projectId ;;
         match project with
         | None => ret (json (JError "Project not found") 404)
         | Some project =>
             if negb (Project.user_id project =? user)%string then
               ret (json (JError "Forbidden") 403)
             else
               body <- req_json body ;;
               let updates :=
                 {| Project.set_title :=
                      if truthy_opt (pb_title body) then pb_title body else None;
                    Project.set_root_drive_id := None;
                    Project.set_status :=
                      if truthy_opt (pb_status body) then pb_status body else None;
                    Project.set_is_deleted := None;
                    Project.set_deleted_at := None;
                    Project.set_updated_at := None |} in
               updated <- storage.updateProject projectId updates ;;
               ret (json (JProject updated) 200)
         end
     end)
    (fun error =>
       console ERROR "Update project error:" ;;
       ret (json (JError "Failed to update project") 500)).

(** [app.delete("/api/projects/:id")]: soft delete of a project. *)
Definition DELETE_projects_id (c : Variables) (projectId : string) : M HttpResponse :=
  try_catch
    (match requireAuth c with
     | None => ret (json (JError "Unauthorized") 401)
     | Some user =>
         project <- storage.getProject projectId ;;
         match project with
         | None => ret (json (JError "Project not found") 404)
         | Some project =>
             if negb (Project.user_id project =? user)%string then
               ret (json (JError "Forbidden") 403)
             else
               if_truthy (Project.root_drive_id project) (fun root =>
                 providerToken <- getValidProviderToken user ;;
                 if_truthy providerToken (fun providerToken =>
                   try_catch
                     (googleDrive.trashFile providerToken root ;;
                      console LOG "Moved Drive folder to trash:")
                     (fun driveError => console ERROR "Failed to trash Drive folder:"))) ;;
               storage.softDeleteProject projectId user ;;
               ret (json (JSuccess "تم نقل المشروع إلى سلة المحذوفات") 200)
         end
     end)
    (fun error =>
       console ERROR "Delete project error:" ;;
       ret (json (JError "Failed to delete project") 500)).

(** [app.post("/api/projects/:id/restore")] *)
Definition POST_projects_id_restore (c : Variables) (projectId : string)
  : M HttpResponse :=
  try_catch
    (match requireAuth c with
     | None => ret (json (JError "Unauthorized") 401)
     | Some user =>
         deletedProjects <- storage.getDeletedProjects user ;;
         match find (fun p => (Project.id p =? projectId)%string) deletedProjects with
         | None => ret (json (JError "Project not found in trash") 404)
         | Some project =>
             if negb (Project.user_id project =? user)%string then
               ret (json (JError "Forbidden") 403)
             else
               if_truthy (Project.root_drive_id project) (fun root =>
                 providerToken <- getValidProviderToken user ;;
                 if_truthy providerToken (fun providerToken =>
                   try_catch
                     (googleDrive.untrashFile providerToken root ;;
                      console LOG "Restored Drive folder from trash:")
                     (fun driveError => console ERROR "Failed to restore Drive folder:"))) ;;
               storage.restoreProject projectId user ;;
               ret (json (JSuccess "تم استعادة المشروع بنجاح") 200)
         end
     end)
    (fun error =>
       console ERROR "Restore project error:" ;;
       ret (json (JError "Failed to restore project") 500)).

(** [app.delete("/api/projects/:id/permanent")] *)
Definition DELETE_projects_id_permanent (c : Variables) (projectId : string)
  : M HttpResponse :=
  try_catch
    (match requireAuth c with
     | None => ret (json (JError "Unauthorized") 401)
     | Some user =>
         deletedProjects <- storage.getDeletedProjects user ;;
         match find (fun p => (Project.id p =? projectId)%string) deletedProjects with
         | None => ret (json (JError "Project not found") 404)
         | Some project =>
             if negb (Project.user_id project =? user)%string then
               ret (json (JError "Forbidden") 403)
             else
               if_truthy (Project.root_drive_id project) (fun root =>
                 providerToken <- getValidProviderToken user ;;
                 if_truthy providerToken (fun providerToken =>
                   try_catch
                     (googleDrive.permanentDeleteFile providerToken root ;;
                      console LOG "Permanently deleted Drive folder:")
                     (fun driveError => console ERROR "Failed to delete Drive folder:"))) ;;
               storage.hardDeleteProject projectId user ;;
               ret (json (JSuccess "تم حذف المشروع نهائياً") 200)
         end
     end)
    (fun error =>
       console ERROR "Permanent delete project error:" ;;
       ret (json (JError "Failed to permanently delete project") 500)).

(** [app.delete("/api/folders/:id")]: soft delete of a folder. *)
Definition DELETE_folders_id (c : Variables) (folderId : string) : M HttpResponse :=
  try_catch
    (match requireAuth c with
     | None => ret (json (JError "Unauthorized") 401)
     | Some user =>
         folder <- storage.getFolder folderId ;;
         match folder with
         | None => ret (json (JError "Folder not found") 404)
         | Some folder =>
             project <- storage.getProject (Folder.project_id folder) ;;
             if not_owner project user then ret (json (JError "Forbidden") 403)
             else
               if_truthy (Some (Folder.drive_folder_id folder)) (fun driveId =>
                 providerToken <- getValidProviderToken user ;;
                 if_truthy providerToken (fun providerToken =>
                   try_catch
                     (googleDrive.trashFile providerToken driveId ;;
                      console LOG "Moved Drive folder to trash:")
                     (fun driveError => console ERROR "Failed to trash Drive folder:"))) ;;
               storage.softDeleteFolder folderId ;;
               ret (json (JSuccess "تم نقل المجلد إلى سلة المحذوفات") 200)
         end
     end)
    (fun error =>
       console ERROR "Delete folder error:" ;;
       ret (json (JError "Failed to delete folder") 500)).

(** [app.delete("/api/files/:id")]: soft delete of a file. *)
Definition DELETE_files_id (c : Variables) (fileId : string) : M HttpResponse :=
  try_catch
    (match requireAuth c with
     | None => ret (json (JError "Unauthorized") 401)
     | Some user =>
         file <- storage.getFile fileId ;;
         match file with
         | None => ret (json (JError "File not found") 404)
         | Some file =>
             project <- storage.getProject (FileMetadata.project_id file) ;;
             if not_owner project user then ret (json (JError "Forbidden") 403)
             else
               if_truthy (Some (FileMetadata.drive_file_id file)) (fun driveId =>
                 providerToken <- getValidProviderToken user ;;
                 if_truthy providerToken (fun providerToken =>
                   try_catch
                     (googleDrive.trashFile providerToken driveId ;;
                      console LOG "Moved Drive file to trash:")
                     (fun driveError => console ERROR "Failed to trash Drive file:"))) ;;
               storage.deleteFile fileId ;;
               ret (json (JSuccess "تم نقل الملف إلى سلة المحذوفات") 200)
         end
     end)
    (fun error =>
       console ERROR "Delete file error:" ;;
       ret (json (JError "Failed to delete file") 500)).

(** [app.get("/api/projects/:id/trash")]: the trash of a project. *)
Definition GET_projects_id_trash (c : Variables) (projectId : string) : M HttpResponse :=
  try_catch
    (match requireAuth c with
     | None => ret (json (JError "Unauthorized") 401)
     | Some user =>
         project <- storage.getProject projectId ;;
         match project with
         | None => ret (json (JError "Project not found") 404)
         | Some project =>
             if negb (Project.user_id project =? user)%string then
               ret (json (JError "Forbidden") 403)
             else
               deletedFiles <- storage.getDeletedFiles projectId ;;
               deletedFolders <- storage.getDeletedFolders projectId ;;
               ret (json (JTrash deletedFiles deletedFolders) 200)
         end
     end)
    (fun error =>
       console ERROR "Get trash error:" ;;
       ret (json (JError "Failed to get trash") 500)).

(** [app.post("/api/files/:id/restore")] *)
Definition POST_files_id_restore (c : Variables) (fileId : string) : M HttpResponse :=
  try_catch
    (match requireAuth c with
     | None => ret (json (JError "Unauthorized") 401)
     | Some user =>
         file <- storage.getFile fileId ;;
         match file with
         | None => ret (json (JError "File not found in trash") 404)
         | Some file =>
             if negb (FileMetadata.is_deleted file) then
               ret (json (JError "File not found in trash") 404)
             else
               project <- storage.getProject (FileMetadata.project_id file) ;;
               if not_owner project user then ret (json (JError "Forbidden") 403)
               else
                 if_truthy (Some (FileMetadata.drive_file_id file)) (fun driveId =>
                   providerToken <- getValidProviderToken user ;;
                   if_truthy providerToken (fun providerToken =>
                     try_catch
                       (googleDrive.untrashFile providerToken driveId ;;
                        console LOG "Restored Drive file from trash:")
                       (fun driveError => console ERROR "Failed to restore Drive file:"))) ;;
                 storage.restoreFile fileId ;;
                 ret (json (JSuccess "تم استعادة الملف بنجاح") 200)
         end
     end)
    (fun error =>
       console ERROR "Restore file error:" ;;
       ret (json (JError "Failed to restore file") 500)).

(** [app.delete("/api/files/:id/permanent")] *)
Definition DELETE_files_id_permanent (c : Variables) (fileId : string) : M HttpResponse :=
  try_catch
    (match requireAuth c with
     | None => ret (json (JError "Unauthorized") 401)
     | Some user =>
         file <- storage.getFile fileId ;;
         match file with
         | None => ret (json (JError "File not found") 404)
         | Some file =>
             if negb (FileMetadata.is_deleted file) then
               ret (json (JError "File not found") 404)
             else
               project <- storage.getProject (FileMetadata.project_id file) ;;
               if not_owner project user then ret (json (JError "Forbidden") 403)
               else
                 if_truthy (Some (FileMetadata.drive_file_id file)) (fun driveId =>
                   providerToken <- getValidProviderToken user ;;
                   if_truthy providerToken (fun providerToken =>
                     try_catch
                       (googleDrive.permanentDeleteFile providerToken driveId ;;
                        console LOG "Permanently deleted Drive file:")
                       (fun driveError => console ERROR "Failed to delete Drive file:"))) ;;
                 storage.hardDeleteFile fileId ;;
                 ret (json (JSuccess "تم حذف الملف نهائياً") 200)
         end
     end)
    (fun error =>
       console ERROR "Permanent delete file error:" ;;
       ret (json (JError "Failed to permanently delete file") 500)).

(** [app.post("/api/folders/:id/restore")] *)
Definition POST_folders_id_restore (c : Variables) (folderId : string) : M HttpResponse :=
  try_catch
    (match requireAuth c with
     | None => ret (json (JError "Unauthorized") 401)
     | Some user =>
         folder <- storage.getFolder folderId ;;
         match folder with
         | None => ret (json (JError "Folder not found in trash") 404)
         | Some folder =>
             if negb (Folder.is_deleted folder) then
               ret (json (JError "Folder not found in trash") 404)
             else
               project <- storage.getProject (Folder.project_id folder) ;;
               if not_owner project user then ret (json (JError "Forbidden") 403)
               else
                 if_truthy (Some (Folder.drive_folder_id folder)) (fun driveId =>
                   providerToken <- getValidProviderToken user ;;
                   if_truthy providerToken (fun providerToken =>
                     try_catch
                       (googleDrive.untrashFile providerToken driveId ;;
                        console LOG "Restored Drive folder from trash:")
                       (fun driveError => console ERROR "Failed to restore Drive folder:"))) ;;
                 storage.restoreFolder folderId ;;
                 ret (json (JSuccess "تم استعادة المجلد بنجاح") 200)
         end
     end)
    (fun error =>
       console ERROR "Restore folder error:" ;;
       ret (json (JError "Failed to restore folder") 500)).

(** [app.delete("/api/folders/:id/permanent")] *)
Definition DELETE_folders_id_permanent (c : Variables) (folderId : string)
  : M HttpResponse :=
  try_catch
    (match requireAuth c with
     | None => ret (json (JError "Unauthorized") 401)
     | Some user =>
         folder <- storage.getFolder folderId ;;
         match folder with
         | None => ret (json (JError "Folder not found") 404)
         | Some folder =>
             if negb (Folder.is_deleted folder) then
               ret (json (JError "Folder not found") 404)
             else
               project <- storage.getProject (Folder.project_id folder) ;;
               if not_owner project user then ret (json (JError "Forbidden") 403)
               else
                 if_truthy (Some (Folder.drive_folder_id folder)) (fun driveId =>
                   providerToken <- getValidProviderToken user ;;
                   if_truthy providerToken (fun providerToken =>
                     try_catch
                       (googleDrive.permanentDeleteFile providerToken driveId ;;
                        console LOG "Permanently deleted Drive folder:")
                       (fun driveError => console ERROR "Failed to delete Drive folder:"))) ;;
                 storage.hardDeleteFolder folderId ;;
                 ret (json (JSuccess "تم حذف المجلد نهائياً") 200)
         end
     end)
    (fun error =>
       console ERROR "Permanent delete folder error:" ;;
       ret (json (JError "Failed to permanently delete folder") 500)).

(** [app.delete("/api/projects/:id/trash")]: empty the trash of a project. *)
Definition DELETE_projects_id_trash (c : Variables) (projectId : string)
  : M HttpResponse :=
  try_catch
    (match requireAuth c with
     | None => ret (json (JError "Unauthorized") 401)
     | Some user =>
         project <- storage.getProject projectId ;;
         match project with
         | None => ret (json (JError "Project not found") 404)
         | Some project =>
             if negb (Project.user_id project =? user)%string then
               ret (json (JError "Forbidden") 403)
             else
               providerToken <- getValidProviderToken user ;;
               deletedFiles <- storage.getDeletedFiles projectId ;;
               for_each deletedFiles (fun file =>
                 (if truthy (FileMetadata.drive_file_id file) && truthy_opt providerToken
                  then
                    try_catch
                      (googleDrive.permanentDeleteFile (interpolate providerToken)
                         (FileMetadata.drive_file_id file))
                      (fun driveError => console ERROR "Failed to delete Drive file:")
                  else ret tt) ;;
                 storage.hardDeleteFile (FileMetadata.id file) ;;
                 ret tt) ;;
               deletedFolders <- storage.getDeletedFolders projectId ;;
               for_each deletedFolders (fun folder =>
                 (if truthy (Folder.drive_folder_id folder) && truthy_opt providerToken
                  then
                    try_catch
                      (googleDrive.permanentDeleteFile (interpolate providerToken)
                         (Folder.drive_folder_id folder))
                      (fun driveError => console ERROR "Failed to delete Drive folder:")
                  else ret tt) ;;
                 storage.hardDeleteFolder (Folder.id folder) ;;
                 ret tt) ;;
               ret (json (JSuccess "تم تفريغ سلة المحذوفات") 200)
         end
     end)
    (fun error =>
       console ERROR "Empty trash error:" ;;
       ret (json (JError "Failed to empty trash") 500)).

(** ** The API surface of the trash lifecycle *)

Inductive Kind := KProject | KFolder | KFile.

Inductive Transition := SoftDelete | Restore | HardDelete.

Inductive ApiCall :=
| CreateProject (body : option CreateProjectBody)
| UpdateProject (projectId : string) (body : option PatchProjectBody)
| Lifecycle (t : Transition) (k : Kind) (id : string)
| ListTrash (projectId : string)
| EmptyTrash (projectId : string).

(** The route each call reaches. *)
Definition route (c : Variables) (call : ApiCall) : M HttpResponse :=
  match call with
  | CreateProject body => POST_projects c body
  | UpdateProject projectId body => PATCH_projects_id c projectId body
  | Lifecycle SoftDelete KProject id => DELETE_projects_id c id
  | Lifecycle Restore KProject id => POST_projects_id_restore c id
  | Lifecycle HardDelete KProject id => DELETE_projects_id_permanent c id
  | Lifecycle SoftDelete KFolder id => DELETE_folders_id c id
  | Lifecycle Restore KFolder id => POST_folders_id_restore c id
  | Lifecycle HardDelete KFolder id => DELETE_folders_id_permanent c id
  | Lifecycle SoftDelete KFile id => DELETE_files_id c id
  | Lifecycle Restore KFile id => POST_files_id_restore c id
  | Lifecycle HardDelete KFile id => DELETE_files_id_permanent c id
  | ListTrash projectId => GET_projects_id_trash c projectId
  | EmptyTrash projectId => DELETE_projects_id_trash c projectId
  end.

(** A request: the middleware, then the route. [None] stands for a request
    the middleware let through with a [userId] that is no string: the routes
    are not modelled for it. *)
Definition serve (accessToken userIdHeader : option string) (call : ApiCall)
  : M (option HttpResponse) :=
  ctx <- auth_middleware accessToken userIdHeader ;;
  match ctx with
  | Declared c => r <- route c call ;; ret (Some r)
  | OtherUser => ret None
  end.

(** The four calls of the storage client that remove or (un)trash an object. *)
Inductive DriveOp := OpDelete | OpTrash | OpUntrash | OpPermanentDelete.

Definition drive_call (op : DriveOp) : string -> string -> M unit :=
  match op with
  | OpDelete => googleDrive.deleteFile
  | OpTrash => googleDrive.trashFile
  | OpUntrash => googleDrive.untrashFile
  | OpPermanentDelete => googleDrive.permanentDeleteFile
  end.

Definition drive_request (op : DriveOp) : string -> string -> Request :=
  match op with
  | OpDelete => googleDrive.deleteFile_request
  | OpTrash => googleDrive.trashFile_request
  | OpUntrash => googleDrive.untrashFile_request
  | OpPermanentDelete => googleDrive.permanentDeleteFile_request
  end.

(** ** Reasoning about runs *)

(** [wp m Q w]: the run of [m] from [w] ends in an outcome and a world that
    satisfy [Q]. Every action is a total function, so this is total
    correctness. *)
Definition wp {A} (m : M A) (Q : Outcome A -> World -> Prop) (w : World) : Prop :=
  Q (fst (m w)) (snd (m w)).

Lemma wp_ret {A} (a : A) Q w : Q (Ok a) w -> wp (ret a) Q w.
Proof. exact (fun H => H). Qed.

Lemma wp_throw {A} (e : Exn) (Q : Outcome A -> World -> Prop) w :
  Q (Throw e) w -> wp (throw e) Q w.
Proof. exact (fun H => H). Qed.

Lemma wp_bind {A B} (m : M A) (k : A -> M B) Q w :
  wp m (fun r w1 => match r with
                    | Ok a => wp (k a) Q w1
                    | Throw e => Q (Throw e) w1
                    end) w ->
  wp (bind m k) Q w.
Proof.
  unfold wp, bind. destruct (m w) as [[a | e] w1]; simpl; trivial.
Qed.

Lemma wp_try_catch {A} (m : M A) (h : Exn -> M A) Q w :
  wp m (fun r w1 => match r with
                    | Ok a => Q (Ok a) w1
                    | Throw e => wp (h e) Q w1
                    end) w ->
  wp (try_catch m h) Q w.
Proof.
  unfold wp, try_catch. destruct (m w) as [[a | e] w1]; simpl; trivial.
Qed.

Lemma wp_mono {A} (m : M A) (Q Q' : Outcome A -> World -> Prop) w :
  wp m Q w -> (forall r w', Q r w' -> Q' r w') -> wp m Q' w.
Proof. unfold wp. auto. Qed.

Lemma wp_run {A} (m : M A) Q w r w' : wp m Q w -> m w = (r, w') -> Q r w'.
Proof. unfold wp. intros H E. rewrite E in H. exact H. Qed.

Lemma wp_intro {A} (m : M A) (Q : Outcome A -> World -> Prop) w :
  (forall r w', m w = (r, w') -> Q r w') -> wp m Q w.
Proof. unfold wp. intros H. apply H. destruct (m w); reflexivity. Qed.

Lemma wp_console lvl msg Q w :
  Q (Ok tt) (record (EvConsole lvl msg) w) -> wp (console lvl msg) Q w.
Proof. exact (fun H => H). Qed.

Lemma wp_ask Q w : Q (Ok (env w)) w -> wp ask Q w.
Proof. exact (fun H => H). Qed.

Lemma wp_get_cache Q w : Q (Ok (providerTokensCache w)) w -> wp get_cache Q w.
Proof. exact (fun H => H). Qed.

Lemma wp_modify_cache f Q w :
  Q (Ok tt) (with_providerTokensCache (f (providerTokensCache w)) w) ->
  wp (modify_cache f) Q w.
Proof. exact (fun H => H). Qed.

Lemma wp_date_now Q w :
  Q (Ok (clock (env w) (tick w))) (record (EvDate (clock (env w) (tick w))) w) ->
  wp date_now Q w.
Proof. exact (fun H => H). Qed.

Lemma wp_fetch req Q w :
  (forall res, res = net (env w) (tick w) req ->
     match res with
     | Rejected => Q (Throw FetchError) (record (EvFetch req res) w)
     | Responded r => Q (Ok r) (record (EvFetch req res) w)
     end) ->
  wp (fetch req) Q w.
Proof.
  intros H. unfold wp, fetch. specialize (H _ eq_refl).
  destruct (net (env w) (tick w) req); exact H.
Qed.

Lemma wp_json_of r Q w :
  match body r with
  | Some j => Q (Ok j) w
  | None => Q (Throw SyntaxError) w
  end ->
  wp (json_of r) Q w.
Proof. unfold wp, json_of. destruct (body r); exact (fun H => H). Qed.

Lemma wp_req_json {A} (b : option A) Q w :
  match b with
  | Some v => Q (Ok v) w
  | None => Q (Throw SyntaxError) w
  end ->
  wp (req_json b) Q w.
Proof. unfold wp, req_json. destruct b; exact (fun H => H). Qed.

Lemma wp_query {A} table v (run : nat -> World -> PgResult A * World) Q w :
  (db_error (env w) (tick w) = true ->
   Q (Ok PgError) (record (EvQuery table v true) w)) ->
  (db_error (env w) (tick w) = false ->
   Q (Ok (fst (run (tick w) (record (EvQuery table v false) w))))
     (snd (run (tick w) (record (EvQuery table v false) w)))) ->
  wp (query table v run) Q w.
Proof.
  intros Ht Hf. unfold wp, query.
  destruct (db_error (env w) (tick w)).
  - apply Ht. reflexivity.
  - specialize (Hf eq_refl).
    destruct (run (tick w) (record (EvQuery table v false) w)). exact Hf.
Qed.

(** ** The storage client: a 404 is a success *)

(** C7. For a response of the provider to the request of [deleteFile],
    [trashFile], [untrashFile] or [permanentDeleteFile]: a 404 makes the call
    return normally; the call returns normally exactly when the response is ok
    or a 404, and throws exactly when it is neither. *)
Theorem drive_call_404_is_success :
  forall (op : DriveOp) (accessToken fileId : string) (w : World) (r : Response),
    net (env w) (tick w) (drive_request op accessToken fileId) = Responded r ->
    (status r = 404 -> fst (drive_call op accessToken fileId w) = Ok tt)
    /\ (fst (drive_call op accessToken fileId w) = Ok tt
        <-> (ok r = true \/ status r = 404))
    /\ ((exists e, fst (drive_call op accessToken fileId w) = Throw e)
        <-> (ok r = false /\ status r <> 404)).
Proof.
  intros op tok fid w r Hnet.
  assert (Hrun : fst (drive_call op tok fid w)
                 = if negb (ok r) && negb (status r =? 404)
                   then fst (bind (json_of r) (fun error =>
                          throw (Error (match op with
                             | OpDelete => "Failed to delete file: "
                             | OpTrash => "Failed to trash file: "
                             | OpUntrash => "Failed to untrash file: "
                             | OpPermanentDelete => "Failed to permanently delete file: "
                             end ++ or_else (error_message error) (statusText r))))
                          (record (EvFetch (drive_request op tok fid) (Responded r)) w))
                   else Ok tt).
  { destruct op; cbn;
      unfold googleDrive.deleteFile, googleDrive.trashFile,
        googleDrive.untrashFile, googleDrive.permanentDeleteFile, bind, fetch;
      cbn in Hnet; rewrite Hnet;
      destruct (negb (ok r) && negb (status r =? 404)); reflexivity. }
  rewrite Hrun. clear Hrun.
  assert (Hthrows : exists e,
             fst (bind (json_of r) (fun error =>
                    throw (A := unit) (Error (match op with
                       | OpDelete => "Failed to delete file: "
                       | OpTrash => "Failed to trash file: "
                       | OpUntrash => "Failed to untrash file: "
                       | OpPermanentDelete => "Failed to permanently delete file: "
                       end ++ or_else (error_message error) (statusText r))))
                    (record (EvFetch (drive_request op tok fid) (Responded r)) w))
             = Throw e).
  { unfold bind, json_of. destruct (body r); cbn; eauto. }
  destruct Hthrows as [e He]. rewrite He.
  destruct (ok r) eqn:Hok; destruct (Z.eqb_spec (status r) 404) as [H404 | H404]; cbn;
    (split; [intros Hx | split; split; intros Hx]);
    first [ reflexivity | tauto | discriminate | contradiction
          | solve [eauto]
          | (destruct Hx as [e' Hx]; discriminate)
          | (destruct Hx as [Hx | Hx]; [discriminate | contradiction])
          | (destruct Hx as [Hx1 Hx2]; first [discriminate | contradiction]) ].
Qed.

(** ** Frames: what a run leaves alone *)

(** [preserves R m]: whatever relation [R] holds between a reference world
    and the world [m] starts in still holds where [m] ends. *)
Definition preserves {A} (R : World -> World -> Prop) (m : M A) : Prop :=
  forall w0 w, R w0 w -> wp m (fun _ w' => R w0 w') w.

(** [safe m]: [m] never throws. *)
Definition safe {A} (m : M A) : Prop :=
  forall w, wp m (fun r _ => exists a, r = Ok a) w.

Lemma preserves_ret {A} R (a : A) : preserves R (ret a).
Proof. intros w0 w H. exact H. Qed.

Lemma preserves_throw {A} R e : preserves R (throw (A := A) e).
Proof. intros w0 w H. exact H. Qed.

Lemma preserves_bind {A B} R (m : M A) (k : A -> M B) :
  preserves R m -> (forall a, preserves R (k a)) -> preserves R (bind m k).
Proof.
  intros Hm Hk w0 w H. apply wp_bind.
  eapply wp_mono; [apply (Hm w0 w H) |].
  intros [a | e] w1 H1; [apply (Hk a w0 w1 H1) | exact H1].
Qed.

Lemma preserves_try_catch {A} R (m : M A) (h : Exn -> M A) :
  preserves R m -> (forall e, preserves R (h e)) -> preserves R (try_catch m h).
Proof.
  intros Hm Hh w0 w H. apply wp_try_catch.
  eapply wp_mono; [apply (Hm w0 w H) |].
  intros [a | e] w1 H1; [exact H1 | apply (Hh e w0 w1 H1)].
Qed.

Lemma preserves_console R lvl msg :
  (forall w0 w, R w0 w -> R w0 (record (EvConsole lvl msg) w)) ->
  preserves R (console lvl msg).
Proof. intros HR w0 w H. apply wp_console, HR, H. Qed.

Lemma preserves_date_now R :
  (forall t w0 w, R w0 w -> R w0 (record (EvDate t) w)) ->
  preserves R date_now.
Proof. intros HR w0 w H. apply wp_date_now, HR, H. Qed.

Lemma preserves_fetch R req :
  (forall res w0 w, R w0 w -> R w0 (record (EvFetch req res) w)) ->
  preserves R (fetch req).
Proof.
  intros HR w0 w H. apply wp_fetch. intros res _.
  destruct res; apply HR, H.
Qed.

Lemma preserves_ask R : preserves R ask.
Proof. intros w0 w H. exact H. Qed.

Lemma preserves_get_cache R : preserves R get_cache.
Proof. intros w0 w H. exact H. Qed.

Lemma preserves_json_of R r : preserves R (json_of r).
Proof. intros w0 w H. apply wp_json_of. destruct (body r); exact H. Qed.

Lemma preserves_req_json {A} R (b : option A) : preserves R (req_json b).
Proof. intros w0 w H. apply wp_req_json. destruct b; exact H. Qed.

Lemma preserves_query {A} R table v (run : nat -> World -> PgResult A * World) :
  (forall failed w0 w, R w0 w -> R w0 (record (EvQuery table v failed) w)) ->
  (forall n w0 w, R w0 w -> R w0 (snd (run n w))) ->
  preserves R (query table v run).
Proof.
  intros HR Hrun w0 w H. apply wp_query; intros _.
  - apply HR, H.
  - apply Hrun, HR, H.
Qed.

Lemma preserves_modify_cache R f :
  (forall w0 w, R w0 w ->
     R w0 (with_providerTokensCache (f (providerTokensCache w)) w)) ->
  preserves R (modify_cache f).
Proof. intros HR w0 w H. apply wp_modify_cache, HR, H. Qed.

Lemma preserves_for_each {A} R (l : list A) (body : A -> M unit) :
  (forall x, preserves R (body x)) -> preserves R (for_each l body).
Proof.
  intros Hb. induction l as [| x l IH]; cbn [for_each].
  - apply preserves_ret.
  - apply preserves_bind; [apply Hb | intros _; exact IH].
Qed.

Lemma preserves_if_truthy R o k :
  (forall s, preserves R (k s)) -> preserves R (if_truthy o k).
Proof.
  intros Hk. unfold if_truthy. destruct o as [s |]; [destruct (truthy s) |];
    auto using preserves_ret.
Qed.

Lemma preserves_and {A} (R1 R2 : World -> World -> Prop) (m : M A) :
  preserves R1 m -> preserves R2 m ->
  preserves (fun w0 w => R1 w0 w /\ R2 w0 w) m.
Proof.
  intros H1 H2 w0 w [Ha Hb]. unfold wp. split; [apply (H1 w0 w Ha) | apply (H2 w0 w Hb)].
Qed.

(** The relations the proofs below frame with. *)

(** Nothing but the trace moved. *)
Definition same_state (w0 w : World) : Prop :=
  env w = env w0
  /\ projects w = projects w0
  /\ folders w = folders w0
  /\ files_metadata w = files_metadata w0
  /\ drive_connections w = drive_connections w0
  /\ providerTokensCache w = providerTokensCache w0.

(** The environment and the three entity tables are where they were. *)
Definition same_entities (w0 w : World) : Prop :=
  env w = env w0
  /\ projects w = projects w0
  /\ folders w = folders w0
  /\ files_metadata w = files_metadata w0.

Lemma same_state_refl w : same_state w w.
Proof. repeat split. Qed.

Lemma same_entities_refl w : same_entities w w.
Proof. repeat split. Qed.

Lemma same_state_entities w0 w : same_state w0 w -> same_entities w0 w.
Proof. unfold same_state, same_entities. tauto. Qed.

Create HintDb frame discriminated.
Create HintDb model.
Create HintDb store.

#[export] Hint Resolve preserves_ret preserves_throw preserves_ask preserves_get_cache
  preserves_json_of preserves_req_json : frame.


#[export] Hint Unfold
  driveConnectionsRepository.storeTokens driveConnectionsRepository.getTokens
  projectsRepository.getAll projectsRepository.getByIdWithoutUser
  projectsRepository.create projectsRepository.updateWithoutUser
  projectsRepository.softDelete projectsRepository.restore projectsRepository.hardDelete
  foldersRepository.getAll foldersRepository.getById foldersRepository.softDelete
  foldersRepository.restore foldersRepository.hardDelete
  filesMetadataRepository.getAll filesMetadataRepository.getById
  filesMetadataRepository.softDelete filesMetadataRepository.restore
  filesMetadataRepository.hardDelete
  storage.getProjects storage.getProject storage.createProject storage.updateProject
  storage.getDeletedProjects storage.softDeleteProject storage.restoreProject
  storage.hardDeleteProject storage.getFolder storage.getFile storage.deleteFile
  storage.getDeletedFiles storage.restoreFile storage.hardDeleteFile
  storage.getDeletedFolders storage.softDeleteFolder storage.restoreFolder
  storage.hardDeleteFolder storage.storeProviderToken storage.getProviderToken
  storage.clearProviderTokenCache
  googleDrive.createFolder googleDrive.deleteFile googleDrive.trashFile
  googleDrive.untrashFile googleDrive.permanentDeleteFile googleDrive.refreshAccessToken
  : model.

#[export] Hint Unfold
  projectsRepository.getAll projectsRepository.getByIdWithoutUser
  projectsRepository.create projectsRepository.updateWithoutUser
  projectsRepository.softDelete projectsRepository.restore projectsRepository.hardDelete
  foldersRepository.getAll foldersRepository.getById foldersRepository.softDelete
  foldersRepository.restore foldersRepository.hardDelete
  filesMetadataRepository.getAll filesMetadataRepository.getById
  filesMetadataRepository.softDelete filesMetadataRepository.restore
  filesMetadataRepository.hardDelete
  storage.getProjects storage.getProject storage.createProject storage.updateProject
  storage.getDeletedProjects storage.softDeleteProject storage.restoreProject
  storage.hardDeleteProject storage.getFolder storage.getFile storage.deleteFile
  storage.getDeletedFiles storage.restoreFile storage.hardDeleteFile
  storage.getDeletedFolders storage.softDeleteFolder storage.restoreFolder
  storage.hardDeleteFolder
  : store.

(** The events that are neither a request on a Drive file (or folder) nor an
    insert: what reading, logging and the credential refresh leave behind. *)
Definition is_file_request (req : Request) : bool :=
  prefix "https://www.googleapis.com/drive/v3/files" (url req).

Definition background (e : Event) : bool :=
  match e with
  | EvFetch req _ => negb (is_file_request req)
  | EvQuery _ INSERT _ => false
  | _ => true
  end.

(** The trace grew, by events that all satisfy [P]. *)
Definition adds (P : Event -> bool) (w0 w : World) : Prop :=
  exists evs, trace w = (evs ++ trace w0)%list /\ forallb P evs = true.

Lemma adds_refl P w : adds P w w.
Proof. exists []. split; reflexivity. Qed.

Lemma adds_record P e w0 w : P e = true -> adds P w0 w -> adds P w0 (record e w).
Proof.
  intros He (evs & E & H). exists (e :: evs). split.
  - cbn. rewrite E. reflexivity.
  - cbn. rewrite He, H. reflexivity.
Qed.

(** A frame proof: split the action at its head until nothing is left. The
    side conditions are closed by conversion (a relation on the stores does not
    see the trace) or by [adds_record]. *)
Ltac frame_side :=
  let H := fresh in
  intros; first
    [ eassumption
    | apply adds_record; [reflexivity | eassumption]
    | match goal with H : adds _ _ _ |- _ => exact H end ].

Ltac frame_step :=
  first
    [ apply preserves_bind; [| intros ?]
    | apply preserves_try_catch; [| intros ?]
    | apply preserves_if_truthy; intros ?
    | apply preserves_for_each; intros ?
    | apply preserves_console; frame_side
    | apply preserves_date_now; frame_side
    | apply preserves_fetch; frame_side
    | apply preserves_query; frame_side
    | apply preserves_modify_cache; frame_side
    | solve [auto with frame]
    | match goal with
      | |- preserves _ (match ?x with _ => _ end) => destruct x
      | |- preserves _ (let _ := _ in _) => cbv zeta
      end
    | progress autounfold with model ].

Ltac frame := repeat frame_step.

Lemma getValidProviderToken_entities user :
  preserves same_entities (getValidProviderToken user).
Proof. unfold getValidProviderToken. frame. Qed.

Lemma drive_call_state op tok id : preserves same_state (drive_call op tok id).
Proof. destruct op; cbn [drive_call]; frame. Qed.

Lemma getProject_state id : preserves same_state (storage.getProject id).
Proof. frame. Qed.

Lemma getFolder_state id : preserves same_state (storage.getFolder id).
Proof. frame. Qed.

Lemma getFile_state id : preserves same_state (storage.getFile id).
Proof. frame. Qed.

Lemma getProjects_state user : preserves same_state (storage.getProjects user).
Proof. frame. Qed.

Lemma getDeletedProjects_state user : preserves same_state (storage.getDeletedProjects user).
Proof. frame. Qed.

Lemma getDeletedFiles_state id : preserves same_state (storage.getDeletedFiles id).
Proof. frame. Qed.

Lemma getDeletedFolders_state id : preserves same_state (storage.getDeletedFolders id).
Proof. frame. Qed.

Lemma getValidProviderToken_quiet user :
  preserves (adds background) (getValidProviderToken user).
Proof. unfold getValidProviderToken. frame. Qed.

(** ** Safety: what never throws *)

Lemma safe_ret {A} (a : A) : safe (ret a).
Proof. intros w. exists a. reflexivity. Qed.

Lemma safe_bind {A B} (m : M A) (k : A -> M B) :
  safe m -> (forall a, safe (k a)) -> safe (bind m k).
Proof.
  intros Hm Hk w. apply wp_bind. eapply wp_mono; [apply Hm |].
  intros r w1 [a ->]. apply Hk.
Qed.

Lemma safe_try_catch {A} (m : M A) (h : Exn -> M A) :
  (forall e, safe (h e)) -> safe (try_catch m h).
Proof.
  intros Hh w. apply wp_try_catch. apply wp_intro.
  intros [a | e] w1 _; [exists a; reflexivity | apply Hh].
Qed.

Lemma safe_console lvl msg : safe (console lvl msg).
Proof. intros w. exists tt. reflexivity. Qed.

Lemma safe_date_now : safe date_now.
Proof. intros w. eexists. reflexivity. Qed.

Lemma safe_ask : safe ask.
Proof. intros w. eexists. reflexivity. Qed.

Lemma safe_get_cache : safe get_cache.
Proof. intros w. eexists. reflexivity. Qed.

Lemma safe_modify_cache f : safe (modify_cache f).
Proof. intros w. exists tt. reflexivity. Qed.

Lemma safe_query {A} table v (run : nat -> World -> PgResult A * World) :
  safe (query table v run).
Proof. intros w. apply wp_query; intros _; eexists; reflexivity. Qed.

Lemma safe_if_truthy o k : (forall s, safe (k s)) -> safe (if_truthy o k).
Proof.
  intros Hk. unfold if_truthy. destruct o as [s |]; [destruct (truthy s) |];
    auto using safe_ret.
Qed.

Lemma safe_for_each {A} (l : list A) (body : A -> M unit) :
  (forall x, safe (body x)) -> safe (for_each l body).
Proof.
  intros Hb. induction l as [| x l IH]; cbn [for_each].
  - apply safe_ret.
  - apply safe_bind; [apply Hb | intros _; exact IH].
Qed.

Create HintDb safety.

#[export] Hint Resolve safe_ret safe_console safe_date_now safe_ask safe_get_cache
  safe_modify_cache safe_query : safety.

Ltac safe_step :=
  first
    [ apply safe_try_catch; intros ?
    | apply safe_bind; [| intros ?]
    | apply safe_if_truthy; intros ?
    | apply safe_for_each; intros ?
    | solve [auto with safety]
    | match goal with
      | |- safe (match ?x with _ => _ end) => destruct x
      | |- safe (let _ := _ in _) => cbv zeta
      end
    | progress autounfold with model ].

Ltac safety := repeat safe_step.

Lemma getValidProviderToken_safe user : safe (getValidProviderToken user).
Proof. unfold getValidProviderToken. safety. Qed.

(** Every route answers: whatever is thrown inside is caught and turned into
    a response. *)
Lemma route_safe c call : safe (route c call).
Proof.
  destruct call as [body | id body | [| |] [| |] id | id | id]; cbn [route];
    apply safe_try_catch; intros e; safety.
Qed.

(** ** Symbolic execution *)

Lemma wp_and {A} (m : M A) (Q1 Q2 : Outcome A -> World -> Prop) w :
  wp m Q1 w -> wp m Q2 w -> wp m (fun r w' => Q1 r w' /\ Q2 r w') w.
Proof. unfold wp. auto. Qed.

Ltac wp_step :=
  lazymatch goal with
  | |- wp (bind _ _) _ _ => apply wp_bind
  | |- wp (try_catch _ _) _ _ => apply wp_try_catch
  | |- wp (ret _) _ _ => apply wp_ret
  | |- wp (throw _) _ _ => apply wp_throw
  | |- wp (console _ _) _ _ => apply wp_console
  | |- wp ask _ _ => apply wp_ask
  | |- wp get_cache _ _ => apply wp_get_cache
  | |- wp (modify_cache _) _ _ => apply wp_modify_cache
  | |- wp date_now _ _ => apply wp_date_now
  | |- wp (json_of ?r) _ _ => apply wp_json_of; destruct (body r) eqn:?
  | |- wp (req_json ?b) _ _ => apply wp_req_json; destruct b eqn:?
  | |- wp (fetch _) _ _ =>
      let res := fresh "res" in
      let H := fresh "Hnet" in
      apply wp_fetch; intros res H; destruct res
  | |- wp (if ?b then _ else _) _ _ => destruct b eqn:?
  | |- wp (match ?x with _ => _ end) _ _ => destruct x eqn:?
  end; cbv beta iota.

(** ** The best-effort mirror *)

(** A fetch that makes a storage-client call throw: no response, or a
    response that is neither ok nor a 404. *)
Definition mirror_fails (res : FetchResult) : bool :=
  match res with
  | Rejected => true
  | Responded r => negb (ok r) && negb (status r =? 404)
  end.

(** Since [w0], every request on a Drive file that failed is followed up by
    the error line [msg] on the console. *)
Definition logged (msg : string) (w0 w : World) : Prop :=
  exists evs,
    trace w = (evs ++ trace w0)%list
    /\ forall req res,
         In (EvFetch req res) evs ->
         is_file_request req = true ->
         mirror_fails res = true ->
         In (EvConsole ERROR msg) evs.

(** The block every lifecycle route runs before it writes to the store. *)
Definition mirror (op : DriveOp) (okmsg errmsg user : string) (root : option string)
  : M unit :=
  if_truthy root (fun root =>
    providerToken <- getValidProviderToken user ;;
    if_truthy providerToken (fun providerToken =>
      try_catch
        (drive_call op providerToken root ;; console LOG okmsg)
        (fun driveError => console ERROR errmsg))).

Lemma logged_refl msg w : logged msg w w.
Proof. exists []. split; [reflexivity | intros ? ? []]. Qed.

Lemma logged_of_quiet msg w0 w : adds background w0 w -> logged msg w0 w.
Proof.
  intros (evs & E & H). exists evs. split; [exact E |].
  intros req res Hin Hreq _.
  rewrite forallb_forall in H. specialize (H _ Hin). cbn in H.
  rewrite Hreq in H. discriminate.
Qed.

Lemma getValidProviderToken_spec user w :
  wp (getValidProviderToken user)
     (fun r w' => (exists o, r = Ok o) /\ same_entities w w' /\ adds background w w') w.
Proof.
  apply wp_and; [apply getValidProviderToken_safe |].
  apply wp_and.
  - apply getValidProviderToken_entities, same_entities_refl.
  - apply getValidProviderToken_quiet, adds_refl.
Qed.

Lemma mirror_spec op okmsg errmsg user root w :
  wp (mirror op okmsg errmsg user root)
     (fun r w' => r = Ok tt /\ same_entities w w' /\ logged errmsg w w') w.
Proof.
  assert (Hskip : forall w1, same_entities w w1 -> adds background w w1 ->
            Ok tt = Ok tt /\ same_entities w w1 /\ logged errmsg w w1).
  { intros w1 H1 H2. auto using logged_of_quiet. }
  unfold mirror, if_truthy.
  destruct root as [root |]; [destruct (truthy root) |];
    try (apply wp_ret, Hskip; [apply same_entities_refl | apply adds_refl]).
  apply wp_bind.
  eapply wp_mono; [apply getValidProviderToken_spec |].
  intros r w1 ((o & ->) & Hent & Hq). cbv beta iota.
  destruct o as [tok |]; [destruct (truthy tok) |]; try (apply wp_ret, Hskip; assumption).
  destruct Hq as (evs & E & Hevs).
  assert (Hfail : forall res,
            Ok tt = Ok tt
            /\ same_entities w
                 (record (EvConsole ERROR errmsg)
                    (record (EvFetch (drive_request op tok root) res) w1))
            /\ logged errmsg w
                 (record (EvConsole ERROR errmsg)
                    (record (EvFetch (drive_request op tok root) res) w1))).
  { intros res. split; [reflexivity | split; [exact Hent |]].
    exists (EvConsole ERROR errmsg :: EvFetch (drive_request op tok root) res :: evs).
    split; [cbn; rewrite E; reflexivity | intros; left; reflexivity]. }
  assert (Hfine : forall r,
            mirror_fails (Responded r) = false ->
            Ok tt = Ok tt
            /\ same_entities w
                 (record (EvConsole LOG okmsg)
                    (record (EvFetch (drive_request op tok root) (Responded r)) w1))
            /\ logged errmsg w
                 (record (EvConsole LOG okmsg)
                    (record (EvFetch (drive_request op tok root) (Responded r)) w1))).
  { intros r Hr. split; [reflexivity | split; [exact Hent |]].
    exists (EvConsole LOG okmsg :: EvFetch (drive_request op tok root) (Responded r) :: evs).
    split; [cbn; rewrite E; reflexivity |].
    intros req res [Hin | [Hin | Hin]] Hreq Hres.
    - discriminate.
    - injection Hin as <- <-. rewrite Hr in Hres. discriminate.
    - rewrite forallb_forall in Hevs. specialize (Hevs _ Hin). cbn in Hevs.
      rewrite Hreq in Hevs. discriminate. }
  destruct op; cbn [drive_call];
    unfold googleDrive.deleteFile, googleDrive.trashFile, googleDrive.untrashFile,
      googleDrive.permanentDeleteFile;
    repeat wp_step; first [apply Hfail | apply Hfine; assumption].
Qed.

(** ** The three entity kinds, uniformly *)

Definition row (k : Kind) : Type :=
  match k with
  | KProject => Project.t
  | KFolder => Folder.t
  | KFile => FileMetadata.t
  end.

Definition table (k : Kind) : World -> list (row k) :=
  match k with
  | KProject => projects
  | KFolder => folders
  | KFile => files_metadata
  end.

Definition row_id (k : Kind) : row k -> string :=
  match k with
  | KProject => Project.id
  | KFolder => Folder.id
  | KFile => FileMetadata.id
  end.

Definition row_is_deleted (k : Kind) : row k -> bool :=
  match k with
  | KProject => Project.is_deleted
  | KFolder => Folder.is_deleted
  | KFile => FileMetadata.is_deleted
  end.

Definition row_deleted_at (k : Kind) : row k -> option Z :=
  match k with
  | KProject => Project.deleted_at
  | KFolder => Folder.deleted_at
  | KFile => FileMetadata.deleted_at
  end.

Definition row_updated_at (k : Kind) : row k -> Z :=
  match k with
  | KProject => Project.updated_at
  | KFolder => Folder.updated_at
  | KFile => FileMetadata.updated_at
  end.

(** The project an entity belongs to (a project: itself). *)
Definition row_project (k : Kind) : row k -> string :=
  match k with
  | KProject => Project.id
  | KFolder => Folder.project_id
  | KFile => FileMetadata.project_id
  end.

(** The row with its three lifecycle columns rewritten and every other
    column as it was. *)
Definition relabel (k : Kind) (deleted : bool) (deleted_at : option Z) (updated_at : Z)
  : row k -> row k :=
  match k with
  | KProject => fun p =>
      {| Project.id := Project.id p;
         Project.user_id := Project.user_id p;
         Project.title := Project.title p;
         Project.description := Project.description p;
         Project.root_drive_id := Project.root_drive_id p;
         Project.status := Project.status p;
         Project.is_deleted := deleted;
         Project.deleted_at := deleted_at;
         Project.created_at := Project.created_at p;
         Project.updated_at := updated_at |}
  | KFolder => fun f =>
      {| Folder.id := Folder.id f;
         Folder.project_id := Folder.project_id f;
         Folder.parent_id := Folder.parent_id f;
         Folder.drive_folder_id := Folder.drive_folder_id f;
         Folder.folder_name := Folder.folder_name f;
         Folder.sort_order := Folder.sort_order f;
         Folder.is_deleted := deleted;
         Folder.deleted_at := deleted_at;
         Folder.created_at := Folder.created_at f;
         Folder.updated_at := updated_at |}
  | KFile => fun f =>
      {| FileMetadata.id := FileMetadata.id f;
         FileMetadata.project_id := FileMetadata.project_id f;
         FileMetadata.folder_id := FileMetadata.folder_id f;
         FileMetadata.drive_file_id := FileMetadata.drive_file_id f;
         FileMetadata.file_name := FileMetadata.file_name f;
         FileMetadata.mime_type := FileMetadata.mime_type f;
         FileMetadata.size_bytes := FileMetadata.size_bytes f;
         FileMetadata.checksum := FileMetadata.checksum f;
         FileMetadata.web_view_link := FileMetadata.web_view_link f;
         FileMetadata.is_deleted := deleted;
         FileMetadata.deleted_at := deleted_at;
         FileMetadata.created_at := FileMetadata.created_at f;
         FileMetadata.updated_at := updated_at |}
  end.

(** The database answers every query of the run. *)
Definition healthy (w : World) : Prop := forall n, db_error (env w) n = false.

(** [id] names exactly one row of its table: [e]. *)
Definition entity (k : Kind) (id : string) (w : World) (e : row k) : Prop :=
  filter (fun r => (row_id k r =? id)%string) (table k w) = [e].

(** The project [e] belongs to exists and [user] owns it. *)
Definition owned_by (k : Kind) (e : row k) (user : string) (w : World) : Prop :=
  exists p,
    filter (fun p => (Project.id p =? row_project k e)%string) (projects w) = [p]
    /\ Project.user_id p = user.

(** [t] is a reading of the clock. *)
Definition stamp (w : World) (t : Z) : Prop := exists n, t = clock (env w) n.

(** The Metadata Store transition of [t] on the rows named [id], and nothing
    else: the other two tables are where they were. *)
Definition applied (t : Transition) (k : Kind) (id : string) (w w' : World) : Prop :=
  match t with
  | SoftDelete =>
      exists deleted updated,
        stamp w deleted /\ stamp w updated
        /\ table k w' = map (fun r => if (row_id k r =? id)%string
                                      then relabel k true (Some deleted) updated r
                                      else r) (table k w)
  | Restore =>
      exists updated,
        stamp w updated
        /\ table k w' = map (fun r => if (row_id k r =? id)%string
                                      then relabel k false None updated r
                                      else r) (table k w)
  | HardDelete =>
      table k w' = filter (fun r => negb (row_id k r =? id)%string) (table k w)
  end
  /\ forall k', k' <> k -> table k' w' = table k' w.

(** The console line a route writes when its mirror call throws. *)
Definition mirror_error (t : Transition) (k : Kind) : string :=
  match t, k with
  | SoftDelete, KFile => "Failed to trash Drive file:"
  | SoftDelete, _ => "Failed to trash Drive folder:"
  | Restore, KFile => "Failed to restore Drive file:"
  | Restore, _ => "Failed to restore Drive folder:"
  | HardDelete, KFile => "Failed to delete Drive file:"
  | HardDelete, _ => "Failed to delete Drive folder:"
  end.

Lemma wp_query_healthy {A} table v (run : nat -> World -> PgResult A * World) Q w :
  db_error (env w) (tick w) = false ->
  Q (Ok (fst (run (tick w) (record (EvQuery table v false) w))))
    (snd (run (tick w) (record (EvQuery table v false) w))) ->
  wp (query table v run) Q w.
Proof.
  intros Hf HQ. apply wp_query; intros H; [congruence | exact HQ].
Qed.

Lemma wp_use {A} (m : M A) (P Q : Outcome A -> World -> Prop) w :
  wp m P w -> (forall r w', P r w' -> Q r w') -> wp m Q w.
Proof. exact (wp_mono m P Q w). Qed.

Ltac world_simpl :=
  cbn [env projects folders files_metadata drive_connections providerTokensCache trace
       record with_projects with_folders with_files_metadata with_drive_connections
       with_providerTokensCache fst snd single table row_id row_project row] in *.

Ltac healthy_tac :=
  world_simpl;
  match goal with
  | |- db_error ?e ?n = false =>
      solve [ auto
            | match goal with
              | H : env _ = env _ |- _ => rewrite H; solve [auto]
              end
            | match goal with
              | H : same_entities _ _ |- _ =>
                  let E := fresh in destruct H as (E & _); rewrite E; solve [auto]
              end ]
  end.

Ltac wp_db :=
  lazymatch goal with
  | |- wp (query _ _ _) _ _ =>
      apply wp_query_healthy; [healthy_tac | cbv beta iota; world_simpl]
  | _ => wp_step
  end.

Lemma logged_after_quiet msg w0 w1 w2 :
  adds background w0 w1 -> logged msg w1 w2 -> logged msg w0 w2.
Proof.
  intros (pre & E1 & Hpre) (evs & E2 & H).
  exists (evs ++ pre)%list. split.
  - rewrite E2, E1. apply app_assoc.
  - intros req res Hin Hreq Hres. apply in_or_app.
    apply in_app_or in Hin. destruct Hin as [Hin | Hin].
    + left. eauto.
    + rewrite forallb_forall in Hpre. specialize (Hpre _ Hin). cbn in Hpre.
      rewrite Hreq in Hpre. discriminate.
Qed.

Lemma logged_record msg e w0 w :
  background e = true -> logged msg w0 w -> logged msg w0 (record e w).
Proof.
  intros He (evs & E & H). exists (e :: evs). split.
  - cbn. rewrite E. reflexivity.
  - intros req res [Hin | Hin] Hreq Hres.
    + subst e. cbn in He. rewrite Hreq in He. discriminate.
    + right. eauto.
Qed.

Lemma logged_same_trace msg w0 w w' :
  trace w' = trace w -> logged msg w0 w -> logged msg w0 w'.
Proof. intros E (evs & H1 & H2). exists evs. rewrite E. auto. Qed.

Lemma adds_same_trace P w0 w w' :
  trace w' = trace w -> adds P w0 w -> adds P w0 w'.
Proof. intros E (evs & H1 & H2). exists evs. rewrite E. auto. Qed.

Ltac solve_adds :=
  repeat first
    [ apply adds_refl
    | eassumption
    | apply adds_record; [reflexivity |]
    | eapply adds_same_trace; [reflexivity |] ].

Ltac solve_logged :=
  repeat first
    [ eassumption
    | apply logged_refl
    | apply logged_record; [reflexivity |]
    | match goal with
      | H : logged ?m ?W ?w1 |- logged ?m ?w ?w1 =>
          apply (logged_after_quiet m w W w1); [solve_adds | exact H]
      end
    | eapply logged_same_trace; [reflexivity |] ].

(** The table a repository write leaves is the table the statement names. *)
Ltac stamps :=
  lazymatch goal with
  | |- context [FileMetadata.mkUpdate _ (Some (Some ?d)) (Some ?u)] => exists d, u
  | |- context [Folder.mkUpdate _ (Some (Some ?d)) (Some ?u)] => exists d, u
  | |- context [Project.mkUpdate _ _ _ _ (Some (Some ?d)) (Some ?u)] => exists d, u
  | |- context [FileMetadata.mkUpdate _ (Some None) (Some ?u)] => exists u
  | |- context [Folder.mkUpdate _ (Some None) (Some ?u)] => exists u
  | |- context [Project.mkUpdate _ _ _ _ (Some None) (Some ?u)] => exists u
  | |- _ => idtac
  end.

Ltac same_rewrite :=
  unfold update_where, filesMetadataRepository.has_id, foldersRepository.has_id;
  apply map_ext; intros ?;
  match goal with
  | |- (if ?b then _ else _) = (if ?b then _ else _) =>
      destruct b; reflexivity
  end.

Ltac other_tables :=
  let k := fresh "k" in
  let H := fresh "H" in
  intros k H; destruct k; try congruence; world_simpl; congruence.

(** Run the mirror block of a route by its specification. *)
Ltac wp_mirror op okmsg errmsg :=
  lazymatch goal with
  | |- wp (if_truthy ?root _) _ ?W =>
      let r := fresh "r" in
      let w1 := fresh "w1" in
      let Hent := fresh "Hent" in
      let Hlog := fresh "Hlog" in
      eapply wp_use;
      [ exact (mirror_spec op okmsg errmsg _ root W)
      | intros r w1 (-> & Hent & Hlog); cbv beta iota ]
  end.

(** *** Lists: lookups by a key that names one row *)

Lemma filter_single {A} (f : A -> bool) (l : list A) (e : A) :
  filter f l = [e] ->
  f e = true /\ In e l /\ forall x, In x l -> f x = true -> x = e.
Proof.
  intros H.
  assert (He : In e (filter f l)) by (rewrite H; left; reflexivity).
  apply filter_In in He. destruct He as [Hin Hf].
  repeat split; trivial.
  intros x Hx Hfx.
  assert (Hx' : In x (filter f l)) by (apply filter_In; auto).
  rewrite H in Hx'. destruct Hx' as [-> | []]. reflexivity.
Qed.

Lemma In_insert_by {A} (leb : A -> A -> bool) (x y : A) (l : list A) :
  In y (insert_by leb x l) <-> y = x \/ In y l.
Proof.
  induction l as [| z l IH]; cbn.
  - intuition auto.
  - destruct (leb x z); cbn; rewrite ?IH; intuition auto.
Qed.

Lemma In_order_by {A} (leb : A -> A -> bool) (y : A) (l : list A) :
  In y (order_by leb l) <-> In y l.
Proof.
  induction l as [| z l IH]; cbn.
  - reflexivity.
  - rewrite In_insert_by, IH. intuition auto.
Qed.

Lemma find_unique {A} (f : A -> bool) (l : list A) (e : A) :
  In e l -> f e = true -> (forall x, In x l -> f x = true -> x = e) ->
  find f l = Some e.
Proof.
  intros Hin Hf Hu. destruct (find f l) as [x |] eqn:E.
  - apply find_some in E. destruct E as [Hx Hfx]. f_equal. auto.
  - exfalso. pose proof (find_none f l E e Hin) as H. congruence.
Qed.

(** The symbolic execution of a route along one path: the lookups are
    rewritten with what the hypotheses say they find. *)
Ltac wp_lin :=
  lazymatch goal with
  | |- wp (bind _ _) _ _ => apply wp_bind
  | |- wp (try_catch _ _) _ _ => apply wp_try_catch
  | |- wp (ret _) _ _ => apply wp_ret
  | |- wp (throw _) _ _ => apply wp_throw
  | |- wp (console _ _) _ _ => apply wp_console
  | |- wp ask _ _ => apply wp_ask
  | |- wp date_now _ _ => apply wp_date_now
  | |- wp (query _ _ _) _ _ =>
      apply wp_query_healthy; [healthy_tac | cbv beta iota; world_simpl]
  end; cbv beta iota.

Ltac lookup :=
  match goal with
  | H : filter _ _ = [_] |- _ => rewrite H; world_simpl
  | H : find _ _ = _ |- _ => rewrite H
  | H : ?b = true |- context [negb ?b] => rewrite H; cbn [negb]
  | H : ?b = true |- context [if ?b then _ else _] => rewrite H
  | |- context [(?s =? ?s)%string] => rewrite String.eqb_refl; cbn [negb]
  end; cbv beta iota.

Ltac path := repeat first [wp_lin | lookup].

Ltac finish_lifecycle Hent :=
  let He := fresh "He" in
  let Hps := fresh "Hps" in
  let Hfs := fresh "Hfs" in
  let Hfm := fresh "Hfm" in
  destruct Hent as (He & Hps & Hfs & Hfm); world_simpl;
  eexists; split; [reflexivity |]; split; [split |]; [| | split];
  [ stamps; world_simpl; rewrite ?He, ?Hps, ?Hfs, ?Hfm;
    repeat lazymatch goal with
           | |- stamp _ _ /\ _ => split; [eexists; reflexivity |]
           end
  | other_tables
  | cbn [mirror_error]; solve_logged
  | exact He ].

Lemma project_owner id w (e : row KProject) user :
  entity KProject id w e -> owned_by KProject e user w ->
  Project.id e = id /\ Project.user_id e = user.
Proof.
  intros He (p & Hp & Hu). unfold entity in He. world_simpl.
  destruct (filter_single _ _ _ He) as (Hid & Hin & _).
  apply String.eqb_eq in Hid. split; [exact Hid |].
  rewrite Hid in Hp. rewrite He in Hp. injection Hp as ->. exact Hu.
Qed.

Lemma owned_is_id id user ps (e : Project.t) :
  filter (fun p => (Project.id p =? id)%string) ps = [e] ->
  Project.user_id e = user ->
  forall r, In r ps -> projectsRepository.owned id user r = (Project.id r =? id)%string.
Proof.
  intros He Hu r Hr. unfold projectsRepository.owned.
  destruct (Project.id r =? id)%string eqn:E; [| reflexivity].
  destruct (filter_single _ _ _ He) as (_ & _ & Huniq).
  rewrite (Huniq r Hr E), Hu, String.eqb_refl. reflexivity.
Qed.

Lemma deleted_project_found id user w (e : Project.t) :
  filter (fun p => (Project.id p =? id)%string) (projects w) = [e] ->
  Project.user_id e = user ->
  Project.is_deleted e = true ->
  find (fun p => (Project.id p =? id)%string)
       (order_by projectsRepository.newest_first
          (filter (projectsRepository.matches
                     {| pf_user_id := user; pf_status := None;
                        pf_is_deleted := Some true |}) (projects w)))
  = Some e.
Proof.
  intros He Hu Hd. destruct (filter_single _ _ _ He) as (Hid & Hin & Huniq).
  apply find_unique.
  - apply In_order_by, filter_In. split; [exact Hin |].
    unfold projectsRepository.matches. cbn.
    rewrite Hu, String.eqb_refl, Hd. reflexivity.
  - exact Hid.
  - intros x Hx. apply In_order_by, filter_In in Hx. apply Huniq, Hx.
Qed.

(** A lifecycle route, called by the owner on an entity in the state the
    route asks for, with the database up: success, the transition applied,
    and every failed mirror request on the console, whatever the provider
    answered. *)
Lemma lifecycle_ok t k id c user (e : row k) w :
  healthy w ->
  requireAuth c = Some user ->
  entity k id w e ->
  owned_by k e user w ->
  (t <> SoftDelete -> row_is_deleted k e = true) ->
  wp (route c (Lifecycle t k id))
     (fun r w' =>
        exists msg, r = Ok (json (JSuccess msg) 200)
        /\ applied t k id w w'
        /\ logged (mirror_error t k) w w'
        /\ env w' = env w) w.
Proof.
  intros Hh Hauth He Hown Hdel. unfold healthy in Hh.
  destruct k.
  - (* projects *)
    destruct (project_owner _ _ _ _ He Hown) as (Hid & Hu).
    unfold entity in He. world_simpl.
    pose proof (owned_is_id _ _ _ _ He Hu) as Hsel.
    destruct t; cbn [route];
      unfold DELETE_projects_id, POST_projects_id_restore, DELETE_projects_id_permanent;
      apply wp_try_catch; rewrite Hauth; cbv beta iota; autounfold with store.
    + path. rewrite Hu. path.
      wp_mirror OpTrash "Moved Drive folder to trash:" "Failed to trash Drive folder:".
      path. finish_lifecycle Hent.
      unfold update_where. apply map_ext_in. intros r Hr.
      rewrite (Hsel r Hr). destruct (Project.id r =? id)%string; reflexivity.
    + assert (Hd : Project.is_deleted e = true) by (apply Hdel; discriminate).
      pose proof (deleted_project_found _ _ _ _ He Hu Hd) as Hfind.
      path. rewrite Hu. path.
      wp_mirror OpUntrash "Restored Drive folder from trash:"
        "Failed to restore Drive folder:".
      path. finish_lifecycle Hent.
      unfold update_where. apply map_ext_in. intros r Hr.
      rewrite (Hsel r Hr). destruct (Project.id r =? id)%string; reflexivity.
    + assert (Hd : Project.is_deleted e = true) by (apply Hdel; discriminate).
      pose proof (deleted_project_found _ _ _ _ He Hu Hd) as Hfind.
      path. rewrite Hu. path.
      wp_mirror OpPermanentDelete "Permanently deleted Drive folder:"
        "Failed to delete Drive folder:".
      path. finish_lifecycle Hent.
      unfold delete_where. apply filter_ext_in. intros r Hr.
      rewrite (Hsel r Hr). reflexivity.
  - (* folders *)
    destruct Hown as (p & Hp & <-). unfold entity in He. world_simpl.
    destruct t; cbn [route];
      unfold DELETE_folders_id, POST_folders_id_restore, DELETE_folders_id_permanent;
      apply wp_try_catch; rewrite Hauth; cbv beta iota; autounfold with store;
      unfold not_owner.
    + path.
      wp_mirror OpTrash "Moved Drive folder to trash:" "Failed to trash Drive folder:".
      path. finish_lifecycle Hent. same_rewrite.
    + assert (Hd : Folder.is_deleted e = true) by (apply Hdel; discriminate).
      path.
      wp_mirror OpUntrash "Restored Drive folder from trash:"
        "Failed to restore Drive folder:".
      path. finish_lifecycle Hent. same_rewrite.
    + assert (Hd : Folder.is_deleted e = true) by (apply Hdel; discriminate).
      path.
      wp_mirror OpPermanentDelete "Permanently deleted Drive folder:"
        "Failed to delete Drive folder:".
      path. finish_lifecycle Hent. reflexivity.
  - (* files *)
    destruct Hown as (p & Hp & <-). unfold entity in He. world_simpl.
    destruct t; cbn [route];
      unfold DELETE_files_id, POST_files_id_restore, DELETE_files_id_permanent;
      apply wp_try_catch; rewrite Hauth; cbv beta iota; autounfold with store;
      unfold not_owner.
    + path.
      wp_mirror OpTrash "Moved Drive file to trash:" "Failed to trash Drive file:".
      path. finish_lifecycle Hent. same_rewrite.
    + assert (Hd : FileMetadata.is_deleted e = true) by (apply Hdel; discriminate).
      path.
      wp_mirror OpUntrash "Restored Drive file from trash:"
        "Failed to restore Drive file:".
      path. finish_lifecycle Hent. same_rewrite.
    + assert (Hd : FileMetadata.is_deleted e = true) by (apply Hdel; discriminate).
      path.
      wp_mirror OpPermanentDelete "Permanently deleted Drive file:"
        "Failed to delete Drive file:".
      path. finish_lifecycle Hent. reflexivity.
Qed.

(** ** Scenarios: concrete worlds the statements are run on *)

Definition json_empty : Json :=
  {| error_message := None; error_description := None; file_id := None;
     file_name := None; access_token := None |}.

(** A provider that accepts the stored token and answers 500 to everything
    that changes a file. *)
Definition failing_provider (n : nat) (req : Request) : FetchResult :=
  if (method req =? "GET")%string
  then Responded {| status := 200; statusText := "OK"; body := Some json_empty |}
  else Responded {| status := 500; statusText := "Internal Server Error"; body := None |}.

Definition env_failing_provider : Env :=
  {| isProduction := true;
     GOOGLE_CLIENT_ID := None;
     GOOGLE_CLIENT_SECRET := None;
     net := failing_provider;
     db_error := fun _ => false;
     clock := fun n => 1700000000000 + Z.of_nat n;
     gen_uuid := fun _ => "p-new";
     getFullYear := fun _ => "2024";
     payload_of := fun _ => None |}.

Definition project_p1 : Project.t :=
  {| Project.id := "p1"; Project.user_id := "alice"; Project.title := "Maths - 2024";
     Project.description := None; Project.root_drive_id := Some "drive-p1";
     Project.status := "active"; Project.is_deleted := false;
     Project.deleted_at := None; Project.created_at := 10; Project.updated_at := 10 |}.

Definition file_f1 : FileMetadata.t :=
  {| FileMetadata.id := "f1"; FileMetadata.project_id := "p1";
     FileMetadata.folder_id := None; FileMetadata.drive_file_id := "drive-f1";
     FileMetadata.file_name := "plan.pdf"; FileMetadata.mime_type := "application/pdf";
     FileMetadata.size_bytes := Some 1024; FileMetadata.checksum := None;
     FileMetadata.web_view_link := None; FileMetadata.is_deleted := false;
     FileMetadata.deleted_at := None; FileMetadata.created_at := 20;
     FileMetadata.updated_at := 20 |}.

Definition folder_d1 : Folder.t :=
  {| Folder.id := "d1"; Folder.project_id := "p1"; Folder.parent_id := None;
     Folder.drive_folder_id := "drive-d1"; Folder.folder_name := "Week 1";
     Folder.sort_order := 0; Folder.is_deleted := false; Folder.deleted_at := None;
     Folder.created_at := 15; Folder.updated_at := 15 |}.

(** Alice owns one project with one folder and one file, all active; her
    provider token is cached. *)
Definition world_alice : World :=
  {| env := env_failing_provider;
     projects := [project_p1];
     folders := [folder_d1];
     files_metadata := [file_f1];
     drive_connections := [];
     providerTokensCache := [("alice", {| token := Some "tok"; refreshToken := None |})];
     trace := [] |}.

Definition as_user (u : string) : Variables :=
  {| userId := Some u; userEmail := Text "" |}.

(** ** C1: a failed mirror call never fails the operation *)

(** C1. For every soft_delete, restore and hard_delete of a Project, Folder
    or File, called by the owner on an entity in the state the operation
    asks for, while the store answers its queries: whatever the storage
    provider does (each mirror request may be rejected or answered with any
    status), the route answers 200 with a success body, the Metadata Store
    transition is applied (the lifecycle columns rewritten, or the row
    deleted, and nothing else in the three tables), and every mirror request
    that failed was caught and is followed by the route's error line on the
    console. *)
Theorem mirror_failure_is_swallowed :
  forall (t : Transition) (k : Kind) (id : string) (c : Variables) (user : string)
         (e : row k) (w : World),
    healthy w ->
    requireAuth c = Some user ->
    entity k id w e ->
    owned_by k e user w ->
    (t <> SoftDelete -> row_is_deleted k e = true) ->
    exists msg w',
      route c (Lifecycle t k id) w = (Ok (json (JSuccess msg) 200), w')
      /\ applied t k id w w'
      /\ logged (mirror_error t k) w w'.
Proof.
  intros t k id c user e w Hh Hauth He Hown Hdel.
  pose proof (lifecycle_ok t k id c user e w Hh Hauth He Hown Hdel) as H.
  unfold wp in H. destruct H as (msg & Hr & Happ & Hlog & _).
  exists msg, (snd (route c (Lifecycle t k id) w)).
  repeat split; try assumption.
  - rewrite <- Hr. destruct (route c (Lifecycle t k id) w); reflexivity.
  - apply Happ.
  - apply Happ.
Qed.

(** The soft delete of a file whose trash request the provider answers with
    a 500: the request is in the trace, and so is the error line. *)
Lemma mirror_failure_is_swallowed_witness :
  (exists msg w',
     route (as_user "alice") (Lifecycle SoftDelete KFile "f1") world_alice
     = (Ok (json (JSuccess msg) 200), w')
     /\ applied SoftDelete KFile "f1" world_alice w'
     /\ logged (mirror_error SoftDelete KFile) world_alice w')
  /\ In (EvFetch (googleDrive.trashFile_request "tok" "drive-f1")
                (Responded {| status := 500; statusText := "Internal Server Error";
                              body := None |}))
        (trace (snd (route (as_user "alice") (Lifecycle SoftDelete KFile "f1")
                       world_alice))).
Proof.
  split.
  - apply (mirror_failure_is_swallowed SoftDelete KFile "f1" (as_user "alice") "alice"
             file_f1 world_alice).
    + intros n. reflexivity.
    + reflexivity.
    + reflexivity.
    + exists project_p1. split; reflexivity.
    + intros H. exfalso. apply H. reflexivity.
  - vm_compute. tauto.
Defined.

(** ** C6: soft delete does not ask for an active entity *)

Definition file_f1_trashed : FileMetadata.t :=
  relabel KFile true (Some 30) 30 file_f1.

(** As [world_alice], but the file is already in the trash. *)
Definition world_alice_trashed : World :=
  with_files_metadata [file_f1_trashed] world_alice.

(** C6 (as stated, refuted). The soft-delete route is performed on a file
    that is already soft-deleted: it answers success and rewrites
    [deleted_at] from 30 to the current time. *)
Lemma soft_delete_of_trashed_file_runs :
  entity KFile "f1" world_alice_trashed file_f1_trashed
  /\ row_is_deleted KFile file_f1_trashed = true
  /\ row_deleted_at KFile file_f1_trashed = Some 30
  /\ http_status
       (match fst (route (as_user "alice") (Lifecycle SoftDelete KFile "f1")
                     world_alice_trashed) with
        | Ok response => response
        | Throw _ => json (JError "") 500
        end) = 200
  /\ map FileMetadata.deleted_at
         (files_metadata (snd (route (as_user "alice") (Lifecycle SoftDelete KFile "f1")
                                 world_alice_trashed)))
     = [Some 1700000000006].
Proof. vm_compute. repeat split. Qed.

Lemma relabel_id k d a u (r : row k) : row_id k (relabel k d a u r) = row_id k r.
Proof. destruct k; reflexivity. Qed.

Lemma relabel_project k d a u (r : row k) :
  row_project k (relabel k d a u r) = row_project k r.
Proof. destruct k; reflexivity. Qed.

Lemma filter_rewritten {A} (key : A -> string) (g : A -> A) (id : string) (l : list A) :
  (forall r, key (g r) = key r) ->
  filter (fun r => (key r =? id)%string)
         (map (fun r => if (key r =? id)%string then g r else r) l)
  = map g (filter (fun r => (key r =? id)%string) l).
Proof.
  intros Hg. induction l as [| r l IH]; [reflexivity |].
  cbn [map filter]. destruct (key r =? id)%string eqn:E.
  - rewrite Hg, E. cbn [map]. f_equal. exact IH.
  - rewrite E. exact IH.
Qed.

(** The row [id] names after its lifecycle columns were rewritten. *)
Lemma entity_relabel k id d a u (e : row k) w w' :
  entity k id w e ->
  table k w' = map (fun r => if (row_id k r =? id)%string
                             then relabel k d a u r else r) (table k w) ->
  entity k id w' (relabel k d a u e).
Proof.
  unfold entity. intros He Ht. rewrite Ht.
  rewrite (filter_rewritten (row_id k) (relabel k d a u) id (table k w)
             (relabel_id k d a u)).
  rewrite He. reflexivity.
Qed.

(** ** The times a soft delete and a restore write *)

Definition table_name (k : Kind) : string :=
  match k with
  | KProject => "projects"
  | KFolder => "folders"
  | KFile => "files_metadata"
  end.

(** The two times a soft delete writes are the readings of the clock at the
    two effects just before its UPDATE. *)
Definition soft_delete_times (k : Kind) (w w' : World) (deleted updated : Z) : Prop :=
  exists pre post,
    trace w' = (post ++ EvQuery (table_name k) UPDATE false
                     :: EvDate updated :: EvDate deleted :: pre ++ trace w)%list
    /\ deleted = clock (env w) (tick w + length pre)
    /\ updated = clock (env w) (S (tick w + length pre)).

(** The time a restore writes is the reading of the clock at the effect just
    before its UPDATE. *)
Definition restore_time (k : Kind) (w w' : World) (updated : Z) : Prop :=
  exists pre post,
    trace w' = (post ++ EvQuery (table_name k) UPDATE false
                     :: EvDate updated :: pre ++ trace w)%list
    /\ updated = clock (env w) (tick w + length pre).

Lemma soft_delete_times_of k w w1 w' pre post :
  env w1 = env w ->
  trace w1 = (pre ++ trace w)%list ->
  trace w' = (post ++ EvQuery (table_name k) UPDATE false
                   :: EvDate (clock (env w1) (S (tick w1)))
                   :: EvDate (clock (env w1) (tick w1)) :: trace w1)%list ->
  soft_delete_times k w w' (clock (env w1) (tick w1)) (clock (env w1) (S (tick w1))).
Proof.
  intros He Hpre Htr. exists pre, post.
  assert (Htick : tick w1 = (tick w + length pre)%nat).
  { unfold tick. rewrite Hpre, length_app. apply Nat.add_comm. }
  rewrite Htr, Hpre, He, Htick. repeat split.
Qed.

Lemma restore_time_of k w w1 w' pre post :
  env w1 = env w ->
  trace w1 = (pre ++ trace w)%list ->
  trace w' = (post ++ EvQuery (table_name k) UPDATE false
                   :: EvDate (clock (env w1) (tick w1)) :: trace w1)%list ->
  restore_time k w w' (clock (env w1) (tick w1)).
Proof.
  intros He Hpre Htr. exists pre, post.
  assert (Htick : tick w1 = (tick w + length pre)%nat).
  { unfold tick. rewrite Hpre, length_app. apply Nat.add_comm. }
  rewrite Htr, Hpre, He, Htick. repeat split.
Qed.

Lemma cons_grow {A} (e : A) (l evs t : list A) :
  l = (evs ++ t)%list -> e :: l = ((e :: evs) ++ t)%list.
Proof. intros ->. reflexivity. Qed.

Lemma nil_grow {A} (t : list A) : t = ([] ++ t)%list.
Proof. reflexivity. Qed.

Lemma app_grow {A} (pre l evs t : list A) :
  l = (evs ++ t)%list -> (pre ++ l)%list = ((pre ++ evs) ++ t)%list.
Proof. intros ->. apply app_assoc. Qed.

Ltac grow :=
  first [ reflexivity | apply nil_grow | (apply cons_grow; grow) | (apply app_grow; grow) ].

(** The events a trace holds after its last UPDATE. *)
Ltac post_of l :=
  lazymatch l with
  | EvQuery _ UPDATE _ :: _ => constr:(@nil Event)
  | ?e :: ?l' => let p := post_of l' in constr:(e :: p)
  end.

Ltac after_update :=
  world_simpl;
  lazymatch goal with
  | |- ?l = (?p ++ _)%list => let q := post_of l in unify p q
  end;
  reflexivity.

(** The soft delete of [id]: the rows it names carry the two times read just
    before the UPDATE. *)
Definition soft_deleted (k : Kind) (id : string) (w w' : World) (deleted updated : Z)
  : Prop :=
  soft_delete_times k w w' deleted updated
  /\ table k w' = map (fun r => if (row_id k r =? id)%string
                                then relabel k true (Some deleted) updated r
                                else r) (table k w).

(** The restore of [id]: the rows it names carry the time read just before
    the UPDATE. *)
Definition restored (k : Kind) (id : string) (w w' : World) (updated : Z) : Prop :=
  restore_time k w w' updated
  /\ table k w' = map (fun r => if (row_id k r =? id)%string
                                then relabel k false None updated r
                                else r) (table k w).

Ltac finish_times Hent Hlog :=
  let He := fresh "He" in
  let Hps := fresh "Hps" in
  let Hfs := fresh "Hfs" in
  let Hfm := fresh "Hfm" in
  let evs := fresh "evs" in
  let Htr := fresh "Htr" in
  destruct Hent as (He & Hps & Hfs & Hfm); destruct Hlog as (evs & Htr & _);
  world_simpl; stamps; split;
  [ first [ eapply soft_delete_times_of | eapply restore_time_of ];
    [ exact He | rewrite Htr; grow | after_update ]
  | world_simpl; rewrite ?He, ?Hps, ?Hfs, ?Hfm ].

Lemma lifecycle_times t k id c user (e : row k) w :
  healthy w ->
  requireAuth c = Some user ->
  entity k id w e ->
  owned_by k e user w ->
  (t <> SoftDelete -> row_is_deleted k e = true) ->
  wp (route c (Lifecycle t k id))
     (fun _ w' =>
        match t with
        | SoftDelete => exists deleted updated, soft_deleted k id w w' deleted updated
        | Restore => exists updated, restored k id w w' updated
        | HardDelete => True
        end) w.
Proof.
  intros Hh Hauth He Hown Hdel.
  destruct t; [| | apply wp_intro; intros; exact I]; unfold healthy in Hh.
  - (* soft delete *)
    destruct k.
    + destruct (project_owner _ _ _ _ He Hown) as (Hid & Hu).
      unfold entity in He. world_simpl.
      pose proof (owned_is_id _ _ _ _ He Hu) as Hsel.
      cbn [route]; unfold DELETE_projects_id;
        apply wp_try_catch; rewrite Hauth; cbv beta iota; autounfold with store.
      path. rewrite Hu. path.
      wp_mirror OpTrash "Moved Drive folder to trash:" "Failed to trash Drive folder:".
      path. finish_times Hent Hlog.
      unfold update_where. apply map_ext_in. intros r Hr.
      rewrite (Hsel r Hr). destruct (Project.id r =? id)%string; reflexivity.
    + destruct Hown as (p & Hp & <-). unfold entity in He. world_simpl.
      cbn [route]; unfold DELETE_folders_id;
        apply wp_try_catch; rewrite Hauth; cbv beta iota; autounfold with store;
        unfold not_owner.
      path.
      wp_mirror OpTrash "Moved Drive folder to trash:" "Failed to trash Drive folder:".
      path. finish_times Hent Hlog. same_rewrite.
    + destruct Hown as (p & Hp & <-). unfold entity in He. world_simpl.
      cbn [route]; unfold DELETE_files_id;
        apply wp_try_catch; rewrite Hauth; cbv beta iota; autounfold with store;
        unfold not_owner.
      path.
      wp_mirror OpTrash "Moved Drive file to trash:" "Failed to trash Drive file:".
      path. finish_times Hent Hlog. same_rewrite.
  - (* restore *)
    destruct k.
    + destruct (project_owner _ _ _ _ He Hown) as (Hid & Hu).
      unfold entity in He. world_simpl.
      pose proof (owned_is_id _ _ _ _ He Hu) as Hsel.
      cbn [route]; unfold POST_projects_id_restore;
        apply wp_try_catch; rewrite Hauth; cbv beta iota; autounfold with store.
      assert (Hd : Project.is_deleted e = true) by (apply Hdel; discriminate).
      pose proof (deleted_project_found _ _ _ _ He Hu Hd) as Hfind.
      path. rewrite Hu. path.
      wp_mirror OpUntrash "Restored Drive folder from trash:"
        "Failed to restore Drive folder:".
      path. finish_times Hent Hlog.
      unfold update_where. apply map_ext_in. intros r Hr.
      rewrite (Hsel r Hr). destruct (Project.id r =? id)%string; reflexivity.
    + destruct Hown as (p & Hp & <-). unfold entity in He. world_simpl.
      cbn [route]; unfold POST_folders_id_restore;
        apply wp_try_catch; rewrite Hauth; cbv beta iota; autounfold with store;
        unfold not_owner.
      assert (Hd : Folder.is_deleted e = true) by (apply Hdel; discriminate).
      path.
      wp_mirror OpUntrash "Restored Drive folder from trash:"
        "Failed to restore Drive folder:".
      path. finish_times Hent Hlog. same_rewrite.
    + destruct Hown as (p & Hp & <-). unfold entity in He. world_simpl.
      cbn [route]; unfold POST_files_id_restore;
        apply wp_try_catch; rewrite Hauth; cbv beta iota; autounfold with store;
        unfold not_owner.
      assert (Hd : FileMetadata.is_deleted e = true) by (apply Hdel; discriminate).
      path.
      wp_mirror OpUntrash "Restored Drive file from trash:"
        "Failed to restore Drive file:".
      path. finish_times Hent Hlog. same_rewrite.
Qed.

(** C6 (as amended). While the store answers, the soft-delete routes ask only
    that the entity exists and that the caller owns its project: whatever the
    [is_deleted] flag of the entity is, the route answers success and rewrites
    the row to [is_deleted = true], with [deleted_at] and [updated_at] the two
    readings of the clock the route takes just before its UPDATE; in
    particular this is what happens to an entity that is already
    soft-deleted. *)
Theorem soft_delete_ignores_is_deleted :
  forall (k : Kind) (id : string) (c : Variables) (user : string) (e : row k) (w : World),
    healthy w ->
    requireAuth c = Some user ->
    entity k id w e ->
    owned_by k e user w ->
    exists msg w' deleted updated,
      route c (Lifecycle SoftDelete k id) w = (Ok (json (JSuccess msg) 200), w')
      /\ soft_delete_times k w w' deleted updated
      /\ table k w' = map (fun r => if (row_id k r =? id)%string
                                    then relabel k true (Some deleted) updated r
                                    else r) (table k w)
      /\ entity k id w' (relabel k true (Some deleted) updated e).
Proof.
  intros k id c user e w Hh Hauth He Hown.
  assert (Hdel : SoftDelete <> SoftDelete -> row_is_deleted k e = true)
    by (intros H; exfalso; apply H; reflexivity).
  pose proof (lifecycle_ok SoftDelete k id c user e w Hh Hauth He Hown Hdel) as H.
  pose proof (lifecycle_times SoftDelete k id c user e w Hh Hauth He Hown Hdel) as Ht.
  unfold wp in H, Ht.
  destruct H as (msg & Hr & _).
  destruct Ht as (deleted & updated & Htimes & Htable).
  exists msg, (snd (route c (Lifecycle SoftDelete k id) w)), deleted, updated.
  repeat split; try assumption.
  - rewrite <- Hr. destruct (route c (Lifecycle SoftDelete k id) w); reflexivity.
  - eapply entity_relabel; eassumption.
Qed.

Lemma soft_delete_ignores_is_deleted_witness :
  exists msg w' deleted updated,
    route (as_user "alice") (Lifecycle SoftDelete KFile "f1") world_alice_trashed
    = (Ok (json (JSuccess msg) 200), w')
    /\ soft_delete_times KFile world_alice_trashed w' deleted updated
    /\ table KFile w' = map (fun r => if (row_id KFile r =? "f1")%string
                                      then relabel KFile true (Some deleted) updated r
                                      else r) (table KFile world_alice_trashed)
    /\ entity KFile "f1" w' (relabel KFile true (Some deleted) updated file_f1_trashed).
Proof.
  apply (soft_delete_ignores_is_deleted KFile "f1" (as_user "alice") "alice"
           file_f1_trashed world_alice_trashed).
  - intros n. reflexivity.
  - reflexivity.
  - reflexivity.
  - exists project_p1. split; reflexivity.
Defined.

(** ** C5: soft delete, then restore *)

(** C5 (as stated, refuted). After the soft delete and the restore of an
    active file its row is not the row it was: [updated_at] moved from 20 to
    the time of the restore. *)
Lemma round_trip_touches_updated_at :
  let w1 := snd (route (as_user "alice") (Lifecycle SoftDelete KFile "f1") world_alice) in
  let w2 := snd (route (as_user "alice") (Lifecycle Restore KFile "f1") w1) in
  files_metadata world_alice = [file_f1]
  /\ FileMetadata.is_deleted file_f1 = false
  /\ FileMetadata.updated_at file_f1 = 20
  /\ map FileMetadata.updated_at (files_metadata w2) = [1700000000015]
  /\ files_metadata w2 <> files_metadata world_alice.
Proof.
  cbv zeta. split; [reflexivity | split; [reflexivity | split; [reflexivity |]]].
  split.
  - vm_compute. reflexivity.
  - vm_compute. intros H. discriminate H.
Qed.

(** C5 (as amended). The soft delete of an entity followed by its restore,
    both called by the owner while the store answers, both succeed. The soft
    delete writes [is_deleted = true] with [deleted_at] and [updated_at] the
    two readings of the clock it takes just before its UPDATE; the restore
    leaves the entity with [is_deleted = false], [deleted_at] cleared,
    [updated_at] the reading of the clock it takes just before its own UPDATE,
    and every other column as it was before the soft delete; every other row
    and the other two tables are untouched. *)
Theorem soft_delete_then_restore :
  forall (k : Kind) (id : string) (c : Variables) (user : string) (e : row k) (w : World),
    healthy w ->
    requireAuth c = Some user ->
    entity k id w e ->
    owned_by k e user w ->
    exists msg1 w1 msg2 w2 deleted updated1 updated,
      route c (Lifecycle SoftDelete k id) w = (Ok (json (JSuccess msg1) 200), w1)
      /\ route c (Lifecycle Restore k id) w1 = (Ok (json (JSuccess msg2) 200), w2)
      /\ env w1 = env w
      /\ soft_deleted k id w w1 deleted updated1
      /\ restore_time k w1 w2 updated
      /\ table k w2 = map (fun r => if (row_id k r =? id)%string
                                     then relabel k false None updated r
                                     else r) (table k w)
      /\ entity k id w2 (relabel k false None updated e)
      /\ forall k', k' <> k -> table k' w2 = table k' w.
Proof.
  intros k id c user e w Hh Hauth He Hown.
  assert (Hdel : SoftDelete <> SoftDelete -> row_is_deleted k e = true)
    by (intros H; exfalso; apply H; reflexivity).
  pose proof (lifecycle_ok SoftDelete k id c user e w Hh Hauth He Hown Hdel) as H1.
  pose proof (lifecycle_times SoftDelete k id c user e w Hh Hauth He Hown Hdel) as T1.
  unfold wp in H1, T1.
  destruct (route c (Lifecycle SoftDelete k id) w) as [r1 w1] eqn:E1.
  cbn [fst snd] in H1, T1. cbv beta iota in T1.
  destruct H1 as (msg1 & -> & (_ & Ho1) & _ & Henv1).
  destruct T1 as (deleted & updated1 & Htimes1 & Ht1).
  set (e1 := relabel k true (Some deleted) updated1 e).
  assert (Hh1 : healthy w1) by (intros n; rewrite Henv1; apply Hh).
  assert (He1 : entity k id w1 e1) by (eapply entity_relabel; eassumption).
  assert (Hown1 : owned_by k e1 user w1).
  { destruct k.
    - destruct (project_owner _ _ _ _ He Hown) as (Hid & Hu).
      exists e1. split; [| exact Hu].
      unfold entity in He1. cbn [table row_id] in He1. cbn [row_project].
      unfold e1 at 1. cbn [relabel Project.id]. rewrite Hid. exact He1.
    - destruct Hown as (p & Hp & Hu). exists p. split; [| exact Hu].
      pose proof (Ho1 KProject ltac:(discriminate)) as Hp1. cbn [table] in Hp1.
      rewrite Hp1. unfold e1. rewrite relabel_project. exact Hp.
    - destruct Hown as (p & Hp & Hu). exists p. split; [| exact Hu].
      pose proof (Ho1 KProject ltac:(discriminate)) as Hp1. cbn [table] in Hp1.
      rewrite Hp1. unfold e1. rewrite relabel_project. exact Hp. }
  assert (Hdel1 : Restore <> SoftDelete -> row_is_deleted k e1 = true)
    by (intros _; destruct k; reflexivity).
  pose proof (lifecycle_ok Restore k id c user e1 w1 Hh1 Hauth He1 Hown1 Hdel1) as H2.
  pose proof (lifecycle_times Restore k id c user e1 w1 Hh1 Hauth He1 Hown1 Hdel1) as T2.
  unfold wp in H2, T2.
  destruct (route c (Lifecycle Restore k id) w1) as [r2 w2] eqn:E2.
  cbn [fst snd] in H2, T2. cbv beta iota in T2.
  destruct H2 as (msg2 & -> & (_ & Ho2) & _ & Henv2).
  destruct T2 as (updated & Htime2 & Ht2).
  assert (Ht : table k w2 = map (fun r => if (row_id k r =? id)%string
                                          then relabel k false None updated r
                                          else r) (table k w)).
  { rewrite Ht2, Ht1, map_map. apply map_ext. intros r.
    destruct (row_id k r =? id)%string eqn:E.
    - rewrite relabel_id, E. destruct k; reflexivity.
    - rewrite E. reflexivity. }
  exists msg1, w1, msg2, w2, deleted, updated1, updated.
  split; [first [reflexivity | assumption] |].
  split; [first [reflexivity | assumption] |]. split; [exact Henv1 |].
  split; [split; assumption |]. split; [exact Htime2 |]. split; [exact Ht |].
  split.
  - eapply entity_relabel; eassumption.
  - intros k' Hk. rewrite (Ho2 k' Hk). apply Ho1, Hk.
Qed.

Lemma soft_delete_then_restore_witness :
  exists msg1 w1 msg2 w2 deleted updated1 updated,
    route (as_user "alice") (Lifecycle SoftDelete KFolder "d1") world_alice
    = (Ok (json (JSuccess msg1) 200), w1)
    /\ route (as_user "alice") (Lifecycle Restore KFolder "d1") w1
        = (Ok (json (JSuccess msg2) 200), w2)
    /\ env w1 = env world_alice
    /\ soft_deleted KFolder "d1" world_alice w1 deleted updated1
    /\ restore_time KFolder w1 w2 updated
    /\ table KFolder w2 = map (fun r => if (row_id KFolder r =? "d1")%string
                                         then relabel KFolder false None updated r
                                         else r) (table KFolder world_alice)
    /\ entity KFolder "d1" w2 (relabel KFolder false None updated folder_d1)
    /\ forall k', k' <> KFolder -> table k' w2 = table k' world_alice.
Proof.
  apply (soft_delete_then_restore KFolder "d1" (as_user "alice") "alice"
           folder_d1 world_alice).
  - intros n. reflexivity.
  - reflexivity.
  - reflexivity.
  - exists project_p1. split; reflexivity.
Defined.

Lemma drive_call_404_is_success_witness :
  (status {| status := 404; statusText := "Not Found"; body := None |} = 404 ->
   fst (drive_call OpTrash "tok" "gone"
          (with_files_metadata []
             {| env := {| isProduction := true; GOOGLE_CLIENT_ID := None;
                          GOOGLE_CLIENT_SECRET := None;
                          net := fun _ _ => Responded {| status := 404;
                                                         statusText := "Not Found";
                                                         body := None |};
                          db_error := fun _ => false; clock := fun _ => 0;
                          gen_uuid := fun _ => "id"; getFullYear := fun _ => "2024";
                          payload_of := fun _ => None |};
                projects := []; folders := []; files_metadata := [];
                drive_connections := []; providerTokensCache := []; trace := [] |}))
   = Ok tt)
  /\ True.
Proof.
  split; [| exact I].
  apply (drive_call_404_is_success OpTrash "tok" "gone" _
           {| status := 404; statusText := "Not Found"; body := None |}).
  reflexivity.
Defined.

(** ** C2: restore and hard delete ask for an entity in the trash *)

Lemma single_found {A} (f : A -> bool) (l : list A) (x : A) :
  single (filter f l) = PgData x -> In x l /\ f x = true.
Proof.
  unfold single. destruct (filter f l) as [| y [| z l']] eqn:E; try discriminate.
  intros H. injection H as <-.
  destruct (filter_single _ _ _ E) as (Hf & Hin & _). auto.
Qed.

Lemma deleted_found id user ps (p : Project.t) :
  find (fun p => (Project.id p =? id)%string)
       (order_by projectsRepository.newest_first
          (filter (projectsRepository.matches
                     {| pf_user_id := user; pf_status := None;
                        pf_is_deleted := Some true |}) ps)) = Some p ->
  In p ps /\ Project.id p = id /\ Project.is_deleted p = true
  /\ Project.user_id p = user.
Proof.
  intros H. apply find_some in H. destruct H as [Hin Hid].
  apply In_order_by, filter_In in Hin. destruct Hin as [Hin Hm].
  apply String.eqb_eq in Hid.
  unfold projectsRepository.matches in Hm. cbn in Hm.
  apply andb_prop in Hm. destruct Hm as [Hm Hd].
  rewrite andb_true_r in Hm. apply String.eqb_eq in Hm.
  apply Bool.eqb_prop in Hd. auto.
Qed.

#[export] Hint Resolve getValidProviderToken_safe : safety.

(** Exploring every branch of a route. A block that only needs to be known
    not to throw is run by its safety. *)
Ltac lookup_full :=
  match goal with
  | H : filter _ _ = [_] |- _ => rewrite H; world_simpl
  | H : find _ _ = _ |- _ => rewrite H
  | H : ?b = true |- context [negb ?b] => rewrite H; cbn [negb]
  | H : ?b = false |- context [negb ?b] => rewrite H; cbn [negb]
  | H : ?b = true |- context [if ?b then _ else _] => rewrite H
  | H : ?b = false |- context [if ?b then _ else _] => rewrite H
  | |- context [(?s =? ?s)%string] => rewrite String.eqb_refl; cbn [negb]
  end; cbv beta iota.

Ltac wp_any :=
  lazymatch goal with
  | |- wp (query _ _ _) _ _ => apply wp_query; intros ?; cbv beta iota; world_simpl
  | |- wp (if_truthy ?o ?k) _ _ =>
      eapply wp_use;
      [ apply (safe_if_truthy o k); intros ?; safety
      | let a := fresh in intros ? ? [a ->]; destruct a; cbv beta iota ]
  | _ => wp_step
  end.

Ltac explore := repeat first [lookup_full | wp_any].

(** The same, closing the branches [prune] shows impossible. *)
Tactic Notation "explore" "pruning" tactic(prune) :=
  repeat first [lookup_full | solve [exfalso; prune] | wp_any].

Lemma find_nil_none {A} (f : A -> bool) (x : A) : find f [] = Some x -> False.
Proof. discriminate. Qed.

(** A project found in the caller's trash is a soft-deleted row of the
    caller with the id asked for: the one row with that id, if there is one. *)
Lemma found_in_trash_is_entity id user w (e p : Project.t) :
  filter (fun r => (Project.id r =? id)%string) (projects w) = [e] ->
  find (fun p => (Project.id p =? id)%string)
       (order_by projectsRepository.newest_first
          (filter (projectsRepository.matches
                     {| pf_user_id := user; pf_status := None;
                        pf_is_deleted := Some true |}) (projects w))) = Some p ->
  p = e /\ Project.is_deleted e = true /\ Project.user_id e = user.
Proof.
  intros He Hf. apply deleted_found in Hf. destruct Hf as (Hin & Hid & Hd & Hu).
  destruct (filter_single _ _ _ He) as (_ & _ & Huniq).
  assert (p = e) by (apply Huniq; [exact Hin | apply String.eqb_eq, Hid]).
  subst p. auto.
Qed.

Ltac not_in_trash :=
  idtac;
  match goal with
  | H : find _ [] = Some _ |- _ => exact (find_nil_none _ _ H)
  | He : filter _ (projects ?w) = [?e], H : find _ (order_by _ _) = Some _,
    Hd : Project.is_deleted ?e = false |- _ =>
      let Hx := fresh in
      destruct (found_in_trash_is_entity _ _ _ _ _ He H) as (_ & Hx & _);
      congruence
  end.

Lemma not_found_in_trash t k id c user (e : row k) w :
  t <> SoftDelete ->
  requireAuth c = Some user ->
  entity k id w e ->
  row_is_deleted k e = false ->
  wp (route c (Lifecycle t k id))
     (fun r w' => exists msg, r = Ok (json (JError msg) 404) /\ same_state w w') w.
Proof.
  intros Ht Hauth He Hd. unfold entity in He.
  destruct t; [contradiction Ht; reflexivity | |];
    destruct k; world_simpl; cbn [row_is_deleted] in Hd; cbn [route];
    unfold POST_projects_id_restore, DELETE_projects_id_permanent,
      POST_folders_id_restore, DELETE_folders_id_permanent,
      POST_files_id_restore, DELETE_files_id_permanent;
    apply wp_try_catch; rewrite Hauth; cbv beta iota; autounfold with store;
    (explore pruning not_in_trash);
    (eexists; split; [reflexivity | repeat split]).
Qed.

Ltac found_in_trash :=
  match goal with
  | H : single (filter _ _) = PgData ?d, Hb : negb (FileMetadata.is_deleted ?d) = false
    |- _ =>
      exists d; destruct (single_found _ _ _ H) as [? Hid];
      apply String.eqb_eq in Hid; apply negb_false_iff in Hb; auto
  | H : single (filter _ _) = PgData ?d, Hb : negb (Folder.is_deleted ?d) = false
    |- _ =>
      exists d; destruct (single_found _ _ _ H) as [? Hid];
      apply String.eqb_eq in Hid; apply negb_false_iff in Hb; auto
  | H : find _ (order_by _ _) = Some ?p |- _ =>
      exists p; apply deleted_found in H; tauto
  end.

(** A restore or hard delete that answers 200 found its entity in the trash;
    one that answers anything else left the state alone. *)
Lemma only_from_trash t k id c w :
  t <> SoftDelete ->
  wp (route c (Lifecycle t k id))
     (fun r w' =>
        exists resp, r = Ok resp
        /\ (http_status resp = 200 ->
            exists e, In e (table k w) /\ row_id k e = id /\ row_is_deleted k e = true)
        /\ (http_status resp <> 200 -> same_state w w')) w.
Proof.
  intros Ht.
  destruct t; [contradiction Ht; reflexivity | |];
    destruct k; cbn [route table row_id row_is_deleted row];
    unfold POST_projects_id_restore, DELETE_projects_id_permanent,
      POST_folders_id_restore, DELETE_folders_id_permanent,
      POST_files_id_restore, DELETE_files_id_permanent;
    apply wp_try_catch; destruct (requireAuth c) as [user |]; cbv beta iota;
    autounfold with store;
    (explore pruning not_in_trash);
    (eexists; split; [reflexivity |]; cbn [http_status json]; split;
     [ intros H200; first [discriminate H200 | found_in_trash]
     | intros H200; first [contradiction H200; reflexivity | repeat split] ]).
Qed.

(** C2. Restore and hard delete of a Project, Folder or File whose
    [is_deleted] flag is false answer 404 to any authenticated caller and
    leave the state (the three tables, the stored credentials and their
    cache) unchanged. And these two operations reach the store only from the
    trash: an answer of 200 means a row with that id was soft-deleted; any
    other answer means the state was left alone. *)
Theorem restore_and_hard_delete_need_trash :
  forall (t : Transition) (k : Kind) (id : string) (c : Variables) (w : World),
    t <> SoftDelete ->
    (forall user (e : row k),
        requireAuth c = Some user ->
        entity k id w e ->
        row_is_deleted k e = false ->
        exists msg w',
          route c (Lifecycle t k id) w = (Ok (json (JError msg) 404), w')
          /\ same_state w w')
    /\ (exists resp w',
          route c (Lifecycle t k id) w = (Ok resp, w')
          /\ (http_status resp = 200 ->
              exists e, In e (table k w) /\ row_id k e = id
                        /\ row_is_deleted k e = true)
          /\ (http_status resp <> 200 -> same_state w w')).
Proof.
  intros t k id c w Ht. split.
  - intros user e Hauth He Hd.
    pose proof (not_found_in_trash t k id c user e w Ht Hauth He Hd) as H.
    unfold wp in H. destruct (route c (Lifecycle t k id) w) as [r w'].
    cbn [fst snd] in H. destruct H as (msg & -> & Hs).
    exists msg, w'. auto.
  - pose proof (only_from_trash t k id c w Ht) as H.
    unfold wp in H. destruct (route c (Lifecycle t k id) w) as [r w'].
    cbn [fst snd] in H. destruct H as (resp & -> & H1 & H2).
    exists resp, w'. auto.
Qed.

(** The hard delete of the active file of [world_alice], by its owner. *)
Lemma restore_and_hard_delete_need_trash_witness :
  (exists msg w',
      route (as_user "alice") (Lifecycle HardDelete KFile "f1") world_alice
      = (Ok (json (JError msg) 404), w')
      /\ same_state world_alice w')
  /\ (exists resp w',
        route (as_user "alice") (Lifecycle HardDelete KFile "f1") world_alice
        = (Ok resp, w')
        /\ (http_status resp = 200 ->
            exists e, In e (table KFile world_alice) /\ row_id KFile e = "f1"
                      /\ row_is_deleted KFile e = true)
        /\ (http_status resp <> 200 -> same_state world_alice w')).
Proof.
  destruct (restore_and_hard_delete_need_trash HardDelete KFile "f1" (as_user "alice")
              world_alice ltac:(discriminate)) as [Hactive Htrash].
  split; [| exact Htrash].
  apply (Hactive "alice" file_f1); reflexivity.
Defined.

(** ** C4: a caller who does not own the project *)

Definition project_p2 : Project.t :=
  {| Project.id := "p2"; Project.user_id := "alice"; Project.title := "Physics - 2023";
     Project.description := None; Project.root_drive_id := Some "drive-p2";
     Project.status := "archived"; Project.is_deleted := true;
     Project.deleted_at := Some 40; Project.created_at := 5; Project.updated_at := 40 |}.

(** Alice has a second project, in the trash. *)
Definition world_two_projects : World :=
  with_projects [project_p1; project_p2] world_alice.





Ltac wp_any_h :=
  lazymatch goal with
  | |- wp (query _ _ _) _ _ =>
      apply wp_query_healthy; [healthy_tac | cbv beta iota; world_simpl]
  | _ => wp_any
  end.

Tactic Notation "walk" "pruning" tactic(prune) :=
  repeat first [lookup_full | solve [exfalso; prune] | wp_any_h].




From Stdlib Require Import Sorting.Permutation Sorting.Sorted.


(** * Beyond the trash lifecycle

    ** Who the caller is: [decodeJwt], the middleware, [requireAuth] *)

(** The characters of [s] that are [c], counted. *)
Fixpoint occurrences (c : ascii) (s : string) : nat :=
  match s with
  | EmptyString => 0
  | String x s' => (if Ascii.eqb x c then 1 else 0) + occurrences c s'
  end.

(** [parts.join(sep)] *)
Fixpoint join (sep : ascii) (parts : list string) : string :=
  match parts with
  | [] => EmptyString
  | [p] => p
  | p :: rest => p ++ String sep (join sep rest)
  end.

Lemma split_nonempty sep s : split sep s <> [].
Proof.
  destruct s as [| c s]; cbn; [discriminate |].
  destruct (Ascii.eqb c sep); [discriminate |].
  destruct (split sep s); discriminate.
Qed.

Lemma split_length sep s : length (split sep s) = S (occurrences sep s).
Proof.
  induction s as [| c s IH]; cbn [split occurrences]; [reflexivity |].
  destruct (Ascii.eqb c sep); cbn [length Nat.add].
  - rewrite IH. reflexivity.
  - destruct (split sep s) as [| h t] eqn:E; [exfalso; exact (split_nonempty _ _ E) |].
    cbn [length] in *. exact IH.
Qed.

Lemma split_join sep s : join sep (split sep s) = s.
Proof.
  induction s as [| c s IH]; cbn [split]; [reflexivity |].
  destruct (Ascii.eqb_spec c sep) as [-> | Hc].
  - destruct (split sep s) as [| h t] eqn:E; [exfalso; exact (split_nonempty _ _ E) |].
    cbn [join] in *. cbn. rewrite IH. reflexivity.
  - destruct (split sep s) as [| h t] eqn:E; [exfalso; exact (split_nonempty _ _ E) |].
    destruct t as [| h' t']; cbn [join] in *; cbn; rewrite IH; reflexivity.
Qed.

Lemma split_parts_clean sep s p : In p (split sep s) -> occurrences sep p = 0%nat.
Proof.
  revert p. induction s as [| c s IH]; cbn [split]; intros p Hp.
  - destruct Hp as [<- | []]. reflexivity.
  - destruct (Ascii.eqb c sep) eqn:Ec.
    + destruct Hp as [<- | Hp]; [reflexivity | auto].
    + destruct (split sep s) as [| h t] eqn:E; [exfalso; exact (split_nonempty _ _ E) |].
      destruct Hp as [<- | Hp].
      * cbn [occurrences]. rewrite Ec. apply IH. left. reflexivity.
      * apply IH. right. exact Hp.
Qed.

(** X1. [decodeJwt] decodes exactly the tokens of three dot-separated parts:
    when it answers a payload, the token is [header.body.signature] with no dot
    inside any part, and the payload is the decoding of the body with [-]
    and [_] replaced by [+] and [/]. A token with fewer or more dots is null. *)
Theorem decodeJwt_three_parts :
  forall (e : Env) (tok : string),
    match decodeJwt e tok with
    | Some p =>
        exists header body signature,
          tok = header ++ "." ++ body ++ "." ++ signature
          /\ occurrences "." header = 0%nat
          /\ occurrences "." body = 0%nat
          /\ occurrences "." signature = 0%nat
          /\ payload_of e (replace_all "_" "/" (replace_all "-" "+" body)) = Some p
    | None =>
        occurrences "." tok <> 2%nat
        \/ forall body, nth_error (split "." tok) 1 = Some body ->
             payload_of e (replace_all "_" "/" (replace_all "-" "+" body)) = None
    end.
Proof.
  intros e tok. unfold decodeJwt.
  pose proof (split_length "." tok) as Hlen.
  pose proof (split_join "." tok) as Hjoin.
  pose proof (split_parts_clean "." tok) as Hclean.
  destruct (split "." tok) as [| h [| b [| s [| x rest]]]] eqn:E;
    cbn [length Nat.eqb negb nth] in *.
  - discriminate.
  - left. intros H. rewrite H in Hlen. discriminate.
  - left. intros H. rewrite H in Hlen. discriminate.
  - destruct (payload_of e (replace_all "_" "/" (replace_all "-" "+" b))) as [p |] eqn:Ep.
    + exists h, b, s. cbn [join] in Hjoin.
      split; [rewrite <- Hjoin; reflexivity |].
      repeat split; try (apply Hclean; cbn; tauto).
      exact Ep.
    + right. intros body Hb. cbn in Hb. injection Hb as <-. exact Ep.
  - left. intros H. rewrite H in Hlen. discriminate.
Qed.


Lemma wp_returns {A} (m : M A) (P : A -> World -> Prop) w :
  wp m (fun r w' => exists a, r = Ok a /\ P a w') w ->
  exists a w', m w = (Ok a, w') /\ P a w'.
Proof.
  unfold wp. destruct (m w) as [r w']. cbn [fst snd].
  intros (a & -> & H). exists a, w'. auto.
Qed.


Lemma decodeJwt_empty e : decodeJwt e "" = None.
Proof. reflexivity. Qed.

(** What a request must present for the middleware to let it through as
    [u]: an access token whose payload names the string [u] and is not
    expired at the second the middleware reads the clock, with no [x-user-id]
    header that names someone else; or, outside production, no access token
    and the header [x-user-id: u]. *)
Definition authenticates (accessToken userIdHeader : option string) (w : World)
  (u : string) : Prop :=
  u <> ""
  /\ ((exists tok p,
         accessToken = Some tok
         /\ decodeJwt (env w) tok = Some p
         /\ sub p = Text u
         /\ expired p (clock (env w) (tick w) / 1000) = false
         /\ forall h, userIdHeader = Some h -> h = "" \/ h = u)
      \/ (truthy_opt accessToken = false
          /\ isProduction (env w) = false
          /\ userIdHeader = Some u)).

(** What a request must present for the middleware to store a [userId] that
    is no string: an access token whose [sub] is a truthy value that is no
    string, not expired, and no [x-user-id] header or an empty one (any other
    header differs from a value that is no string). *)
Definition presents_other (accessToken userIdHeader : option string) (w : World)
  : Prop :=
  exists tok p,
    accessToken = Some tok
    /\ decodeJwt (env w) tok = Some p
    /\ sub p = NonText
    /\ expired p (clock (env w) (tick w) / 1000) = false
    /\ truthy_opt userIdHeader = false.

Lemma truthy_true s : truthy s = true <-> s <> "".
Proof.
  unfold truthy. destruct (String.eqb_spec s ""); cbn; split; congruence.
Qed.

Lemma truthy_false s : truthy s = false <-> s = "".
Proof.
  unfold truthy. destruct (String.eqb_spec s ""); cbn; split; congruence.
Qed.

Lemma requireAuth_some c u :
  requireAuth c = Some u <-> userId c = Some u /\ u <> "".
Proof.
  unfold requireAuth. destruct (userId c) as [v |].
  - destruct (truthy v) eqn:E.
    + apply truthy_true in E. split.
      * intros H. injection H as <-. auto.
      * intros [H _]. exact H.
    + apply truthy_false in E. split; [discriminate |].
      intros [H Hu]. injection H as <-. contradiction.
  - split; [discriminate | intros [H _]; discriminate].
Qed.

(** The events that reach neither the network nor the database. *)
Definition offline (e : Event) : bool :=
  match e with
  | EvFetch _ _ | EvQuery _ _ _ => false
  | _ => true
  end.

(** The caller of a context, for the routes. *)
Definition caller (ctx : Context) (u : string) : Prop :=
  exists c, ctx = Declared c /\ requireAuth c = Some u.

Lemma caller_anonymous u : ~ caller (Declared anonymous) u.
Proof. intros (c & E & H). injection E as <-. discriminate H. Qed.

Lemma caller_declared c u : caller (Declared c) u <-> requireAuth c = Some u.
Proof.
  split.
  - intros (c' & E & H). injection E as <-. exact H.
  - intros H. exists c. auto.
Qed.

Lemma middleware_spec (accessToken userIdHeader : option string) (w : World) :
  wp (auth_middleware accessToken userIdHeader)
     (fun r w' =>
        exists ctx, r = Ok ctx /\ same_state w w'
                    /\ adds offline w w'
                    /\ (forall u, caller ctx u
                                  <-> authenticates accessToken userIdHeader w u)
                    /\ (ctx = OtherUser
                        <-> presents_other accessToken userIdHeader w)) w.
Proof.
  assert (Hanon : forall w',
            same_state w w' ->
            adds offline w w' ->
            (forall u, ~ authenticates accessToken userIdHeader w u) ->
            ~ presents_other accessToken userIdHeader w ->
            exists ctx, Ok (Declared anonymous) = Ok ctx /\ same_state w w'
                        /\ adds offline w w'
                        /\ (forall u, caller ctx u
                                      <-> authenticates accessToken userIdHeader w u)
                        /\ (ctx = OtherUser
                            <-> presents_other accessToken userIdHeader w)).
  { intros w' Hs Ht Hno Hother. exists (Declared anonymous).
    split; [reflexivity |]. split; [exact Hs |]. split; [exact Ht |]. split.
    - intros u. split; [intros H; exfalso; exact (caller_anonymous u H) |].
      intros H. exfalso. exact (Hno u H).
    - split; [discriminate | intros H; exfalso; exact (Hother H)]. }
  unfold auth_middleware. apply wp_bind, wp_ask. cbv beta iota.
  destruct (truthy_opt accessToken) eqn:Hhas.
  - destruct accessToken as [tok |]; [| discriminate]. cbn [truthy_opt] in Hhas.
    cbn [or_else]. rewrite Hhas.
    assert (Htoken : forall u, authenticates (Some tok) userIdHeader w u ->
              u <> "" /\ exists p, decodeJwt (env w) tok = Some p /\ sub p = Text u
                /\ expired p (clock (env w) (tick w) / 1000) = false
                /\ forall h, userIdHeader = Some h -> h = "" \/ h = u).
    { intros u (Hu & [(tok' & p & E & H) | (E & _)]).
      - injection E as <-. eauto.
      - cbn in E. congruence. }
    assert (Hstrange : presents_other (Some tok) userIdHeader w ->
              exists p, decodeJwt (env w) tok = Some p /\ sub p = NonText
                /\ expired p (clock (env w) (tick w) / 1000) = false
                /\ truthy_opt userIdHeader = false).
    { intros (tok' & p & E & H). injection E as <-. eauto. }
    destruct (decodeJwt (env w) tok) as [p |] eqn:Hp.
    2:{ apply wp_ret, Hanon; [apply same_state_refl | apply adds_refl | |].
        - intros u H. apply Htoken in H. destruct H as (_ & p & E & _). discriminate.
        - intros H. apply Hstrange in H. destruct H as (p & E & _). discriminate. }
    destruct (claimed (sub p)) eqn:Hclaimed.
    2:{ apply wp_ret, Hanon; [apply same_state_refl | apply adds_refl | |].
        - intros u H. apply Htoken in H. destruct H as (Hu & p' & E & E' & _).
          injection E as <-. rewrite E' in Hclaimed. cbn in Hclaimed.
          apply truthy_false in Hclaimed. contradiction.
        - intros H. apply Hstrange in H. destruct H as (p' & E & E' & _).
          injection E as <-. rewrite E' in Hclaimed. discriminate. }
    apply wp_bind, wp_date_now. cbv beta iota zeta.
    assert (Hdate : adds offline w (record (EvDate (clock (env w) (tick w))) w))
      by (apply adds_record; [reflexivity | apply adds_refl]).
    destruct (expired p (clock (env w) (tick w) / 1000)) eqn:Hexp.
    { apply wp_ret, Hanon; [repeat split | exact Hdate | |].
      - intros u H. apply Htoken in H. destruct H as (_ & p' & E & _ & E' & _).
        injection E as <-. congruence.
      - intros H. apply Hstrange in H. destruct H as (p' & E & _ & E' & _).
        injection E as <-. congruence. }
    destruct (match userIdHeader with
              | Some h => truthy h && differs h (sub p)
              | None => false
              end) eqn:Hh.
    { destruct userIdHeader as [h |]; [| discriminate].
      apply andb_prop in Hh. destruct Hh as [Hth Hdiff].
      apply wp_ret, Hanon; [repeat split | exact Hdate | |].
      - intros u H. apply Htoken in H. destruct H as (_ & p' & E & E' & _ & Hhdr).
        injection E as <-. rewrite E' in Hdiff. cbn in Hdiff.
        apply truthy_true in Hth.
        destruct (Hhdr h eq_refl) as [-> | ->]; [contradiction |].
        rewrite String.eqb_refl in Hdiff. discriminate.
      - intros H. apply Hstrange in H. destruct H as (_ & _ & _ & _ & E).
        cbn in E. congruence. }
    assert (Hhdr : forall h, userIdHeader = Some h ->
              truthy h = false \/ differs h (sub p) = false).
    { intros h ->. apply andb_false_iff, Hh. }
    destruct (sub p) as [| subject |] eqn:Hsub; [discriminate Hclaimed | |].
    + (* a string *)
      cbn [claimed] in Hclaimed. apply truthy_true in Hclaimed.
      apply wp_ret. eexists. split; [reflexivity |]. split; [repeat split |].
      split; [exact Hdate |]. split.
      * intros u. rewrite caller_declared, requireAuth_some. cbn [userId].
        split.
        -- intros [E Hu]. injection E as <-. split; [exact Hu |]. left.
           exists tok, p. repeat split; trivial.
           intros h E. destruct (Hhdr h E) as [H | H].
           ++ left. apply truthy_false, H.
           ++ right. cbn in H. apply negb_false_iff, String.eqb_eq in H. exact H.
        -- intros H. apply Htoken in H. destruct H as (Hu & p' & E & E' & _).
           injection E as <-. rewrite Hsub in E'. injection E' as <-. auto.
      * split; [discriminate |]. intros H. apply Hstrange in H.
        destruct H as (p' & E & E' & _). injection E as <-. congruence.
    + (* a truthy value that is no string *)
      apply wp_ret. exists OtherUser. split; [reflexivity |].
      split; [repeat split |]. split; [exact Hdate |]. split.
      * intros u. split.
        -- intros (c & E & _). discriminate E.
        -- intros H. apply Htoken in H. destruct H as (_ & p' & E & E' & _).
           injection E as <-. congruence.
      * split; [| reflexivity]. intros _. exists tok, p. repeat split; trivial.
        destruct userIdHeader as [h |]; [| reflexivity]. cbn [truthy_opt].
        destruct (Hhdr h eq_refl) as [H | H]; [exact H | discriminate H].
  - assert (Hdev : forall u, authenticates accessToken userIdHeader w u ->
              u <> "" /\ isProduction (env w) = false /\ userIdHeader = Some u).
    { intros u (Hu & [(tok & p & E & Hp & _) | (_ & H)]); [| auto].
      subst accessToken. cbn in Hhas. apply truthy_false in Hhas. subst tok.
      rewrite decodeJwt_empty in Hp. discriminate. }
    assert (Hnone : ~ presents_other accessToken userIdHeader w).
    { intros (tok & p & E & Hp & _).
      subst accessToken. cbn in Hhas. apply truthy_false in Hhas. subst tok.
      rewrite decodeJwt_empty in Hp. discriminate. }
    destruct (negb (isProduction (env w)) && truthy_opt userIdHeader) eqn:E.
    + apply andb_prop in E. destruct E as [Hprod Hhdr].
      apply (proj1 (negb_true_iff _)) in Hprod.
      apply wp_bind, wp_console. cbv beta iota. apply wp_ret.
      eexists. split; [reflexivity |]. split; [repeat split |].
      split; [apply adds_record; [reflexivity | apply adds_refl] |]. split.
      * intros u. rewrite caller_declared, requireAuth_some. cbn [userId]. split.
        -- intros [Eh Hu]. split; [exact Hu |]. right. auto.
        -- intros H. apply Hdev in H. tauto.
      * split; [discriminate | intros H; exfalso; exact (Hnone H)].
    + apply wp_ret, Hanon; [apply same_state_refl | apply adds_refl | | exact Hnone].
      intros u H. apply Hdev in H. destruct H as (Hu & Hprod & Hh).
      rewrite Hprod, Hh in E. cbn in E. apply truthy_false in E. contradiction.
Qed.

(** X2. The middleware never throws and changes nothing but the trace, and
    what it leaves in the context is decided by what the request presents.
    The routes see the caller [u] if and only if the request presents a token
    whose payload names the string [u], unexpired, and no conflicting
    [x-user-id], or (outside production, without a token) the header
    [x-user-id: u]. The context holds a [userId] that is no string if and
    only if the token's [sub] is a truthy value that is no string, the token
    is unexpired and [x-user-id] is absent or empty. In every other case the caller
    is anonymous. *)
Theorem middleware_decides :
  forall (accessToken userIdHeader : option string) (w : World),
    exists ctx w',
      auth_middleware accessToken userIdHeader w = (Ok ctx, w')
      /\ same_state w w'
      /\ (forall u, (exists c, ctx = Declared c /\ requireAuth c = Some u)
                    <-> authenticates accessToken userIdHeader w u)
      /\ (ctx = OtherUser <-> presents_other accessToken userIdHeader w)
      /\ ((forall u, ~ authenticates accessToken userIdHeader w u) ->
          ~ presents_other accessToken userIdHeader w ->
          exists c, ctx = Declared c /\ requireAuth c = None).
Proof.
  intros accessToken userIdHeader w. apply wp_returns.
  eapply wp_mono; [apply middleware_spec |].
  intros r w' (ctx & -> & Hs & _ & H & Ho). exists ctx.
  split; [reflexivity |]. split; [exact Hs |]. split; [exact H |].
  split; [exact Ho |]. intros Hno Hnot.
  destruct ctx as [c |]; [| exfalso; apply Hnot, Ho; reflexivity].
  exists c. split; [reflexivity |].
  destruct (requireAuth c) as [u |] eqn:E; [| reflexivity].
  exfalso. apply (Hno u), H. exists c. auto.
Qed.

(** ** C10: a token without an expiry claim *)

Lemma no_exp_never_expired p now : exp p = NoExp -> expired p now = false.
Proof. unfold expired. intros ->. reflexivity. Qed.

(** C10. A request whose access token decodes to a payload with a truthy
    [sub] and no [exp] (absent, or falsy), and whose [x-user-id] header, if
    present and not empty, is that [sub], is let through whatever the clock
    says: the middleware stores [userId = sub], so [requireAuth] answers [sub]
    when it is a string (and the context holds the value as it is when it is
    not). The expiry check is passed for every reading of the clock. *)
Theorem token_without_exp_is_accepted :
  forall (tok : string) (userIdHeader : option string) (p : JwtPayload) (w : World),
    decodeJwt (env w) tok = Some p ->
    claimed (sub p) = true ->
    exp p = NoExp ->
    (forall h, userIdHeader = Some h -> h = "" \/ sub p = Text h) ->
    (forall now, expired p now = false)
    /\ exists ctx w',
         auth_middleware (Some tok) userIdHeader w = (Ok ctx, w')
         /\ same_state w w'
         /\ match sub p with
            | Text u =>
                exists c, ctx = Declared c /\ userId c = Some u
                          /\ requireAuth c = Some u
            | NonText => ctx = OtherUser
            | Missing => False
            end.
Proof.
  intros tok userIdHeader p w Hp Hsub Hexp Hhdr.
  split; [intros now; apply no_exp_never_expired, Hexp |].
  assert (Htok : truthy tok = true).
  { apply truthy_true. intros ->. rewrite decodeJwt_empty in Hp. discriminate. }
  assert (Hh : match userIdHeader with
               | Some h => truthy h && differs h (sub p)
               | None => false
               end = false).
  { destruct userIdHeader as [h |]; [| reflexivity].
    destruct (Hhdr h eq_refl) as [-> | ->]; [reflexivity |].
    cbn. rewrite String.eqb_refl. apply andb_false_r. }
  unfold auth_middleware, bind, ask, date_now, ret. cbn [truthy_opt or_else].
  rewrite Htok, Hp, Hsub.
  rewrite (no_exp_never_expired p _ Hexp). rewrite Hh.
  destruct (sub p) as [| u |] eqn:Esub; [discriminate Hsub | |].
  - eexists. eexists. split; [reflexivity |]. split; [repeat split |].
    eexists. split; [reflexivity |]. split; [reflexivity |].
    unfold requireAuth. cbn [userId]. cbn [claimed] in Hsub. rewrite Hsub. reflexivity.
  - eexists. eexists. split; [reflexivity |]. split; [repeat split | reflexivity].
Qed.

(** A world whose tokens carry the payload [{ sub: "alice" }]. *)
Definition world_tokens : World :=
  {| env := {| isProduction := true;
               GOOGLE_CLIENT_ID := None;
               GOOGLE_CLIENT_SECRET := None;
               net := fun _ _ => Rejected;
               db_error := fun _ => false;
               clock := fun n => 1700000000000 + Z.of_nat n;
               gen_uuid := fun _ => "id";
               getFullYear := fun _ => "2024";
               payload_of := fun _ => Some {| sub := Text "alice"; exp := NoExp;
                                              email := Missing |} |};
     projects := [];
     folders := [];
     files_metadata := [];
     drive_connections := [];
     providerTokensCache := [];
     trace := [] |}.

Lemma token_without_exp_is_accepted_witness :
  (forall now, expired {| sub := Text "alice"; exp := NoExp; email := Missing |} now = false)
  /\ exists ctx w',
       auth_middleware (Some "h.b.s") (Some "alice") world_tokens = (Ok ctx, w')
       /\ same_state world_tokens w'
       /\ exists c, ctx = Declared c /\ userId c = Some "alice"
                    /\ requireAuth c = Some "alice".
Proof.
  apply (token_without_exp_is_accepted "h.b.s" (Some "alice")
           {| sub := Text "alice"; exp := NoExp; email := Missing |} world_tokens).
  - reflexivity.
  - reflexivity.
  - reflexivity.
  - intros h E. injection E as <-. right. reflexivity.
Defined.

(** ** Every route asks who the caller is first *)

(** [answers P m]: whatever [m] returns satisfies [P]. *)
Definition answers {A} (P : A -> Prop) (m : M A) : Prop :=
  forall w, wp m (fun r _ => match r with Ok a => P a | Throw _ => True end) w.

Lemma answers_ret {A} (P : A -> Prop) (a : A) : P a -> answers P (ret a).
Proof. intros H w. exact H. Qed.

Lemma answers_throw {A} (P : A -> Prop) e : answers P (throw e).
Proof. intros w. exact I. Qed.

Lemma answers_bind_with {A B} (P1 : A -> Prop) (P : B -> Prop) (m : M A) (k : A -> M B) :
  answers P1 m -> (forall a, P1 a -> answers P (k a)) -> answers P (bind m k).
Proof.
  intros Hm Hk w. apply wp_bind. eapply wp_mono; [apply Hm |].
  intros [a | e] w1 H; [apply Hk, H | exact I].
Qed.

Lemma answers_bind {A B} (P : B -> Prop) (m : M A) (k : A -> M B) :
  (forall a, answers P (k a)) -> answers P (bind m k).
Proof.
  intros Hk w. apply wp_bind, wp_intro.
  intros [a | e] w1 _; [apply Hk | exact I].
Qed.

Lemma answers_try_catch {A} (P : A -> Prop) (m : M A) (h : Exn -> M A) :
  answers P m -> (forall e, answers P (h e)) -> answers P (try_catch m h).
Proof.
  intros Hm Hh w. apply wp_try_catch. eapply wp_mono; [apply Hm |].
  intros [a | e] w1 H; [exact H | apply Hh].
Qed.

Ltac answer_step :=
  first
    [ apply answers_try_catch; [| intros ?]
    | lazymatch goal with
      | |- answers ?P (@bind (_ + HttpResponse)%type _ _ _) =>
          apply (answers_bind_with
                   (fun s => match s with inl _ => True | inr r => P r end));
          [| intros ? ?]
      end
    | apply answers_bind; intros ?
    | apply answers_throw
    | apply answers_ret; cbn in *; first [exact I | assumption | discriminate]
    | match goal with
      | |- answers _ (match ?x with _ => _ end) => destruct x
      | |- answers _ (let _ := _ in _) => cbv zeta
      end ].

Ltac answering := repeat answer_step.

(** An authenticated caller is never answered 401. *)
Lemma route_not_401 c call user :
  requireAuth c = Some user ->
  answers (fun r => http_status r <> 401) (route c call).
Proof.
  intros Hauth.
  destruct call as [body | id body | [| |] [| |] id | id | id]; cbn [route];
    unfold POST_projects, PATCH_projects_id, DELETE_projects_id,
      POST_projects_id_restore, DELETE_projects_id_permanent, DELETE_folders_id,
      DELETE_files_id, GET_projects_id_trash, POST_files_id_restore,
      DELETE_files_id_permanent, POST_folders_id_restore, DELETE_folders_id_permanent,
      DELETE_projects_id_trash;
    rewrite Hauth; answering.
Qed.

(** An anonymous caller is answered 401 before anything else happens. *)
Lemma route_unauthorized c call w :
  requireAuth c = None ->
  route c call w = (Ok (json (JError "Unauthorized") 401), w).
Proof.
  intros Hauth.
  destruct call as [body | id body | [| |] [| |] id | id | id]; cbn [route];
    unfold POST_projects, PATCH_projects_id, DELETE_projects_id,
      POST_projects_id_restore, DELETE_projects_id_permanent, DELETE_folders_id,
      DELETE_files_id, GET_projects_id_trash, POST_files_id_restore,
      DELETE_files_id_permanent, POST_folders_id_restore, DELETE_folders_id_permanent,
      DELETE_projects_id_trash, try_catch;
    rewrite Hauth; reflexivity.
Qed.

Lemma route_status c call w :
  wp (route c call)
     (fun r w' => exists a, r = Ok a
                            /\ (http_status a = 401 <-> requireAuth c = None)
                            /\ (requireAuth c = None ->
                                a = json (JError "Unauthorized") 401 /\ w' = w)) w.
Proof.
  destruct (requireAuth c) as [user |] eqn:Hauth.
  - eapply wp_mono;
      [apply wp_and; [apply route_safe | apply (route_not_401 c call user Hauth)] |].
    cbv beta. intros r w' ((a & ->) & Hr). exists a. split; [reflexivity |].
    split; [| discriminate]. split; [contradiction | discriminate].
  - unfold wp. rewrite (route_unauthorized c call w Hauth). cbn [fst snd].
    eexists. split; [reflexivity |]. split; [| auto].
    split; reflexivity.
Qed.

(** X3. Each of the thirteen project, folder, file and trash routes answers
    401 exactly to the callers [requireAuth] refuses; the refusal is the body
    [{ error: "Unauthorized" }] and happens before anything else: the world,
    trace included, is the one the route started in. *)
Theorem unauthorized_iff_anonymous :
  forall (c : Variables) (call : ApiCall) (w : World),
    exists r w',
      route c call w = (Ok r, w')
      /\ (http_status r = 401 <-> requireAuth c = None)
      /\ (requireAuth c = None -> r = json (JError "Unauthorized") 401 /\ w' = w).
Proof.
  intros c call w. apply wp_returns, route_status.
Qed.

(** X4. A request, end to end (middleware, then route). When the
    middleware leaves a [userId] of the declared type in the context, which
    it does unless the token's [sub] is a truthy value that is no string
    (unexpired, with [x-user-id] absent or empty), the request is answered; the answer is
    401 exactly when the request authenticates nobody; and a request answered
    401 has reached neither the database nor the network and has changed
    nothing. *)
Theorem serve_401_iff_unauthenticated :
  forall (accessToken userIdHeader : option string) (call : ApiCall) (w : World),
    exists o w',
      serve accessToken userIdHeader call w = (Ok o, w')
      /\ (o = None <-> presents_other accessToken userIdHeader w)
      /\ forall r,
           o = Some r ->
           (http_status r = 401
            <-> forall u, ~ authenticates accessToken userIdHeader w u)
           /\ (http_status r = 401 -> same_state w w' /\ adds offline w w').
Proof.
  intros accessToken userIdHeader call w. apply wp_returns.
  unfold serve. apply wp_bind.
  eapply wp_mono; [apply middleware_spec |].
  intros r w1 (ctx & -> & Hs & Ht & Hc & Ho).
  destruct ctx as [c |].
  - apply wp_bind. eapply wp_mono; [apply route_status |]. cbv beta.
    intros r w' (a & -> & H401 & Hanon). apply wp_ret.
    exists (Some a). split; [reflexivity |]. split.
    + split; [discriminate |]. intros H. apply Ho in H. discriminate H.
    + intros r E. injection E as <-. split.
      * rewrite H401. split.
        -- intros Hnone u Hu. apply Hc, caller_declared in Hu. congruence.
        -- intros Hno. destruct (requireAuth c) as [u |] eqn:E; [| reflexivity].
           exfalso. apply (Hno u), Hc, caller_declared. exact E.
      * intros H. apply H401 in H. destruct (Hanon H) as (_ & ->). auto.
  - apply wp_ret. exists None. split; [reflexivity |]. split.
    + split; [intros _; apply Ho; reflexivity | reflexivity].
    + intros r E. discriminate E.
Qed.

(** ** The provider credential: table, cache, validation and refresh *)

Lemma wp_answers {A} (m : M A) (a : A) (P : World -> Prop) w :
  wp m (fun r w' => r = Ok a /\ P w') w ->
  exists w', m w = (Ok a, w') /\ P w'.
Proof.
  unfold wp. destruct (m w) as [r w']. cbn [fst snd].
  intros (-> & H). exists w'. auto.
Qed.

(** The upsert of [storeTokens] on the rows of [drive_connections]. *)
Lemma upsert_selected (u : string) (row : DriveConnection) (ds : list DriveConnection) :
  driveConnectionsRepository.selects u "google" row = true ->
  (length (filter (driveConnectionsRepository.selects u "google") ds) <= 1)%nat ->
  filter (driveConnectionsRepository.selects u "google")
    (if existsb (driveConnectionsRepository.selects u "google") ds
     then update_where (driveConnectionsRepository.selects u "google") (fun _ => row) ds
     else (ds ++ [row])%list)
  = [row].
Proof.
  intros Hrow Hlen. induction ds as [| d ds IH]; cbn.
  - rewrite Hrow. reflexivity.
  - cbn in Hlen. destruct (driveConnectionsRepository.selects u "google" d) eqn:Hd; cbn.
    + rewrite Hrow. f_equal. cbn in Hlen.
      assert (Hnone : filter (driveConnectionsRepository.selects u "google") ds = [])
        by (destruct (filter (driveConnectionsRepository.selects u "google") ds);
            [reflexivity | cbn in Hlen; lia]).
      clear IH Hlen. induction ds as [| x ds IH]; cbn; [reflexivity |].
      cbn in Hnone. destruct (driveConnectionsRepository.selects u "google" x) eqn:Hx;
        [discriminate |]. rewrite Hx. apply IH, Hnone.
    + specialize (IH Hlen).
      destruct (existsb (driveConnectionsRepository.selects u "google") ds);
        cbn; rewrite Hd; exact IH.
Qed.

Lemma upsert_others (u : string) (row : DriveConnection) (ds : list DriveConnection) :
  driveConnectionsRepository.selects u "google" row = true ->
  filter (fun d => negb (driveConnectionsRepository.selects u "google" d))
    (if existsb (driveConnectionsRepository.selects u "google") ds
     then update_where (driveConnectionsRepository.selects u "google") (fun _ => row) ds
     else (ds ++ [row])%list)
  = filter (fun d => negb (driveConnectionsRepository.selects u "google" d)) ds.
Proof.
  intros Hrow.
  destruct (existsb (driveConnectionsRepository.selects u "google") ds).
  - unfold update_where. induction ds as [| d ds IH]; cbn; [reflexivity |].
    destruct (driveConnectionsRepository.selects u "google" d) eqn:Hd; cbn.
    + rewrite Hrow. cbn. exact IH.
    + rewrite Hd. cbn. f_equal. exact IH.
  - rewrite filter_app. cbn. rewrite Hrow. cbn. apply app_nil_r.
Qed.

(** The row [storeTokens] writes. *)
Definition sealed_row (u : string) (a r : option string) (now : Z) : DriveConnection :=
  {| dc_user_id := u; dc_provider := "google";
     refresh_token_encrypted := Sealed a r; dc_updated_at := now |}.

Lemma sealed_row_selected u a r now :
  driveConnectionsRepository.selects u "google" (sealed_row u a r now) = true.
Proof.
  unfold driveConnectionsRepository.selects, sealed_row. cbn.
  rewrite String.eqb_refl. reflexivity.
Qed.

(** [storeTokens] either writes its row and returns, or throws the error of
    the database and leaves every store as it was. *)
Lemma storeTokens_spec u a r w :
  wp (driveConnectionsRepository.storeTokens u a r)
     (fun res w' =>
        same_entities w w'
        /\ providerTokensCache w' = providerTokensCache w
        /\ adds background w w'
        /\ ((res = Ok tt
             /\ db_error (env w) (S (tick w)) = false
             /\ drive_connections w'
                = (let row := sealed_row u a r (clock (env w) (tick w)) in
                   if existsb (driveConnectionsRepository.selects u "google")
                        (drive_connections w)
                   then update_where (driveConnectionsRepository.selects u "google")
                          (fun _ => row) (drive_connections w)
                   else (drive_connections w ++ [row])%list))
            \/ (res = Throw PostgrestError
                /\ db_error (env w) (S (tick w)) = true
                /\ drive_connections w' = drive_connections w))) w.
Proof.
  unfold driveConnectionsRepository.storeTokens. cbv zeta.
  apply wp_bind, wp_date_now. cbv beta iota.
  apply wp_bind, wp_query; intros Hdb; cbv beta iota; world_simpl.
  - apply wp_bind, wp_console. cbv beta iota. apply wp_throw.
    split; [repeat split |]. split; [reflexivity |].
    split; [solve_adds |]. right. auto.
  - apply wp_console.
    split; [repeat split |]. split; [reflexivity |].
    split; [solve_adds |]. left. auto.
Qed.

(** X5. The credential survives the round trip through [drive_connections]:
    when the table holds at most one row for the user (the conflict target of
    the upsert) and [storeTokens] returned, [getTokens] answers the very pair
    of tokens that was stored, provided its query is answered; and the rows
    of every other user are where they were. *)
Theorem stored_tokens_are_read_back :
  forall (u : string) (a r : option string) (w w1 : World),
    (length (filter (driveConnectionsRepository.selects u "google")
               (drive_connections w)) <= 1)%nat ->
    driveConnectionsRepository.storeTokens u a r w = (Ok tt, w1) ->
    db_error (env w1) (tick w1) = false ->
    (exists w2,
        driveConnectionsRepository.getTokens u w1 = (Ok (Some (a, r)), w2)
        /\ same_state w1 w2)
    /\ filter (fun d => negb (driveConnectionsRepository.selects u "google" d))
         (drive_connections w1)
       = filter (fun d => negb (driveConnectionsRepository.selects u "google" d))
           (drive_connections w).
Proof.
  intros u a r w w1 Hlen Hrun Hdb.
  pose proof (wp_run _ _ _ _ _ (storeTokens_spec u a r w) Hrun) as H.
  cbv beta in H. destruct H as (_ & _ & _ & [(_ & _ & Hds) | (E & _)]); [| discriminate].
  cbv zeta in Hds. split.
  - apply wp_answers. unfold driveConnectionsRepository.getTokens.
    apply wp_bind, wp_query_healthy; [exact Hdb |]. cbv beta iota. world_simpl.
    rewrite Hds, (upsert_selected u _ _ (sealed_row_selected u a r _) Hlen).
    cbn [map single refresh_token_encrypted sealed_row].
    apply wp_bind, wp_console. cbv beta iota. apply wp_ret.
    split; [reflexivity |]. repeat split.
  - rewrite Hds. apply upsert_others, sealed_row_selected.
Qed.

(** A finite map as the list of its entries, newest first. *)
Lemma cache_get_set u v c : storage.cache_get u (storage.cache_set u v c) = Some v.
Proof.
  unfold storage.cache_get, storage.cache_set. cbn. rewrite String.eqb_refl. reflexivity.
Qed.

Lemma cache_get_delete u c : storage.cache_get u (storage.cache_delete u c) = None.
Proof.
  unfold storage.cache_get, storage.cache_delete.
  induction c as [| [k v] c IH]; cbn; [reflexivity |].
  destruct (k =? u)%string eqn:E; cbn; [exact IH |]. rewrite E. exact IH.
Qed.

Lemma cache_get_delete_other u u' c :
  u' <> u -> storage.cache_get u' (storage.cache_delete u c) = storage.cache_get u' c.
Proof.
  intros Hne. unfold storage.cache_get, storage.cache_delete.
  induction c as [| [k v] c IH]; cbn; [reflexivity |].
  destruct (String.eqb_spec k u) as [-> | Hk]; cbn.
  - destruct (String.eqb_spec u u'); [congruence | exact IH].
  - destruct (k =? u')%string; [reflexivity | exact IH].
Qed.

Lemma cache_get_set_other u u' v c :
  u' <> u -> storage.cache_get u' (storage.cache_set u v c) = storage.cache_get u' c.
Proof.
  intros Hne. unfold storage.cache_set.
  transitivity (storage.cache_get u' (storage.cache_delete u c)).
  - unfold storage.cache_get at 1. cbn.
    destruct (String.eqb_spec u u'); [congruence | reflexivity].
  - apply cache_get_delete_other, Hne.
Qed.

(** Symbolic execution along every path, the database failing or not. *)
Ltac wp_all :=
  repeat first
    [ wp_step
    | lazymatch goal with
      | |- wp (query _ _ _) _ _ =>
          let H := fresh "Hdb" in apply wp_query; intros H; cbv beta iota
      end ].

(** [storage.getProviderToken]: the tokens it answers are in the cache when
    it returns; a miss leaves the cache as it was. It never writes to a table
    and never throws. *)
Lemma getProviderToken_spec u w :
  wp (storage.getProviderToken u)
     (fun r w' =>
        exists o, r = Ok o
          /\ same_entities w w'
          /\ drive_connections w' = drive_connections w
          /\ adds background w w'
          /\ match o with
             | Some t =>
                 storage.cache_get u (providerTokensCache w') = Some t
                 /\ forall u', u' <> u ->
                      storage.cache_get u' (providerTokensCache w')
                      = storage.cache_get u' (providerTokensCache w)
             | None =>
                 providerTokensCache w' = providerTokensCache w
                 /\ storage.cache_get u (providerTokensCache w) = None
             end) w.
Proof.
  unfold storage.getProviderToken. apply wp_bind, wp_get_cache. cbv beta iota.
  destruct (storage.cache_get u (providerTokensCache w)) as [cached |] eqn:Hc.
  - apply wp_ret. exists (Some cached).
    split; [reflexivity |]. split; [repeat split |]. split; [reflexivity |].
    split; [apply adds_refl |]. auto.
  - unfold driveConnectionsRepository.getTokens.
    wp_all; world_simpl;
      (eexists; split; [reflexivity |]; split; [repeat split |];
       split; [reflexivity |]; split; [solve_adds |]);
      first [ split; reflexivity
            | split; [apply cache_get_set | intros; apply cache_get_set_other; assumption] ].
Qed.

(** X6. Once [storage.getProviderToken] has answered the tokens of a user it
    answers the same tokens again without a query, a log line or any other
    effect: the second call returns the world it was given, trace included.
    Reading never writes to [drive_connections]. *)
Theorem provider_token_is_cached :
  forall (u : string) (w w1 : World) (t : Tokens),
    storage.getProviderToken u w = (Ok (Some t), w1) ->
    storage.getProviderToken u w1 = (Ok (Some t), w1)
    /\ drive_connections w1 = drive_connections w.
Proof.
  intros u w w1 t Hrun.
  pose proof (wp_run _ _ _ _ _ (getProviderToken_spec u w) Hrun) as H.
  cbv beta in H. destruct H as (o & E & _ & Hds & _ & Hc).
  injection E as <-. destruct Hc as [Hc _]. split; [| exact Hds].
  unfold storage.getProviderToken, bind, get_cache. rewrite Hc. reflexivity.
Qed.

Lemma provider_token_is_cached_witness :
  let w := with_drive_connections [sealed_row "bob" (Some "tok-b") None 5] world_alice in
  storage.getProviderToken "bob" (snd (storage.getProviderToken "bob" w))
  = (Ok (Some {| token := Some "tok-b"; refreshToken := None |}),
     snd (storage.getProviderToken "bob" w))
  /\ drive_connections (snd (storage.getProviderToken "bob" w)) = drive_connections w.
Proof.
  intros w.
  apply (provider_token_is_cached "bob" w (snd (storage.getProviderToken "bob" w))
           {| token := Some "tok-b"; refreshToken := None |}).
  reflexivity.
Defined.

Lemma stored_tokens_are_read_back_witness :
  let w1 := snd (driveConnectionsRepository.storeTokens "alice" (Some "t2") (Some "r2")
                   world_alice) in
  (exists w2,
      driveConnectionsRepository.getTokens "alice" w1
      = (Ok (Some (Some "t2", Some "r2")), w2)
      /\ same_state w1 w2)
  /\ filter (fun d => negb (driveConnectionsRepository.selects "alice" "google" d))
       (drive_connections w1)
     = filter (fun d => negb (driveConnectionsRepository.selects "alice" "google" d))
         (drive_connections world_alice).
Proof.
  intros w1.
  apply (stored_tokens_are_read_back "alice" (Some "t2") (Some "r2") world_alice w1).
  - cbn. lia.
  - reflexivity.
  - reflexivity.
Defined.

(** [storage.storeProviderToken]: table first, cache second. *)
Lemma storeProviderToken_spec u tok refresh w :
  wp (storage.storeProviderToken u tok refresh)
     (fun r w' =>
        same_entities w w'
        /\ adds background w w'
        /\ ((r = Ok tt
             /\ db_error (env w) (S (tick w)) = false
             /\ drive_connections w'
                = (let row := sealed_row u tok refresh (clock (env w) (tick w)) in
                   if existsb (driveConnectionsRepository.selects u "google")
                        (drive_connections w)
                   then update_where (driveConnectionsRepository.selects u "google")
                          (fun _ => row) (drive_connections w)
                   else (drive_connections w ++ [row])%list)
             /\ providerTokensCache w'
                = storage.cache_set u {| token := tok; refreshToken := refresh |}
                    (providerTokensCache w))
            \/ (r = Throw PostgrestError
                /\ db_error (env w) (S (tick w)) = true
                /\ drive_connections w' = drive_connections w
                /\ providerTokensCache w' = providerTokensCache w))) w.
Proof.
  unfold storage.storeProviderToken. apply wp_bind.
  eapply wp_mono; [apply storeTokens_spec |]. cbv beta.
  intros r w1 (Hent & Hcache & Hadds & [(-> & Hdb & Hds) | (-> & Hdb & Hds)]).
  - apply wp_modify_cache. world_simpl.
    split; [exact Hent |]. split; [solve_adds |]. left.
    rewrite Hcache. auto.
  - split; [exact Hent |]. split; [exact Hadds |]. right. auto.
Qed.

(** X7. [storage.storeProviderToken] writes the table first and the cache
    second. When it returns, the next [getProviderToken] of that user answers
    exactly the stored pair, from the cache, and the cached tokens of every
    other user are what they were. When the table write fails it throws the
    database error and the cache still holds what it held: the cache never
    runs ahead of the table. *)
Theorem cache_follows_the_table :
  forall (u : string) (tok refresh : option string) (w : World),
    exists r w1,
      storage.storeProviderToken u tok refresh w = (r, w1)
      /\ ((r = Ok tt
           /\ storage.getProviderToken u w1
              = (Ok (Some {| token := tok; refreshToken := refresh |}), w1)
           /\ forall u', u' <> u ->
                storage.cache_get u' (providerTokensCache w1)
                = storage.cache_get u' (providerTokensCache w))
          \/ (r = Throw PostgrestError /\ same_state w w1)).
Proof.
  intros u tok refresh w.
  exists (fst (storage.storeProviderToken u tok refresh w)),
         (snd (storage.storeProviderToken u tok refresh w)).
  split; [destruct (storage.storeProviderToken u tok refresh w); reflexivity |].
  pose proof (storeProviderToken_spec u tok refresh w) as H. unfold wp in H.
  destruct H as ((He & Hp & Hf & Hm) & _ & [(Hr & _ & _ & Hc) | (Hr & _ & Hds & Hc)]).
  - left. split; [exact Hr |]. split.
    + unfold storage.getProviderToken, bind, get_cache.
      rewrite Hc, cache_get_set. reflexivity.
    + intros u' Hne. rewrite Hc. apply cache_get_set_other, Hne.
  - right. split; [exact Hr |]. repeat split; assumption.
Qed.

(** *** [getValidProviderToken]: where the answer comes from *)

(** The provider did not refuse [tk]: the validation request got an ok
    response, or no response at all. *)
Definition unrefused (w1 : World) (tk : string) : Prop :=
  match net (env w1) (tick w1) (about_request tk) with
  | Rejected => True
  | Responded r => ok r = true
  end.

(** The provider refused the stored token of [t], the OAuth endpoint answered
    the refresh request with an ok JSON response whose [access_token] is [tk],
    and [tk] went into the table and into the cache together with the refresh
    token that bought it. *)
Definition refreshed (u : string) (t : Tokens) (w1 : World) (tk : option string)
  (w' : World) : Prop :=
  exists old r id secret rt r2 j,
    token t = Some old
    /\ net (env w1) (tick w1) (about_request old) = Responded r
    /\ ok r = false
    /\ refreshToken t = Some rt
    /\ GOOGLE_CLIENT_ID (env w1) = Some id
    /\ GOOGLE_CLIENT_SECRET (env w1) = Some secret
    /\ In (EvFetch (googleDrive.refreshAccessToken_request id secret rt) (Responded r2))
          (trace w')
    /\ ok r2 = true
    /\ body r2 = Some j
    /\ access_token j = tk
    /\ storage.cache_get u (providerTokensCache w')
       = Some {| token := tk; refreshToken := Some rt |}
    /\ In (Sealed tk (Some rt))
          (map refresh_token_encrypted
             (filter (driveConnectionsRepository.selects u "google")
                (drive_connections w'))).

Lemma upsert_has_row (u : string) (row : DriveConnection) (ds : list DriveConnection) :
  driveConnectionsRepository.selects u "google" row = true ->
  In row
    (filter (driveConnectionsRepository.selects u "google")
       (if existsb (driveConnectionsRepository.selects u "google") ds
        then update_where (driveConnectionsRepository.selects u "google") (fun _ => row) ds
        else (ds ++ [row])%list)).
Proof.
  intros Hrow. apply filter_In. split; [| exact Hrow].
  destruct (existsb (driveConnectionsRepository.selects u "google") ds) eqn:E.
  - apply existsb_exists in E. destruct E as (d & Hd & Hsel).
    unfold update_where. apply in_map_iff. exists d. rewrite Hsel. auto.
  - apply in_or_app. right. left. reflexivity.
Qed.

Lemma getValidProviderToken_source u w :
  wp (getValidProviderToken u)
     (fun r w' =>
        match r with
        | Ok (Some tk) =>
            exists t w1,
              storage.getProviderToken u w = (Ok (Some t), w1)
              /\ ((token t = Some tk /\ tk <> "" /\ unrefused w1 tk /\ same_state w1 w')
                  \/ refreshed u t w1 (Some tk) w')
        | _ => True
        end) w.
Proof.
  unfold getValidProviderToken. apply wp_bind, wp_intro. intros r w1 Hrun.
  pose proof (wp_run _ _ _ _ _ (getProviderToken_spec u w) Hrun) as H.
  cbv beta in H. destruct H as (o & -> & Hent & Hds & Hadds & Hc).
  destruct o as [t |]; [| wp_all; exact I].
  destruct (token t) as [old |] eqn:Htok; cbn [truthy_opt negb interpolate];
    [| wp_all; exact I].
  destruct (truthy old) eqn:Hold; cbn [negb]; [| wp_all; exact I].
  apply truthy_true in Hold.
  apply wp_try_catch, wp_bind, wp_fetch. intros res Hres.
  destruct res as [| r].
  { (* no response: the stored token, unvalidated *)
    apply wp_bind, wp_console. cbv beta iota. apply wp_ret.
    exists t, w1. split; [exact Hrun |]. left.
    unfold unrefused. rewrite <- Hres. repeat split; trivial. }
  cbv beta iota. destruct (ok r) eqn:Hok.
  { apply wp_bind, wp_console. cbv beta iota. apply wp_ret.
    exists t, w1. split; [exact Hrun |]. left.
    unfold unrefused. rewrite <- Hres. repeat split; trivial. }
  apply wp_bind, wp_console. cbv beta iota.
  destruct (refreshToken t) as [rt |] eqn:Hrt; cbn [truthy_opt interpolate];
    [| wp_all; exact I].
  destruct (truthy rt) eqn:Hrt'; [| wp_all; exact I].
  apply wp_bind, wp_console. cbv beta iota. apply wp_bind, wp_ask. cbv beta iota zeta.
  world_simpl.
  destruct (GOOGLE_CLIENT_ID (env w1)) as [id |] eqn:Hid; cbn [truthy_opt negb orb interpolate];
    [| wp_all; exact I].
  destruct (GOOGLE_CLIENT_SECRET (env w1)) as [secret |] eqn:Hsecret;
    cbn [truthy_opt negb orb interpolate];
    [| destruct (truthy id); cbn [negb orb]; wp_all; exact I].
  destruct (negb (truthy id) || negb (truthy secret)); [wp_all; exact I |].
  apply wp_try_catch. unfold googleDrive.refreshAccessToken.
  apply wp_bind, wp_bind, wp_fetch. intros res2 Hres2.
  destruct res2 as [| r2]; [wp_all; exact I |].
  cbv beta iota. destruct (ok r2) eqn:Hok2; cbn [negb]; [| wp_all; exact I].
  apply wp_json_of. destruct (body r2) as [j |] eqn:Hbody; [| wp_all; exact I].
  cbv beta iota. apply wp_bind, wp_console. cbv beta iota.
  unfold storage.clearProviderTokenCache. apply wp_bind, wp_modify_cache. cbv beta iota.
  apply wp_bind. eapply wp_mono; [apply storeProviderToken_spec |]. cbv beta.
  intros r3 w3 (_ & (evs & Htrace & _) & [(-> & _ & Hrow & Hcache) | (-> & _)]);
    [| wp_all; exact I].
  apply wp_ret. destruct (access_token j) as [tk |] eqn:Htk; [| exact I].
  exists t, w1. split; [exact Hrun |]. right.
  exists old, r, id, secret, rt, r2, j.
  repeat match goal with |- _ /\ _ => split end; trivial.
  - symmetry. exact Hres.
  - rewrite Htrace. apply in_or_app. right. right. left. reflexivity.
  - rewrite Hcache. apply cache_get_set.
  - rewrite Hrow. cbv zeta. apply in_map_iff.
    eexists. split; [| apply upsert_has_row, sealed_row_selected]. reflexivity.
Qed.

(** X8. [getValidProviderToken] hands out no token of its own making. A
    token it answers is either the stored one, which the provider did not
    refuse (the validation request was answered ok, or not answered at all),
    with every store left as it was; or the [access_token] of an ok response
    of the OAuth endpoint to a refresh request made with the configured client
    and the stored refresh token, after the provider refused the stored
    token, and then the new token is in the cache and in the user's row of
    [drive_connections] when the function returns. *)
Theorem provider_token_is_stored_or_refreshed :
  forall (u : string) (w w' : World) (tk : string),
    getValidProviderToken u w = (Ok (Some tk), w') ->
    exists t w1,
      storage.getProviderToken u w = (Ok (Some t), w1)
      /\ ((token t = Some tk /\ tk <> "" /\ unrefused w1 tk /\ same_state w1 w')
          \/ refreshed u t w1 (Some tk) w').
Proof.
  intros u w w' tk Hrun.
  exact (wp_run _ _ _ _ _ (getValidProviderToken_source u w) Hrun).
Qed.

(** A run whose outcome is known. *)
Lemma run_outcome {A} (m : M A) (w : World) (r : Outcome A) :
  fst (m w) = r -> m w = (r, snd (m w)).
Proof. intros <-. destruct (m w); reflexivity. Qed.

Lemma wp_known {A} (m : M A) (Q : Outcome A -> World -> Prop) w r w1 :
  m w = (r, w1) -> Q r w1 -> wp m Q w.
Proof. intros E H. unfold wp. rewrite E. exact H. Qed.

(** A provider that refuses every token and an OAuth endpoint that issues
    the token [fresh]. *)
Definition refreshing_provider (n : nat) (req : Request) : FetchResult :=
  if (method req =? "POST")%string
  then Responded {| status := 200; statusText := "OK";
                    body := Some {| error_message := None; error_description := None;
                                    file_id := None; file_name := None;
                                    access_token := Some "fresh" |} |}
  else Responded {| status := 401; statusText := "Unauthorized"; body := None |}.

(** Bob's credential is in the table, not in the cache; the provider refuses
    his access token; the server knows its OAuth client. *)
Definition world_bob : World :=
  {| env := {| isProduction := true;
               GOOGLE_CLIENT_ID := Some "client";
               GOOGLE_CLIENT_SECRET := Some "secret";
               net := refreshing_provider;
               db_error := fun _ => false;
               clock := fun n => 1700000000000 + Z.of_nat n;
               gen_uuid := fun _ => "new";
               getFullYear := fun _ => "2024";
               payload_of := fun _ => None |};
     projects := [];
     folders := [];
     files_metadata := [];
     drive_connections := [sealed_row "bob" (Some "stale") (Some "refresh-b") 5];
     providerTokensCache := [];
     trace := [] |}.

Lemma provider_token_is_stored_or_refreshed_witness :
  exists t w1,
    storage.getProviderToken "bob" world_bob = (Ok (Some t), w1)
    /\ ((token t = Some "fresh" /\ "fresh" <> "" /\ unrefused w1 "fresh"
         /\ same_state w1 (snd (getValidProviderToken "bob" world_bob)))
        \/ refreshed "bob" t w1 (Some "fresh") (snd (getValidProviderToken "bob" world_bob))).
Proof.
  apply (provider_token_is_stored_or_refreshed "bob" world_bob
           (snd (getValidProviderToken "bob" world_bob)) "fresh").
  apply run_outcome. vm_compute. reflexivity.
Defined.

(** X9. Validation fails open. When the stored token is not refused (the
    validation request is answered ok, or is not answered at all because the
    network call rejects), [getValidProviderToken] answers the stored token
    and changes no store. *)
Theorem unrefused_token_is_used :
  forall (u : string) (w w1 : World) (t : Tokens) (tk : string),
    storage.getProviderToken u w = (Ok (Some t), w1) ->
    token t = Some tk ->
    tk <> "" ->
    unrefused w1 tk ->
    exists w',
      getValidProviderToken u w = (Ok (Some tk), w')
      /\ same_state w1 w'
      /\ (net (env w1) (tick w1) (about_request tk) = Rejected ->
          In (EvConsole ERROR "Error validating token:") (trace w')).
Proof.
  intros u w w1 t tk Hrun Htok Htk Hun. apply wp_answers.
  unfold getValidProviderToken. apply wp_bind, (wp_known _ _ _ _ _ Hrun).
  rewrite Htok. cbn [truthy_opt interpolate].
  apply truthy_true in Htk. rewrite Htk. cbn [negb].
  apply wp_try_catch, wp_bind, wp_fetch. intros res Hres.
  unfold unrefused in Hun. rewrite <- Hres in Hun. destruct res as [| r].
  - apply wp_bind, wp_console. cbv beta iota. apply wp_ret.
    split; [reflexivity |]. split; [repeat split |].
    intros _. left. reflexivity.
  - cbv beta iota. rewrite Hun. apply wp_bind, wp_console. cbv beta iota. apply wp_ret.
    split; [reflexivity |]. split; [repeat split |].
    intros E. rewrite E in Hres. discriminate Hres.
Qed.

(** A network on which every call rejects. *)
Definition world_offline : World :=
  {| env := {| isProduction := true;
               GOOGLE_CLIENT_ID := None;
               GOOGLE_CLIENT_SECRET := None;
               net := fun _ _ => Rejected;
               db_error := fun _ => false;
               clock := fun n => 1700000000000 + Z.of_nat n;
               gen_uuid := fun _ => "new";
               getFullYear := fun _ => "2024";
               payload_of := fun _ => None |};
     projects := [project_p1];
     folders := [folder_d1];
     files_metadata := [file_f1];
     drive_connections := [];
     providerTokensCache := [("alice", {| token := Some "tok"; refreshToken := None |})];
     trace := [] |}.

Lemma unrefused_token_is_used_witness :
  exists w',
    getValidProviderToken "alice" world_offline = (Ok (Some "tok"), w')
    /\ same_state world_offline w'
    /\ (net (env world_offline) (tick world_offline) (about_request "tok") = Rejected ->
        In (EvConsole ERROR "Error validating token:") (trace w')).
Proof.
  apply (unrefused_token_is_used "alice" world_offline world_offline
           {| token := Some "tok"; refreshToken := None |} "tok").
  - reflexivity.
  - reflexivity.
  - discriminate.
  - exact I.
Defined.

(** The events of a run that neither asks the OAuth endpoint nor writes to a
    table. *)
Definition no_refresh (e : Event) : bool :=
  match e with
  | EvFetch req _ => negb (url req =? "https://oauth2.googleapis.com/token")%string
  | EvQuery _ SELECT _ => true
  | EvQuery _ _ _ => false
  | _ => true
  end.

Lemma getValidProviderToken_without_client u w :
  truthy_opt (GOOGLE_CLIENT_ID (env w)) && truthy_opt (GOOGLE_CLIENT_SECRET (env w)) = false ->
  wp (getValidProviderToken u)
     (fun r w' =>
        exists o, r = Ok o
          /\ adds no_refresh w w'
          /\ drive_connections w' = drive_connections w
          /\ match o with
             | Some tk =>
                 exists t, storage.cache_get u (providerTokensCache w') = Some t
                           /\ token t = Some tk
             | None => True
             end) w.
Proof.
  intros Hclient. unfold getValidProviderToken. apply wp_bind.
  assert (Hread : wp (storage.getProviderToken u)
            (fun r w' =>
               exists o, r = Ok o /\ env w' = env w /\ adds no_refresh w w'
                 /\ drive_connections w' = drive_connections w
                 /\ match o with
                    | Some t => storage.cache_get u (providerTokensCache w') = Some t
                    | None => True
                    end) w).
  { unfold storage.getProviderToken. apply wp_bind, wp_get_cache. cbv beta iota.
    destruct (storage.cache_get u (providerTokensCache w)) as [cached |] eqn:Hc.
    - apply wp_ret. exists (Some cached). repeat split; trivial. apply adds_refl.
    - unfold driveConnectionsRepository.getTokens.
      wp_all; world_simpl;
        (eexists; split; [reflexivity |]; split; [reflexivity |];
         split; [solve_adds |]; split; [reflexivity |]);
        first [exact I | apply cache_get_set]. }
  eapply wp_mono; [exact Hread |]. cbv beta.
  intros r w1 (o & -> & Henv & Hadds & Hds & Hc). rewrite <- Henv in Hclient.
  destruct o as [t |].
  2:{ wp_all. exists None. repeat split; trivial. solve_adds. }
  destruct (token t) as [old |] eqn:Htok; cbn [truthy_opt negb interpolate].
  2:{ wp_all. exists None. repeat split; trivial. solve_adds. }
  destruct (truthy old) eqn:Hold; cbn [negb].
  2:{ wp_all. exists None. repeat split; trivial. solve_adds. }
  assert (Hstored : forall w',
            adds no_refresh w w' -> drive_connections w' = drive_connections w ->
            providerTokensCache w' = providerTokensCache w1 ->
            exists o, Ok (Some old) = Ok o /\ adds no_refresh w w'
              /\ drive_connections w' = drive_connections w
              /\ match o with
                 | Some tk =>
                     exists t, storage.cache_get u (providerTokensCache w') = Some t
                               /\ token t = Some tk
                 | None => True
                 end).
  { intros w' H1 H2 H3. exists (Some old). repeat split; trivial.
    exists t. rewrite H3. auto. }
  assert (Hnone : forall w',
            adds no_refresh w w' -> drive_connections w' = drive_connections w ->
            exists o, Ok None = Ok o /\ adds no_refresh w w'
              /\ drive_connections w' = drive_connections w
              /\ match o with
                 | Some tk =>
                     exists t, storage.cache_get u (providerTokensCache w') = Some t
                               /\ token t = Some tk
                 | None => True
                 end).
  { intros w' H1 H2. exists None. repeat split; trivial. }
  apply wp_try_catch, wp_bind, wp_fetch. intros res Hres.
  destruct res as [| r].
  { apply wp_bind, wp_console. cbv beta iota. apply wp_ret, Hstored;
      [solve_adds | exact Hds | reflexivity]. }
  cbv beta iota. destruct (ok r) eqn:Hok.
  { apply wp_bind, wp_console. cbv beta iota. apply wp_ret, Hstored;
      [solve_adds | exact Hds | reflexivity]. }
  apply wp_bind, wp_console. cbv beta iota.
  destruct (truthy_opt (refreshToken t)).
  2:{ apply wp_bind, wp_console. cbv beta iota. apply wp_ret, Hnone;
        [solve_adds | exact Hds]. }
  apply wp_bind, wp_console. cbv beta iota. apply wp_bind, wp_ask. cbv beta iota zeta.
  world_simpl.
  replace (negb (truthy_opt (GOOGLE_CLIENT_ID (env w1)))
           || negb (truthy_opt (GOOGLE_CLIENT_SECRET (env w1)))) with true
    by (rewrite <- negb_andb, Hclient; reflexivity).
  apply wp_bind, wp_console. cbv beta iota. apply wp_ret, Hnone;
    [solve_adds | exact Hds].
Qed.

(** X10. Without both OAuth client settings ([GOOGLE_CLIENT_ID] and
    [GOOGLE_CLIENT_SECRET], each present and not empty) there is no refresh:
    [getValidProviderToken] sends nothing to the OAuth endpoint, writes to no
    table, leaves [drive_connections] as it is, and a token it answers is the
    one the cache holds for the user. *)
Theorem no_refresh_without_client :
  forall (u : string) (w : World),
    truthy_opt (GOOGLE_CLIENT_ID (env w)) && truthy_opt (GOOGLE_CLIENT_SECRET (env w))
    = false ->
    exists o w',
      getValidProviderToken u w = (Ok o, w')
      /\ adds no_refresh w w'
      /\ drive_connections w' = drive_connections w
      /\ match o with
         | Some tk =>
             exists t, storage.cache_get u (providerTokensCache w') = Some t
                       /\ token t = Some tk
         | None => True
         end.
Proof.
  intros u w Hclient. apply wp_returns.
  eapply wp_mono; [apply (getValidProviderToken_without_client u w Hclient) |].
  cbv beta. intros r w' (o & -> & H). exists o. auto.
Qed.

Lemma no_refresh_without_client_witness :
  exists o w',
    getValidProviderToken "alice" world_alice = (Ok o, w')
    /\ adds no_refresh world_alice w'
    /\ drive_connections w' = drive_connections world_alice
    /\ match o with
       | Some tk =>
           exists t, storage.cache_get "alice" (providerTokensCache w') = Some t
                     /\ token t = Some tk
       | None => True
       end.
Proof.
  apply (no_refresh_without_client "alice" world_alice). reflexivity.
Defined.

(** ** Listing: what [getAll] answers *)

Lemma insert_by_perm {A} (leb : A -> A -> bool) (x : A) (l : list A) :
  Permutation (insert_by leb x l) (x :: l).
Proof.
  induction l as [| y l IH]; cbn; [reflexivity |].
  destruct (leb x y); [reflexivity |].
  rewrite IH. apply perm_swap.
Qed.

Lemma order_by_perm {A} (leb : A -> A -> bool) (l : list A) :
  Permutation (order_by leb l) l.
Proof.
  induction l as [| x l IH]; cbn; [reflexivity |].
  rewrite insert_by_perm, IH. reflexivity.
Qed.

Section Ordering.

Context {A : Type} (leb : A -> A -> bool).
Hypothesis leb_total : forall a b, leb a b = true \/ leb b a = true.
Hypothesis leb_trans : forall a b c, leb a b = true -> leb b c = true -> leb a c = true.

Lemma insert_by_sorted (x : A) (l : list A) :
  StronglySorted (fun a b => leb a b = true) l ->
  StronglySorted (fun a b => leb a b = true) (insert_by leb x l).
Proof.
  induction l as [| y l IH]; cbn; intros Hs.
  - constructor; constructor.
  - inversion Hs as [| ? ? Hl Hy]; subst.
    destruct (leb x y) eqn:E.
    + constructor; [exact Hs |]. constructor; [exact E |].
      rewrite Forall_forall in *. intros z Hz. eapply leb_trans; [exact E | auto].
    + constructor; [apply IH, Hl |].
      rewrite Forall_forall in *. intros z Hz. apply In_insert_by in Hz.
      destruct Hz as [-> | Hz]; [| auto].
      destruct (leb_total x y) as [H | H]; [congruence | exact H].
Qed.

Lemma order_by_sorted (l : list A) :
  StronglySorted (fun a b => leb a b = true) (order_by leb l).
Proof.
  induction l as [| x l IH]; cbn; [constructor | apply insert_by_sorted, IH].
Qed.

End Ordering.

Lemma sorted_weaken {A} (R R' : A -> A -> Prop) (l : list A) :
  (forall a b, R a b -> R' a b) -> StronglySorted R l -> StronglySorted R' l.
Proof.
  intros HR Hs. induction Hs as [| a l Hs IH Ha]; constructor; [exact IH |].
  eapply Forall_impl; [| exact Ha]. intros b. apply HR.
Qed.

Lemma newest_first_sorted (l : list Project.t) :
  StronglySorted (fun a b => Project.created_at b <= Project.created_at a)
    (order_by projectsRepository.newest_first l).
Proof.
  apply (sorted_weaken (fun a b => projectsRepository.newest_first a b = true)).
  - intros a b H. unfold projectsRepository.newest_first in H. lia.
  - apply order_by_sorted.
    + intros a b. unfold projectsRepository.newest_first. lia.
    + intros a b c. unfold projectsRepository.newest_first. lia.
Qed.

Lemma filter_split {A} (g d : A -> bool) (l : list A) :
  Permutation
    (filter (fun x => g x && negb (d x)) l ++ filter (fun x => g x && d x) l)
    (filter g l).
Proof.
  induction l as [| x l IH]; cbn [filter]; [reflexivity |].
  destruct (g x), (d x); cbn [andb negb app].
  - rewrite <- Permutation_middle. constructor. exact IH.
  - constructor. exact IH.
  - exact IH.
  - exact IH.
Qed.

(** The two default listings of a user split the user's rows. *)
Lemma active_and_trash_split (u : string) (l : list Project.t) :
  Permutation
    (filter (projectsRepository.matches
               {| pf_user_id := u; pf_status := None; pf_is_deleted := None |}) l
     ++ filter (projectsRepository.matches
                  {| pf_user_id := u; pf_status := None; pf_is_deleted := Some true |}) l)
    (filter (fun p => (Project.user_id p =? u)%string) l).
Proof.
  rewrite <- (filter_split (fun p => (Project.user_id p =? u)%string) Project.is_deleted).
  apply Permutation_app; apply Permutation_refl'; apply filter_ext; intros p;
    unfold projectsRepository.matches; cbn;
    destruct (Project.user_id p =? u)%string, (Project.is_deleted p); reflexivity.
Qed.

Lemma matches_active u p :
  projectsRepository.matches
    {| pf_user_id := u; pf_status := None; pf_is_deleted := None |} p = true ->
  Project.user_id p = u /\ Project.is_deleted p = false.
Proof.
  unfold projectsRepository.matches. cbn. intros H.
  apply andb_prop in H. destruct H as [H Hd]. apply andb_prop in H. destruct H as [Hu _].
  apply String.eqb_eq in Hu. destruct (Project.is_deleted p); [discriminate | auto].
Qed.

Lemma matches_trash u p :
  projectsRepository.matches
    {| pf_user_id := u; pf_status := None; pf_is_deleted := Some true |} p = true ->
  Project.user_id p = u /\ Project.is_deleted p = true.
Proof.
  unfold projectsRepository.matches. cbn. intros H.
  apply andb_prop in H. destruct H as [H Hd]. apply andb_prop in H. destruct H as [Hu _].
  apply String.eqb_eq in Hu. destruct (Project.is_deleted p); [auto | discriminate].
Qed.

(** X11. While the database answers, the two project listings of a user,
    [getProjects] and [getDeletedProjects], split the user's rows between
    them: put together they are the rows of [projects] that belong to the
    user, each as often as it is in the table; the first holds only rows
    that are not deleted, the second only deleted ones; each is ordered by
    [created_at], newest first; and reading changes no store. *)
Theorem listings_split_the_projects :
  forall (u : string) (w : World),
    healthy w ->
    exists active trash w1 w2,
      storage.getProjects u w = (Ok active, w1)
      /\ storage.getDeletedProjects u w1 = (Ok trash, w2)
      /\ same_state w w2
      /\ Permutation (active ++ trash)
           (filter (fun p => (Project.user_id p =? u)%string) (projects w))
      /\ Forall (fun p => Project.user_id p = u /\ Project.is_deleted p = false) active
      /\ Forall (fun p => Project.user_id p = u /\ Project.is_deleted p = true) trash
      /\ StronglySorted (fun a b => Project.created_at b <= Project.created_at a) active
      /\ StronglySorted (fun a b => Project.created_at b <= Project.created_at a) trash.
Proof.
  intros u w Hh. unfold healthy in Hh.
  assert (Hrun : forall f w0,
            env w0 = env w ->
            exists w',
              projectsRepository.getAll f w0
              = (Ok (order_by projectsRepository.newest_first
                       (filter (projectsRepository.matches f) (projects w0))), w')
              /\ same_state w0 w').
  { intros f w0 He. apply wp_answers. unfold projectsRepository.getAll.
    apply wp_bind, wp_console. cbv beta iota. apply wp_try_catch, wp_bind.
    apply wp_query_healthy; [world_simpl; rewrite He; apply Hh |].
    cbv beta iota. world_simpl. apply wp_bind, wp_console. cbv beta iota.
    apply wp_ret. split; [reflexivity | repeat split]. }
  destruct (Hrun {| pf_user_id := u; pf_status := None; pf_is_deleted := None |} w eq_refl)
    as (w1 & E1 & Hs1).
  assert (He1 : env w1 = env w) by apply Hs1.
  destruct (Hrun {| pf_user_id := u; pf_status := None; pf_is_deleted := Some true |} w1 He1)
    as (w2 & E2 & Hs2).
  assert (Hp1 : projects w1 = projects w) by apply Hs1.
  rewrite Hp1 in E2.
  do 4 eexists. split; [exact E1 |]. split; [exact E2 |].
  split.
  { destruct Hs1 as (a1 & a2 & a3 & a4 & a5 & a6).
    destruct Hs2 as (b1 & b2 & b3 & b4 & b5 & b6).
    repeat split; congruence. }
  split.
  { rewrite !order_by_perm. apply active_and_trash_split. }
  split.
  { apply Forall_forall. intros p Hp. apply In_order_by, filter_In in Hp.
    apply matches_active, Hp. }
  split.
  { apply Forall_forall. intros p Hp. apply In_order_by, filter_In in Hp.
    apply matches_trash, Hp. }
  split; apply newest_first_sorted.
Qed.

Lemma listings_split_the_projects_witness :
  exists active trash w1 w2,
    storage.getProjects "alice" world_two_projects = (Ok active, w1)
    /\ storage.getDeletedProjects "alice" w1 = (Ok trash, w2)
    /\ same_state world_two_projects w2
    /\ Permutation (active ++ trash)
         (filter (fun p => (Project.user_id p =? "alice")%string)
            (projects world_two_projects))
    /\ Forall (fun p => Project.user_id p = "alice" /\ Project.is_deleted p = false) active
    /\ Forall (fun p => Project.user_id p = "alice" /\ Project.is_deleted p = true) trash
    /\ StronglySorted (fun a b => Project.created_at b <= Project.created_at a) active
    /\ StronglySorted (fun a b => Project.created_at b <= Project.created_at a) trash.
Proof.
  apply (listings_split_the_projects "alice" world_two_projects).
  intros n. reflexivity.
Defined.

(** ** [POST /api/projects]: the duplicate check reads through a listing that
    swallows its errors *)

(** The index of the query of [storage.getProjects] inside the route: after
    the log line of the repository, and after the clock reading when the body
    names no academic year. *)
Definition listing_query (body : CreateProjectBody) (w : World) : nat :=
  if truthy_opt (cp_academicYear body) then S (tick w) else S (S (tick w)).

Definition duplicate_title : JsonBody :=
  JError "عذراً، لديك مشروع بنفس هذا الاسم مسبقاً".

(** The rest of a route, once the listing has come back empty: whatever it
    answers, it is not the duplicate error. *)
Ltac answered_otherwise :=
  cbn [find];
  lazymatch goal with
  | |- wp ?m _ _ =>
      let Hans := fresh "Hans" in
      assert (Hans : answers (fun r => http_body r <> duplicate_title) m)
        by (unfold duplicate_title; answering);
      eapply wp_mono; [apply Hans |]
  end;
  cbv beta;
  let a := fresh "a" in
  let H := fresh "H" in
  intros [a | ?] ? H; [exact H |];
  apply wp_bind, wp_console; cbv beta iota; apply wp_ret; cbn;
  let H' := fresh "H" in intros H'; discriminate H'.

Lemma POST_projects_failed_listing c user body w :
  requireAuth c = Some user ->
  db_error (env w) (listing_query body w) = true ->
  wp (POST_projects c (Some body))
     (fun r _ => match r with
                 | Ok a => http_body a <> duplicate_title
                 | Throw _ => True
                 end) w.
Proof.
  intros Hauth Hdb. unfold POST_projects.
  apply wp_try_catch. rewrite Hauth. cbv beta iota.
  apply wp_bind, wp_req_json. cbv beta iota.
  destruct (truthy_opt (cp_title body)); cbn [negb];
    [| apply wp_ret; cbn; intros H; discriminate H].
  unfold listing_query in Hdb.
  apply wp_bind.
  destruct (truthy_opt (cp_academicYear body)).
  - apply wp_ret. unfold storage.getProjects, projectsRepository.getAll.
    apply wp_bind, wp_bind, wp_console. cbv beta iota.
    apply wp_try_catch, wp_bind, wp_query; intros Hq;
      [| world_simpl; cbn [tick trace record length] in Hq; unfold tick in Hdb;
         congruence].
    cbv beta iota. apply wp_bind, wp_console. cbv beta iota. apply wp_throw.
    apply wp_bind, wp_console. cbv beta iota. apply wp_ret.
    answered_otherwise.
  - apply wp_bind, wp_date_now. cbv beta iota. apply wp_bind, wp_ask. cbv beta iota.
    apply wp_ret. unfold storage.getProjects, projectsRepository.getAll.
    apply wp_bind, wp_bind, wp_console. cbv beta iota.
    apply wp_try_catch, wp_bind, wp_query; intros Hq;
      [| world_simpl; cbn [tick trace record length] in Hq; unfold tick in Hdb;
         congruence].
    cbv beta iota. apply wp_bind, wp_console. cbv beta iota. apply wp_throw.
    apply wp_bind, wp_console. cbv beta iota. apply wp_ret.
    answered_otherwise.
Qed.

(** X12. [POST /api/projects] looks for a project of the same display name
    in [storage.getProjects], and [projectsRepository.getAll] answers the
    empty list when its query fails. So when that one query fails the route
    never answers the duplicate-title error, whatever the table holds: it
    carries on as if the user had no project. *)
Theorem failed_listing_skips_duplicate_check :
  forall (c : Variables) (user : string) (body : CreateProjectBody) (w : World),
    requireAuth c = Some user ->
    db_error (env w) (listing_query body w) = true ->
    exists r w',
      POST_projects c (Some body) w = (Ok r, w')
      /\ http_body r <> duplicate_title.
Proof.
  intros c user body w Hauth Hdb. apply wp_returns.
  eapply wp_mono;
    [apply wp_and;
       [apply (route_safe c (CreateProject (Some body)))
       | apply (POST_projects_failed_listing c user body w Hauth Hdb)] |].
  cbv beta. intros r w' ((a & ->) & H). exists a. auto.
Qed.

(** A provider that accepts everything, and a database that fails its second
    query only. *)
Definition accepting_provider (n : nat) (req : Request) : FetchResult :=
  Responded {| status := 200; statusText := "OK";
               body := Some {| error_message := None; error_description := None;
                               file_id := Some "drive-new"; file_name := Some "new";
                               access_token := None |} |}.

Definition world_flaky : World :=
  {| env := {| isProduction := true;
               GOOGLE_CLIENT_ID := None;
               GOOGLE_CLIENT_SECRET := None;
               net := accepting_provider;
               db_error := fun n => Nat.eqb n 1;
               clock := fun n => 1700000000000 + Z.of_nat n;
               gen_uuid := fun _ => "p-new";
               getFullYear := fun _ => "2024";
               payload_of := fun _ => None |};
     projects := [project_p1];
     folders := [];
     files_metadata := [];
     drive_connections := [];
     providerTokensCache := [("alice", {| token := Some "tok"; refreshToken := None |})];
     trace := [] |}.

Definition maths_2024 : CreateProjectBody :=
  {| cp_title := Some "Maths"; cp_academicYear := Some "2024"; cp_status := None |}.

(** Alice already has the project "Maths - 2024"; the listing fails, and she
    gets a second one. *)
Lemma failed_listing_skips_duplicate_check_witness :
  (exists r w',
      POST_projects (as_user "alice") (Some maths_2024) world_flaky = (Ok r, w')
      /\ http_body r <> duplicate_title)
  /\ map Project.title
       (projects (snd (POST_projects (as_user "alice") (Some maths_2024) world_flaky)))
     = ["Maths - 2024"; "Maths - 2024"].
Proof.
  split.
  - apply (failed_listing_skips_duplicate_check (as_user "alice") "alice" maths_2024
             world_flaky); reflexivity.
  - vm_compute. reflexivity.
Defined.

(** ** More of app.ts: credentials, listings, the project tree, folders,
    duplicate names *)

(** What these routes answer. *)
Inductive Reply :=
| RError (error : string)                      (* { error } *)
| RFailure (e : Exn) (fallback : string)       (* { error: error.message || fallback } *)
| RStored                                      (* { success: true } *)
| RProjects (ps : list Project.t)
| RProjectTree (p : Project.t) (folders : list Folder.t) (files : list FileMetadata.t)
                                               (* { ...project, folders, files } *)
| RFolder (f : Folder.t)
| RFiles (uploadedFiles : list FileMetadata.t)
| RDuplicates (duplicates : list string) (hasDuplicates : bool)
| RConnected (aboutData : Json)    (* { connected: true, email, name } off the body *)
| RDisconnected (reason : string). (* { connected: false, reason, message } *)

Record HttpReply := mkHttpReply {
  reply_body : Reply;
  reply_status : Z
}.

Definition reply (b : Reply) (st : Z) : HttpReply :=
  {| reply_body := b; reply_status := st |}.

(** *** storage.ts and supabase-repository.ts, continued *)

(** [storage.getFolders] *)
Definition storage_getFolders (projectId : string) : M (list Folder.t) :=
  foldersRepository.getAll
    {| ff_project_id := projectId; ff_parent_id := None; ff_is_deleted := None |}.

(** [storage.getFiles] *)
Definition storage_getFiles (projectId : string) : M (list FileMetadata.t) :=
  filesMetadataRepository.getAll
    {| fl_project_id := Some projectId; fl_folder_id := None; fl_is_deleted := None |}.

(** The columns [storage.createFolder] hands to the repository. *)
Record InsertFolder := mkInsertFolder {
  insf_project_id : string;
  insf_parent_id : option string;
  insf_folder_name : string;
  insf_sort_order : Z;
  insf_drive_folder_id : option string
}.

(** The inserted row: the given columns and the defaults of the table. *)
Definition folder_row (n : nat) (e : Env) (folder : InsertFolder) : Folder.t :=
  {| Folder.id := gen_uuid e n;
     Folder.project_id := insf_project_id folder;
     Folder.parent_id := insf_parent_id folder;
     Folder.drive_folder_id := or_else (insf_drive_folder_id folder) "";
     Folder.folder_name := insf_folder_name folder;
     Folder.sort_order := insf_sort_order folder;
     Folder.is_deleted := false;
     Folder.deleted_at := None;
     Folder.created_at := clock e n;
     Folder.updated_at := clock e n |}.

(** [foldersRepository.create] *)
Definition foldersRepository_create (folder : InsertFolder) : M Folder.t :=
  r <- query "folders" INSERT (fun n w =>
         let row := folder_row n (env w) folder in
         (PgData row, with_folders (folders w ++ [row]) w)) ;;
  match r with
  | PgError => throw PostgrestError
  | PgData data => ret data
  end.

(** [storage.createFolder] *)
Definition storage_createFolder (folder : InsertFolder) : M Folder.t :=
  result <- foldersRepository_create
              {| insf_project_id := insf_project_id folder;
                 insf_parent_id := insf_parent_id folder;
                 insf_folder_name := insf_folder_name folder;
                 insf_sort_order := insf_sort_order folder;
                 insf_drive_folder_id := Some (or_else (insf_drive_folder_id folder) "") |} ;;
  console LOG "Folder created in Supabase:" ;;
  ret result.

(** *** The routes *)

Record StoreTokenBody := mkStoreTokenBody {
  st_user_id : option string;
  st_provider_token : option string;
  st_provider_refresh_token : option string
}.

(** [app.post("/api/auth/store-token")] *)
Definition POST_auth_store_token (c : Variables) (body : option StoreTokenBody)
  : M HttpReply :=
  try_catch
    (body <- req_json body ;;
     console LOG "Store token request received for user:" ;;
     if negb (truthy_opt (st_user_id body)) || negb (truthy_opt (st_provider_token body))
     then
       console WARN "Missing required fields in store-token request" ;;
       ret (reply (RError "Missing required fields") 400)
     else
       let user_id := interpolate (st_user_id body) in
       let callerUserId := userId c in
       console LOG "Caller user from token:" ;;
       if negb (truthy_opt callerUserId) then
         console WARN "No valid token found in request" ;;
         ret (reply (RError "Unauthorized - valid token required") 401)
       else if negb (interpolate callerUserId =? user_id)%string then
         console WARN "User ID mismatch:" ;;
         ret (reply (RError "Cannot store token for another user") 403)
       else
         console LOG "Storing token for user:" ;;
         storage.clearProviderTokenCache user_id ;;
         storage.storeProviderToken user_id (st_provider_token body)
           (st_provider_refresh_token body) ;;
         console LOG "Provider token stored successfully for user:" ;;
         ret (reply RStored 200))
    (fun error =>
       console ERROR "Store token error:" ;;
       ret (reply (RError "Failed to store token") 500)).

(** [app.get("/api/projects")] *)
Definition GET_projects (c : Variables) : M HttpReply :=
  try_catch
    (match requireAuth c with
     | None => ret (reply (RError "Unauthorized") 401)
     | Some user =>
         projects <- storage.getProjects user ;;
         ret (reply (RProjects projects) 200)
     end)
    (fun error =>
       console ERROR "Get projects error:" ;;
       ret (reply (RError "Failed to fetch projects") 500)).

(** [app.get("/api/projects/deleted")] *)
Definition GET_projects_deleted (c : Variables) : M HttpReply :=
  try_catch
    (match requireAuth c with
     | None => ret (reply (RError "Unauthorized") 401)
     | Some user =>
         deletedProjects <- storage.getDeletedProjects user ;;
         ret (reply (RProjects deletedProjects) 200)
     end)
    (fun error =>
       console ERROR "Get deleted projects error:" ;;
       ret (reply (RError "Failed to get deleted projects") 500)).

(** [app.get("/api/projects/:id")] *)
Definition GET_projects_id (c : Variables) (projectId : string) : M HttpReply :=
  try_catch
    (match requireAuth c with
     | None => ret (reply (RError "Unauthorized") 401)
     | Some user =>
         project <- storage.getProject projectId ;;
         match project with
         | None => ret (reply (RError "Project not found") 404)
         | Some project =>
             if negb (Project.user_id project =? user)%string then
               ret (reply (RError "Forbidden") 403)
             else
               folders <- storage_getFolders (Project.id project) ;;
               files <- storage_getFiles (Project.id project) ;;
               ret (reply (RProjectTree project folders files) 200)
         end
     end)
    (fun error =>
       console ERROR "Get project error:" ;;
       ret (reply (RError "Failed to fetch project") 500)).

Record CreateFolderBody := mkCreateFolderBody {
  cf_name : option string;
  cf_parent_folder_id : option string
}.

(** [app.post("/api/projects/:id/folders")] *)
Definition POST_projects_id_folders (c : Variables) (projectId : string)
  (body : option CreateFolderBody) : M HttpReply :=
  try_catch
    (match requireAuth c with
     | None => ret (reply (RError "Unauthorized") 401)
     | Some user =>
         project <- storage.getProject projectId ;;
         match project with
         | None => ret (reply (RError "Project not found") 404)
         | Some project =>
             if negb (Project.user_id project =? user)%string then
               ret (reply (RError "Forbidden") 403)
             else
               body <- req_json body ;;
               if negb (truthy_opt (cf_name body)) then
                 ret (reply (RError "اسم المجلد مطلوب") 400)
               else
                 let name := interpolate (cf_name body) in
                 providerToken <- getValidProviderToken user ;;
                 if negb (truthy_opt providerToken) then
                   ret (reply (RError "لم يتم ربط حساب Google Drive. يرجى إعادة تسجيل الدخول.") 400)
                 else
                   let providerToken := interpolate providerToken in
                   parentDriveId <-
                     (if truthy_opt (cf_parent_folder_id body) then
                        parentFolder <- storage.getFolder
                                          (interpolate (cf_parent_folder_id body)) ;;
                        match parentFolder with
                        | Some parentFolder =>
                            if truthy (Folder.drive_folder_id parentFolder)
                            then ret (Some (Folder.drive_folder_id parentFolder))
                            else ret (Project.root_drive_id project)
                        | None => ret (Project.root_drive_id project)
                        end
                      else ret (Project.root_drive_id project)) ;;
                   created <-
                     try_catch
                       (driveFolder <- googleDrive.createFolder providerToken name
                                         parentDriveId ;;
                        console LOG "Created Drive folder:" ;;
                        ret (inl driveFolder))
                       (fun driveError =>
                          console ERROR "Failed to create Drive folder:" ;;
                          ret (inr (reply (RError "فشل في إنشاء المجلد في Google Drive") 500))) ;;
                   match created with
                   | inr response => ret response
                   | inl driveFolder =>
                       folder <-
                         try_catch
                           (storage_createFolder
                              {| insf_project_id := projectId;
                                 insf_parent_id :=
                                   if truthy_opt (cf_parent_folder_id body)
                                   then cf_parent_folder_id body else None;
                                 insf_folder_name := name;
                                 insf_sort_order := 0;
                                 insf_drive_folder_id := file_id driveFolder |})
                           (fun dbError =>
                              console ERROR "Database error, cleaning up Drive folder:" ;;
                              try_catch
                                (googleDrive.deleteFile providerToken
                                   (interpolate (file_id driveFolder)))
                                (fun cleanupError =>
                                   console ERROR "Failed to cleanup Drive folder:") ;;
                              throw dbError) ;;
                       ret (reply (RFolder folder) 201)
                   end
         end
     end)
    (fun error =>
       console ERROR "Create folder error:" ;;
       ret (reply (RFailure error "Failed to create folder") 500)).

(** A field of a JSON body, as far as [===] tells values apart. *)
Inductive JsonValue :=
| JUndefined               (* the field is absent *)
| JNull
| JString (s : string)
| JOther.                  (* a number, a boolean, an array, an object *)

(** [column === value] for a column that holds a string or null. *)
Definition strict_eq (column : option string) (v : JsonValue) : bool :=
  match column, v with
  | None, JNull => true
  | Some x, JString s => (x =? s)%string
  | _, _ => false
  end.

(** The body of the duplicate check; [cd_filenames] is [None] when
    [filenames] is no array. *)
Record CheckDuplicatesBody := mkCheckDuplicatesBody {
  cd_filenames : option (list string);
  cd_folder_id : JsonValue
}.

(** [app.post("/api/projects/:id/files/check-duplicates")] *)
Definition POST_projects_id_files_check_duplicates (c : Variables) (projectId : string)
  (body : option CheckDuplicatesBody) : M HttpReply :=
  try_catch
    (match requireAuth c with
     | None => ret (reply (RError "Unauthorized") 401)
     | Some user =>
         project <- storage.getProject projectId ;;
         match project with
         | None => ret (reply (RError "Project not found") 404)
         | Some project =>
             if negb (Project.user_id project =? user)%string then
               ret (reply (RError "Forbidden") 403)
             else
               body <- req_json body ;;
               match cd_filenames body with
               | None => ret (reply (RError "filenames must be an array") 400)
               | Some filenames =>
                   allFiles <- storage_getFiles projectId ;;
                   let folderFiles :=
                     filter (fun f => strict_eq (FileMetadata.folder_id f)
                                        (cd_folder_id body)) allFiles in
                   let existingFilenames := map FileMetadata.file_name folderFiles in
                   let duplicates :=
                     filter (fun name => existsb (String.eqb name) existingFilenames)
                       filenames in
                   ret (reply (RDuplicates duplicates
                                 (0 <? Z.of_nat (length duplicates))) 200)
               end
         end
     end)
    (fun error =>
       console ERROR "Check duplicates error:" ;;
       ret (reply (RError "Failed to check duplicates") 500)).

(** [app.get("/api/auth/drive-status")] *)
Definition GET_auth_drive_status (c : Variables) : M HttpReply :=
  try_catch
    (match requireAuth c with
     | None => ret (reply (RError "Unauthorized") 401)
     | Some user =>
         token <- getValidProviderToken user ;;
         if negb (truthy_opt token) then ret (reply (RDisconnected "no_token") 200)
         else
           try_catch
             (aboutResponse <- fetch (about_request (interpolate token)) ;;
              if ok aboutResponse then
                aboutData <- json_of aboutResponse ;;
                ret (reply (RConnected aboutData) 200)
              else ret (reply (RDisconnected "token_expired") 200))
             (fun apiError =>
                console ERROR "Drive API test error:" ;;
                ret (reply (RDisconnected "api_error") 200))
     end)
    (fun error =>
       console ERROR "Drive status check error:" ;;
       ret (reply (RError "Failed to check drive status") 500)).

(** ** The reading routes *)

Lemma getAll_projects_spec f w :
  wp (projectsRepository.getAll f)
     (fun r w' =>
        exists l, r = Ok l /\ same_state w w'
          /\ forall p, In p l ->
               In p (projects w) /\ projectsRepository.matches f p = true) w.
Proof.
  unfold projectsRepository.getAll.
  repeat wp_any; (eexists; split; [reflexivity |]; split; [repeat split |]).
  - intros p [].
  - intros p Hp. apply In_order_by, filter_In in Hp. exact Hp.
Qed.

(** X13. The two project listings, [GET /api/projects] and
    [GET /api/projects/deleted], cannot fail: [projectsRepository.getAll]
    catches the error of its own query and answers the empty list, so the 500
    branch of the routes is never taken. An authenticated caller is always
    answered 200, with rows of [projects] that are all the caller's own, none
    deleted in the first listing and all deleted in the second; and the
    routes change no store. *)
Theorem project_listings_never_fail :
  forall (c : Variables) (w : World),
    (exists r w',
        GET_projects c w = (Ok r, w') /\ same_state w w'
        /\ match requireAuth c with
           | None => r = reply (RError "Unauthorized") 401
           | Some user =>
               exists l, r = reply (RProjects l) 200
                 /\ forall p, In p l ->
                      In p (projects w) /\ Project.user_id p = user
                      /\ Project.is_deleted p = false
           end)
    /\ (exists r w',
           GET_projects_deleted c w = (Ok r, w') /\ same_state w w'
           /\ match requireAuth c with
              | None => r = reply (RError "Unauthorized") 401
              | Some user =>
                  exists l, r = reply (RProjects l) 200
                    /\ forall p, In p l ->
                         In p (projects w) /\ Project.user_id p = user
                         /\ Project.is_deleted p = true
              end).
Proof.
  intros c w. split; apply wp_returns;
    unfold GET_projects, GET_projects_deleted, storage.getProjects,
      storage.getDeletedProjects;
    apply wp_try_catch; destruct (requireAuth c) as [user |].
  - apply wp_bind. eapply wp_mono; [apply getAll_projects_spec |]. cbv beta.
    intros r w' (l & -> & Hs & Hl). apply wp_ret.
    eexists. split; [reflexivity |]. split; [exact Hs |].
    exists l. split; [reflexivity |]. intros p Hp.
    destruct (Hl p Hp) as [Hin Hm]. destruct (matches_active _ _ Hm). auto.
  - apply wp_ret. eexists. split; [reflexivity |]. split; [apply same_state_refl |].
    reflexivity.
  - apply wp_bind. eapply wp_mono; [apply getAll_projects_spec |]. cbv beta.
    intros r w' (l & -> & Hs & Hl). apply wp_ret.
    eexists. split; [reflexivity |]. split; [exact Hs |].
    exists l. split; [reflexivity |]. intros p Hp.
    destruct (Hl p Hp) as [Hin Hm]. destruct (matches_trash _ _ Hm). auto.
  - apply wp_ret. eexists. split; [reflexivity |]. split; [apply same_state_refl |].
    reflexivity.
Qed.

Lemma matches_folder_default id d :
  foldersRepository.matches
    {| ff_project_id := id; ff_parent_id := None; ff_is_deleted := None |} d = true
  <-> Folder.project_id d = id /\ Folder.is_deleted d = false.
Proof.
  unfold foldersRepository.matches. cbn.
  destruct (String.eqb_spec (Folder.project_id d) id), (Folder.is_deleted d); cbn;
    intuition congruence.
Qed.

Lemma matches_file_default id f :
  id <> "" ->
  filesMetadataRepository.matches
    {| fl_project_id := Some id; fl_folder_id := None; fl_is_deleted := None |} f = true
  <-> FileMetadata.project_id f = id /\ FileMetadata.is_deleted f = false.
Proof.
  intros Hid. apply truthy_true in Hid.
  unfold filesMetadataRepository.matches. cbn. rewrite Hid.
  destruct (String.eqb_spec (FileMetadata.project_id f) id), (FileMetadata.is_deleted f);
    cbn; intuition congruence.
Qed.

Lemma GET_projects_id_spec c projectId w :
  projectId <> "" ->
  wp (GET_projects_id c projectId)
     (fun r w' =>
        same_state w w'
        /\ exists a, r = Ok a
           /\ (reply_status a = 200 ->
               exists user p ds fs,
                 requireAuth c = Some user
                 /\ a = reply (RProjectTree p ds fs) 200
                 /\ In p (projects w)
                 /\ Project.id p = projectId
                 /\ Project.user_id p = user
                 /\ (forall d, In d ds <->
                               In d (folders w) /\ Folder.project_id d = projectId
                               /\ Folder.is_deleted d = false)
                 /\ (forall f, In f fs <->
                               In f (files_metadata w)
                               /\ FileMetadata.project_id f = projectId
                               /\ FileMetadata.is_deleted f = false))) w.
Proof.
  intros Hid. unfold GET_projects_id. apply wp_try_catch.
  destruct (requireAuth c) as [user |];
    [| apply wp_ret; split; [apply same_state_refl |]; eexists; split; [reflexivity |];
       cbn; discriminate].
  unfold storage.getProject, projectsRepository.getByIdWithoutUser,
    storage_getFolders, storage_getFiles, foldersRepository.getAll,
    filesMetadataRepository.getAll.
  repeat wp_any;
    (split; [repeat split |]; eexists; split; [reflexivity |]; cbn [reply reply_status];
     try discriminate).
  intros _.
  match goal with
  | H : single (filter _ _) = PgData ?p |- _ =>
      apply single_found in H; destruct H as [Hin Hp]; apply String.eqb_eq in Hp
  end.
  match goal with
  | H : negb (Project.user_id ?p =? user)%string = false |- _ =>
      apply (proj1 (negb_false_iff _)) in H; apply String.eqb_eq in H; rename H into Hu
  end.
  do 4 eexists. split; [reflexivity |]. split; [reflexivity |].
  split; [exact Hin |]. split; [exact Hp |]. split; [exact Hu |].
  rewrite Hp. split.
  - intros d. rewrite In_order_by, filter_In, matches_folder_default. reflexivity.
  - intros f. rewrite In_order_by, filter_In, (matches_file_default _ _ Hid). reflexivity.
Qed.

(** X14. [GET /api/projects/:id] hands a caller nothing but their own
    project. For an id that is not the empty string, a 200 answer is the one
    row of [projects] with that id, owned by the caller, together with
    exactly the rows of [folders] and of [files_metadata] that belong to that
    project and are not deleted; the route changes no store. (Whether the
    project itself is in the trash is not looked at. With the empty id the
    file listing would not be filtered by project: [getAll] applies a falsy
    [project_id] filter to nothing.) *)
Theorem project_tree_is_the_callers :
  forall (c : Variables) (projectId : string) (w w' : World) (r : HttpReply),
    projectId <> "" ->
    GET_projects_id c projectId w = (Ok r, w') ->
    reply_status r = 200 ->
    same_state w w'
    /\ exists user p ds fs,
         requireAuth c = Some user
         /\ r = reply (RProjectTree p ds fs) 200
         /\ In p (projects w)
         /\ Project.id p = projectId
         /\ Project.user_id p = user
         /\ (forall d, In d ds <->
                       In d (folders w) /\ Folder.project_id d = projectId
                       /\ Folder.is_deleted d = false)
         /\ (forall f, In f fs <->
                       In f (files_metadata w)
                       /\ FileMetadata.project_id f = projectId
                       /\ FileMetadata.is_deleted f = false).
Proof.
  intros c projectId w w' r Hid Hrun Hst.
  pose proof (wp_run _ _ _ _ _ (GET_projects_id_spec c projectId w Hid) Hrun) as H.
  cbv beta in H. destruct H as (Hs & a & E & H). injection E as <-.
  split; [exact Hs | exact (H Hst)].
Qed.

Lemma project_tree_is_the_callers_witness :
  same_state world_alice (snd (GET_projects_id (as_user "alice") "p1" world_alice))
  /\ exists user p ds fs,
       requireAuth (as_user "alice") = Some user
       /\ reply (RProjectTree project_p1 [folder_d1] [file_f1]) 200
          = reply (RProjectTree p ds fs) 200
       /\ In p (projects world_alice)
       /\ Project.id p = "p1"
       /\ Project.user_id p = user
       /\ (forall d, In d ds <->
                     In d (folders world_alice) /\ Folder.project_id d = "p1"
                     /\ Folder.is_deleted d = false)
       /\ (forall f, In f fs <->
                     In f (files_metadata world_alice)
                     /\ FileMetadata.project_id f = "p1"
                     /\ FileMetadata.is_deleted f = false).
Proof.
  apply (project_tree_is_the_callers (as_user "alice") "p1" world_alice
           (snd (GET_projects_id (as_user "alice") "p1" world_alice))
           (reply (RProjectTree project_p1 [folder_d1] [file_f1]) 200)).
  - discriminate.
  - apply run_outcome. vm_compute. reflexivity.
  - reflexivity.
Defined.

Lemma strict_eq_undefined column v :
  v = JUndefined \/ v = JOther -> strict_eq column v = false.
Proof. intros [-> | ->]; destruct column; reflexivity. Qed.

Lemma filter_none {A} (f : A -> bool) (l : list A) :
  (forall x, f x = false) -> filter f l = [].
Proof.
  intros Hf. induction l as [| x l IH]; cbn; [reflexivity |]. rewrite Hf. exact IH.
Qed.

Lemma check_duplicates_spec c projectId body w :
  projectId <> "" ->
  wp (POST_projects_id_files_check_duplicates c projectId body)
     (fun r w' =>
        same_state w w'
        /\ exists a, r = Ok a
           /\ (reply_status a = 200 ->
               exists user p b filenames duplicates has,
                 requireAuth c = Some user
                 /\ In p (projects w) /\ Project.id p = projectId
                 /\ Project.user_id p = user
                 /\ body = Some b
                 /\ cd_filenames b = Some filenames
                 /\ a = reply (RDuplicates duplicates has) 200
                 /\ (has = true <-> duplicates <> [])
                 /\ (forall name,
                       In name duplicates <->
                       In name filenames
                       /\ exists f, In f (files_metadata w)
                                    /\ FileMetadata.project_id f = projectId
                                    /\ FileMetadata.is_deleted f = false
                                    /\ strict_eq (FileMetadata.folder_id f)
                                         (cd_folder_id b) = true
                                    /\ FileMetadata.file_name f = name)
                 /\ (cd_folder_id b = JUndefined \/ cd_folder_id b = JOther ->
                     duplicates = []))) w.
Proof.
  intros Hid. unfold POST_projects_id_files_check_duplicates. apply wp_try_catch.
  destruct (requireAuth c) as [user |];
    [| apply wp_ret; split; [apply same_state_refl |]; eexists; split; [reflexivity |];
       cbn; discriminate].
  unfold storage.getProject, projectsRepository.getByIdWithoutUser,
    storage_getFiles, filesMetadataRepository.getAll.
  repeat wp_any;
    (split; [repeat split |]; eexists; split; [reflexivity |]; cbn [reply reply_status];
     try discriminate).
  intros _.
  match goal with
  | H : single (filter _ _) = PgData ?p |- _ =>
      apply single_found in H; destruct H as [Hin Hp]; apply String.eqb_eq in Hp
  end.
  match goal with
  | H : negb (Project.user_id ?p =? user)%string = false |- _ =>
      apply (proj1 (negb_false_iff _)) in H; apply String.eqb_eq in H; rename H into Hu
  end.
  match goal with
  | H : cd_filenames ?b = Some ?l |- _ => rename H into Hnames
  end.
  do 6 eexists. split; [reflexivity |]. split; [exact Hin |]. split; [exact Hp |].
  split; [exact Hu |]. split; [reflexivity |]. split; [exact Hnames |].
  split; [reflexivity |]. cbv zeta. split; [| split].
  - match goal with
    | |- (0 <? Z.of_nat (length ?l)) = true <-> _ => destruct l as [| x l']
    end.
    + cbn. split; [discriminate |]. intros Hx. exfalso. apply Hx. reflexivity.
    + split; [discriminate | reflexivity].
  - intros name. rewrite filter_In, existsb_exists. split.
    + intros [Hn (x & Hx & E)]. split; [exact Hn |].
      apply String.eqb_eq in E. subst x.
      apply in_map_iff in Hx. destruct Hx as (f & Hname & Hf).
      apply filter_In in Hf. destruct Hf as [Hf Hfolder].
      apply In_order_by, filter_In in Hf. destruct Hf as [Hf Hm].
      apply (matches_file_default _ _ Hid) in Hm. exists f. tauto.
    + intros [Hn (f & Hf & Hproj & Hdel & Hfolder & Hname)]. split; [exact Hn |].
      exists name. split; [| apply String.eqb_refl].
      apply in_map_iff. exists f. split; [exact Hname |].
      apply filter_In. split; [| exact Hfolder].
      apply In_order_by, filter_In. split; [exact Hf |].
      apply (matches_file_default _ _ Hid). auto.
  - intros Hv.
    rewrite (filter_none (fun f => strict_eq (FileMetadata.folder_id f) _))
      by (intros f; apply strict_eq_undefined, Hv).
    apply filter_none. reflexivity.
Qed.

(** X15. What the duplicate check reports. For a project id that is not the
    empty string, a 200 answer of
    [POST /api/projects/:id/files/check-duplicates] goes to the owner of the
    project, and a name is reported exactly when it is one of the submitted
    names and a file of that project that is not deleted carries it in the
    folder the body names, compared with [===]: the string of a folder, or
    [null] for the files outside every folder. A body without [folder_id]
    therefore never finds a duplicate, since no stored [folder_id] is
    [undefined]. [hasDuplicates] says whether the list is empty, and the
    route changes no store. *)
Theorem duplicates_are_names_in_the_folder :
  forall (c : Variables) (projectId : string) (body : option CheckDuplicatesBody)
         (w w' : World) (r : HttpReply),
    projectId <> "" ->
    POST_projects_id_files_check_duplicates c projectId body w = (Ok r, w') ->
    reply_status r = 200 ->
    same_state w w'
    /\ exists user p b filenames duplicates has,
         requireAuth c = Some user
         /\ In p (projects w) /\ Project.id p = projectId
         /\ Project.user_id p = user
         /\ body = Some b
         /\ cd_filenames b = Some filenames
         /\ r = reply (RDuplicates duplicates has) 200
         /\ (has = true <-> duplicates <> [])
         /\ (forall name,
               In name duplicates <->
               In name filenames
               /\ exists f, In f (files_metadata w)
                            /\ FileMetadata.project_id f = projectId
                            /\ FileMetadata.is_deleted f = false
                            /\ strict_eq (FileMetadata.folder_id f) (cd_folder_id b) = true
                            /\ FileMetadata.file_name f = name)
         /\ (cd_folder_id b = JUndefined \/ cd_folder_id b = JOther ->
             duplicates = []).
Proof.
  intros c projectId body w w' r Hid Hrun Hst.
  pose proof (wp_run _ _ _ _ _ (check_duplicates_spec c projectId body w Hid) Hrun) as H.
  cbv beta in H. destruct H as (Hs & a & E & H). injection E as <-.
  split; [exact Hs | exact (H Hst)].
Qed.

(** Alice asks whether [plan.pdf] is already there, and leaves [folder_id]
    out: the file is at the top of her project, and it is not found. *)
Definition ask_plan_pdf : CheckDuplicatesBody :=
  {| cd_filenames := Some ["plan.pdf"]; cd_folder_id := JUndefined |}.

Lemma duplicates_are_names_in_the_folder_witness :
  (same_state world_alice
     (snd (POST_projects_id_files_check_duplicates (as_user "alice") "p1"
             (Some ask_plan_pdf) world_alice))
   /\ exists user p b filenames duplicates has,
        requireAuth (as_user "alice") = Some user
        /\ In p (projects world_alice) /\ Project.id p = "p1"
        /\ Project.user_id p = user
        /\ Some ask_plan_pdf = Some b
        /\ cd_filenames b = Some filenames
        /\ reply (RDuplicates [] false) 200 = reply (RDuplicates duplicates has) 200
        /\ (has = true <-> duplicates <> [])
        /\ (forall name,
              In name duplicates <->
              In name filenames
              /\ exists f, In f (files_metadata world_alice)
                           /\ FileMetadata.project_id f = "p1"
                           /\ FileMetadata.is_deleted f = false
                           /\ strict_eq (FileMetadata.folder_id f) (cd_folder_id b) = true
                           /\ FileMetadata.file_name f = name)
        /\ (cd_folder_id b = JUndefined \/ cd_folder_id b = JOther ->
            duplicates = []))
  /\ FileMetadata.file_name file_f1 = "plan.pdf"
  /\ FileMetadata.folder_id file_f1 = None.
Proof.
  split; [| split; reflexivity].
  apply (duplicates_are_names_in_the_folder (as_user "alice") "p1" (Some ask_plan_pdf)
           world_alice
           (snd (POST_projects_id_files_check_duplicates (as_user "alice") "p1"
                   (Some ask_plan_pdf) world_alice))
           (reply (RDuplicates [] false) 200)).
  - discriminate.
  - apply run_outcome. vm_compute. reflexivity.
  - reflexivity.
Defined.

(** ** [POST /api/auth/store-token] *)

Lemma selects_other u u' d :
  u' <> u ->
  driveConnectionsRepository.selects u "google" d = true ->
  driveConnectionsRepository.selects u' "google" d = false.
Proof.
  unfold driveConnectionsRepository.selects. intros Hne H.
  apply andb_prop in H. destruct H as [Hu _]. apply String.eqb_eq in Hu.
  destruct (String.eqb_spec (dc_user_id d) u'); [congruence | reflexivity].
Qed.

Lemma upsert_other_user (u u' : string) (row : DriveConnection) (ds : list DriveConnection) :
  u' <> u ->
  driveConnectionsRepository.selects u "google" row = true ->
  filter (driveConnectionsRepository.selects u' "google")
    (if existsb (driveConnectionsRepository.selects u "google") ds
     then update_where (driveConnectionsRepository.selects u "google") (fun _ => row) ds
     else (ds ++ [row])%list)
  = filter (driveConnectionsRepository.selects u' "google") ds.
Proof.
  intros Hne Hrow. pose proof (selects_other u u' row Hne Hrow) as Hrow'.
  destruct (existsb (driveConnectionsRepository.selects u "google") ds).
  - unfold update_where. induction ds as [| d ds IH]; cbn; [reflexivity |].
    destruct (driveConnectionsRepository.selects u "google" d) eqn:Hd.
    + rewrite Hrow', (selects_other u u' d Hne Hd). exact IH.
    + destruct (driveConnectionsRepository.selects u' "google" d); [f_equal |]; exact IH.
  - rewrite filter_app. cbn. rewrite Hrow'. apply app_nil_r.
Qed.

(** The credential of [u], in the table and in the cache, is what it was. *)
Definition credential_kept (u : string) (w w' : World) : Prop :=
  filter (driveConnectionsRepository.selects u "google") (drive_connections w')
  = filter (driveConnectionsRepository.selects u "google") (drive_connections w)
  /\ storage.cache_get u (providerTokensCache w')
     = storage.cache_get u (providerTokensCache w).

Lemma store_token_spec c body w :
  wp (POST_auth_store_token c body)
     (fun r w' =>
        same_entities w w'
        /\ exists a, r = Ok a
           /\ (forall u, userId c <> Some u -> credential_kept u w w')
           /\ (reply_status a = 200 ->
               exists u b,
                 userId c = Some u /\ body = Some b /\ st_user_id b = Some u
                 /\ storage.getProviderToken u w'
                    = (Ok (Some {| token := st_provider_token b;
                                   refreshToken := st_provider_refresh_token b |}), w'))
           /\ (reply_status a <> 200 -> drive_connections w' = drive_connections w)
           /\ (forall b, body = Some b ->
                 truthy_opt (st_user_id b) && truthy_opt (st_provider_token b) = false ->
                 a = reply (RError "Missing required fields") 400)) w.
Proof.
  assert (Hrefuse : forall a w',
            same_entities w w' ->
            drive_connections w' = drive_connections w ->
            providerTokensCache w' = providerTokensCache w ->
            reply_status a <> 200 ->
            (forall b, body = Some b ->
               truthy_opt (st_user_id b) && truthy_opt (st_provider_token b) = false ->
               a = reply (RError "Missing required fields") 400) ->
            same_entities w w'
            /\ exists a', Ok a = Ok a'
               /\ (forall u, userId c <> Some u -> credential_kept u w w')
               /\ (reply_status a' = 200 ->
                   exists u b,
                     userId c = Some u /\ body = Some b /\ st_user_id b = Some u
                     /\ storage.getProviderToken u w'
                        = (Ok (Some {| token := st_provider_token b;
                                       refreshToken := st_provider_refresh_token b |}), w'))
               /\ (reply_status a' <> 200 -> drive_connections w' = drive_connections w)
               /\ (forall b, body = Some b ->
                     truthy_opt (st_user_id b) && truthy_opt (st_provider_token b) = false ->
                     a' = reply (RError "Missing required fields") 400)).
  { intros a w' Hent Hds Hcache Hst Hmissing. split; [exact Hent |].
    exists a. split; [reflexivity |]. split; [| split; [| split]].
    - intros u _. unfold credential_kept. rewrite Hds, Hcache. auto.
    - intros H. contradiction.
    - intros _. exact Hds.
    - exact Hmissing. }
  unfold POST_auth_store_token. apply wp_try_catch.
  destruct body as [b |]; cbn [req_json].
  2:{ apply wp_bind, wp_throw. apply wp_bind, wp_console. cbv beta iota. apply wp_ret.
      apply Hrefuse;
        [repeat split | reflexivity | reflexivity | cbn; discriminate
        | intros b' E; discriminate E]. }
  apply wp_bind, wp_ret. apply wp_bind, wp_console. cbv beta iota.
  destruct (truthy_opt (st_user_id b)) eqn:Huid; cbn [negb orb].
  2:{ apply wp_bind, wp_console. cbv beta iota. apply wp_ret.
      apply Hrefuse;
        [repeat split | reflexivity | reflexivity | cbn; discriminate
        | intros; reflexivity]. }
  destruct (truthy_opt (st_provider_token b)) eqn:Htok; cbn [negb orb].
  2:{ apply wp_bind, wp_console. cbv beta iota. apply wp_ret.
      apply Hrefuse;
        [repeat split | reflexivity | reflexivity | cbn; discriminate
        | intros; reflexivity]. }
  assert (Hpresent : forall b', Some b = Some b' ->
            truthy_opt (st_user_id b') && truthy_opt (st_provider_token b') = false ->
            False).
  { intros b' E Hf. injection E as <-. rewrite Huid, Htok in Hf. discriminate Hf. }
  cbv zeta. apply wp_bind, wp_console. cbv beta iota.
  destruct (truthy_opt (userId c)) eqn:Hcaller; cbn [negb].
  2:{ apply wp_bind, wp_console. cbv beta iota. apply wp_ret.
      apply Hrefuse;
        [repeat split | reflexivity | reflexivity | cbn; discriminate
        | intros b' E Hf; exfalso; exact (Hpresent b' E Hf)]. }
  destruct (st_user_id b) as [uid |] eqn:Euid; [| discriminate Huid].
  destruct (userId c) as [cu |] eqn:Ecu; [| discriminate Hcaller].
  cbn [interpolate].
  destruct (String.eqb_spec cu uid) as [-> | Hne]; cbn [negb].
  2:{ apply wp_bind, wp_console. cbv beta iota. apply wp_ret.
      apply Hrefuse;
        [repeat split | reflexivity | reflexivity | cbn; discriminate
        | intros b' E Hf; exfalso; exact (Hpresent b' E Hf)]. }
  apply wp_bind, wp_console. cbv beta iota.
  unfold storage.clearProviderTokenCache. apply wp_bind, wp_modify_cache. cbv beta iota.
  apply wp_bind. eapply wp_mono; [apply storeProviderToken_spec |]. cbv beta.
  intros r w1 (Hent & _ & [(-> & _ & Hrow & Hcache) | (-> & _ & Hrow & Hcache)]);
    world_simpl.
  - apply wp_bind, wp_console. cbv beta iota. apply wp_ret.
    split; [exact Hent |]. eexists. split; [reflexivity |].
    split; [| split; [| split]].
    + intros u Hu. assert (Hne : u <> uid) by congruence.
      unfold credential_kept. world_simpl. rewrite Hrow, Hcache. cbv zeta. split.
      * apply upsert_other_user; [exact Hne | apply sealed_row_selected].
      * rewrite cache_get_set_other by exact Hne.
        apply cache_get_delete_other, Hne.
    + intros _. exists uid, b. repeat split; trivial.
      unfold storage.getProviderToken, bind, get_cache. world_simpl.
      rewrite Hcache, cache_get_set. reflexivity.
    + intros H. exfalso. apply H. reflexivity.
    + intros b' E Hf. exfalso. exact (Hpresent b' E Hf).
  - apply wp_bind, wp_console. cbv beta iota. apply wp_ret.
    split; [exact Hent |]. eexists. split; [reflexivity |].
    split; [| split; [| split]].
    + intros u Hu. assert (Hne : u <> uid) by congruence.
      unfold credential_kept. world_simpl. rewrite Hrow, Hcache. split; [reflexivity |].
      apply cache_get_delete_other, Hne.
    + cbn. discriminate.
    + intros _. exact Hrow.
    + intros b' E Hf. exfalso. exact (Hpresent b' E Hf).
Qed.

(** X16. [POST /api/auth/store-token] touches the credential of nobody but
    the authenticated caller: for every other user (and, when the caller is
    anonymous, for every user) the row of [drive_connections] and the cached
    tokens are what they were, and no entity table changes. A 200 answer
    means the body named the caller, and the pair of tokens of the body is
    what [storage.getProviderToken] now answers for the caller, from the
    cache. Any other answer leaves [drive_connections] as it was. A body
    without [user_id] or [provider_token] is answered 400 before the caller
    is looked at, so also to an anonymous caller. *)
Theorem store_token_only_for_the_caller :
  forall (c : Variables) (body : option StoreTokenBody) (w : World),
    exists r w',
      POST_auth_store_token c body w = (Ok r, w')
      /\ same_entities w w'
      /\ (forall u, userId c <> Some u -> credential_kept u w w')
      /\ (reply_status r = 200 ->
          exists u b,
            userId c = Some u /\ body = Some b /\ st_user_id b = Some u
            /\ storage.getProviderToken u w'
               = (Ok (Some {| token := st_provider_token b;
                              refreshToken := st_provider_refresh_token b |}), w'))
      /\ (reply_status r <> 200 -> drive_connections w' = drive_connections w)
      /\ (forall b, body = Some b ->
            truthy_opt (st_user_id b) && truthy_opt (st_provider_token b) = false ->
            r = reply (RError "Missing required fields") 400).
Proof.
  intros c body w. apply wp_returns.
  eapply wp_mono; [apply store_token_spec |]. cbv beta.
  intros r w' (Hent & a & -> & H). exists a. auto.
Qed.

(** ** [POST /api/projects/:id/folders]: provider first, table second *)

(** The events of a run, newest first. *)
Definition grown (w w' : World) (evs : list Event) : Prop :=
  trace w' = (evs ++ trace w)%list.

(** How the route can end. *)
Inductive FolderOutcome (c : Variables) (projectId : string)
  (request : option CreateFolderBody) (w : World) (r : HttpReply) (w' : World) : Prop :=
| FolderRefused :
    (* nothing was written *)
    folders w' = folders w ->
    reply_status r <> 201 ->
    (forall fallback, reply_body r <> RFailure PostgrestError fallback) ->
    FolderOutcome c projectId request w r w'
| FolderInserted user p b tok parent resp j row evs :
    (* the provider created the folder, then the row was inserted *)
    requireAuth c = Some user ->
    In p (projects w) -> Project.id p = projectId -> Project.user_id p = user ->
    request = Some b ->
    grown w w' evs ->
    In (EvFetch (googleDrive.createFolder_request tok (interpolate (cf_name b)) parent)
                (Responded resp)) evs ->
    ok resp = true ->
    body resp = Some j ->
    (parent = Project.root_drive_id p
     \/ exists f, In f (folders w)
                  /\ Folder.id f = interpolate (cf_parent_folder_id b)
                  /\ truthy_opt (cf_parent_folder_id b) = true
                  /\ Folder.drive_folder_id f <> ""
                  /\ parent = Some (Folder.drive_folder_id f)) ->
    folders w' = (folders w ++ [row])%list ->
    Folder.project_id row = projectId ->
    Folder.drive_folder_id row = or_else (file_id j) "" ->
    Folder.folder_name row = interpolate (cf_name b) ->
    Folder.parent_id row = (if truthy_opt (cf_parent_folder_id b)
                            then cf_parent_folder_id b else None) ->
    Folder.is_deleted row = false ->
    r = reply (RFolder row) 201 ->
    FolderOutcome c projectId request w r w'
| FolderCompensated b tok parent resp j res evs :
    (* the provider created the folder, the insert failed, and the folder
       was asked to be deleted again *)
    request = Some b ->
    grown w w' evs ->
    In (EvFetch (googleDrive.createFolder_request tok (interpolate (cf_name b)) parent)
                (Responded resp)) evs ->
    ok resp = true ->
    body resp = Some j ->
    In (EvFetch (googleDrive.deleteFile_request tok (interpolate (file_id j))) res) evs ->
    In (EvQuery "folders" INSERT true) evs ->
    folders w' = folders w ->
    r = reply (RFailure PostgrestError "Failed to create folder") 500 ->
    FolderOutcome c projectId request w r w'.

Lemma or_else_twice x : or_else (Some (or_else x "")) "" = or_else x "".
Proof.
  unfold or_else. destruct x as [s |]; [| reflexivity].
  destruct (truthy s) eqn:E; [rewrite E |]; reflexivity.
Qed.

Ltac solve_grown :=
  unfold grown; world_simpl;
  repeat match goal with
         | H : trace ?w1 = (_ ++ _)%list |- context [trace ?w1] => rewrite H
         end;
  grow.

Ltac find_event := cbn [In]; repeat first [left; reflexivity | right].

Ltac ok_facts :=
  repeat match goal with
         | H : negb ?b = false |- _ => apply (proj1 (negb_false_iff b)) in H
         end.

Ltac folder_compensated :=
  ok_facts; world_simpl; repeat split; trivial;
  eexists; (split; [reflexivity |]);
  eapply FolderCompensated;
  [ first [reflexivity | eassumption] | solve_grown | find_event | eassumption | eassumption
  | find_event | find_event | assumption | reflexivity ].

Ltac parent_found :=
  first
    [ left; reflexivity
    | right;
      match goal with
      | H : single (filter _ (folders _)) = PgData ?f,
        Hf : folders ?w1 = folders ?w,
        Hd : truthy (Folder.drive_folder_id ?f) = true |- _ =>
          let Hin := fresh in
          let Hid := fresh in
          destruct (single_found _ _ _ H) as [Hin Hid];
          apply String.eqb_eq in Hid; apply truthy_true in Hd;
          rewrite Hf in Hin;
          exists f; repeat split; first [assumption | reflexivity]
      end ].

Ltac folder_inserted :=
  ok_facts; world_simpl; repeat split; trivial;
  eexists; (split; [reflexivity |]);
  eapply FolderInserted;
  [ eassumption | eassumption | eassumption | eassumption
  | first [reflexivity | eassumption]
  | solve_grown | find_event | eassumption | eassumption
  | parent_found
  | world_simpl; match goal with H : folders _ = folders _ |- _ => rewrite H end;
    reflexivity
  | reflexivity | apply or_else_twice | reflexivity
  | repeat match goal with
           | H : ?b = _ |- context [if ?b then _ else _] => rewrite H
           end;
    reflexivity
  | reflexivity
  | reflexivity ].

Ltac folder_refused :=
  repeat split; trivial;
  eexists; (split; [reflexivity |]);
  apply FolderRefused;
  [ first [reflexivity | assumption] | cbn; discriminate | cbn; discriminate ].

Lemma POST_folders_spec c projectId body w :
  wp (POST_projects_id_folders c projectId body)
     (fun r w' =>
        env w' = env w /\ projects w' = projects w
        /\ files_metadata w' = files_metadata w
        /\ exists a, r = Ok a /\ FolderOutcome c projectId body w a w') w.
Proof.
  unfold POST_projects_id_folders. apply wp_try_catch.
  destruct (requireAuth c) as [user |] eqn:Hauth; [| apply wp_ret; folder_refused].
  unfold storage.getProject, projectsRepository.getByIdWithoutUser.
  repeat wp_any.
  all: try solve [folder_refused].
  match goal with
  | H : single (filter _ _) = PgData ?p |- _ =>
      apply single_found in H; destruct H as [Hin Hid]; apply String.eqb_eq in Hid
  end.
  match goal with
  | H : negb (Project.user_id ?p =? user)%string = false |- _ =>
      apply (proj1 (negb_false_iff _)) in H; apply String.eqb_eq in H; rename H into Hu
  end.
  eapply wp_mono; [apply getValidProviderToken_spec |]. cbv beta.
  intros r w1 ((o & ->) & (He & Hps & Hfs & Hfm) & (evs1 & Hevs1 & _)).
  world_simpl.
  destruct (truthy_opt o) eqn:Htok; cbn [negb]; [| apply wp_ret; folder_refused].
  unfold storage.getFolder, foldersRepository.getById, googleDrive.createFolder,
    storage_createFolder, foldersRepository_create, googleDrive.deleteFile.
  repeat wp_any.
  all: try solve [folder_refused].
  all: try solve [folder_compensated].
  all: solve [folder_inserted].
Qed.

(** X17. [POST /api/projects/:id/folders] writes to the provider first and
    to the table second, and ends in one of three ways. Either nothing is
    written to [folders] (every refusal, and a Drive folder that could not be
    created). Or the provider answered the create request ok with a JSON
    body, and exactly one row was appended: for the project of the path,
    which the caller owns, with the id of the new Drive folder, under the
    parent the body names; the Drive folder itself was created under the
    project's root or under the Drive folder of the row that
    [parent_folder_id] names, whatever project that row belongs to. Or the
    Drive folder was created and the insert failed: then the route has asked
    the provider to delete that very folder again, whatever came of it,
    [folders] is as it was, and the answer is the 500 of the database error.
    In no case do [projects] or [files_metadata] change. *)
Theorem folder_row_follows_drive_folder :
  forall (c : Variables) (projectId : string) (body : option CreateFolderBody)
         (w : World),
    exists r w',
      POST_projects_id_folders c projectId body w = (Ok r, w')
      /\ env w' = env w
      /\ projects w' = projects w
      /\ files_metadata w' = files_metadata w
      /\ FolderOutcome c projectId body w r w'.
Proof.
  intros c projectId body w. apply wp_returns.
  eapply wp_mono; [apply POST_folders_spec |]. cbv beta.
  intros r w' (He & Hp & Hf & a & -> & H). exists a. auto.
Qed.

(** Bob's folder, in Bob's project; Alice names it as the parent of a folder
    of hers. *)
Definition folder_of_bob : Folder.t :=
  {| Folder.id := "d-bob"; Folder.project_id := "p-bob"; Folder.parent_id := None;
     Folder.drive_folder_id := "drive-bob"; Folder.folder_name := "Private";
     Folder.sort_order := 0; Folder.is_deleted := false; Folder.deleted_at := None;
     Folder.created_at := 7; Folder.updated_at := 7 |}.

Definition world_shared : World :=
  {| env := {| isProduction := true;
               GOOGLE_CLIENT_ID := None;
               GOOGLE_CLIENT_SECRET := None;
               net := accepting_provider;
               db_error := fun _ => false;
               clock := fun n => 1700000000000 + Z.of_nat n;
               gen_uuid := fun _ => "d-new";
               getFullYear := fun _ => "2024";
               payload_of := fun _ => None |};
     projects := [project_p1];
     folders := [folder_of_bob];
     files_metadata := [];
     drive_connections := [];
     providerTokensCache := [("alice", {| token := Some "tok"; refreshToken := None |})];
     trace := [] |}.

Definition notes_under_bob : CreateFolderBody :=
  {| cf_name := Some "Notes"; cf_parent_folder_id := Some "d-bob" |}.

Lemma folder_row_follows_drive_folder_witness :
  (exists r w',
      POST_projects_id_folders (as_user "alice") "p1" (Some notes_under_bob) world_shared
      = (Ok r, w')
      /\ env w' = env world_shared
      /\ projects w' = projects world_shared
      /\ files_metadata w' = files_metadata world_shared
      /\ FolderOutcome (as_user "alice") "p1" (Some notes_under_bob) world_shared r w')
  /\ map (fun d => (Folder.project_id d, Folder.parent_id d, Folder.drive_folder_id d))
       (folders (snd (POST_projects_id_folders (as_user "alice") "p1"
                        (Some notes_under_bob) world_shared)))
     = [("p-bob", None, "drive-bob"); ("p1", Some "d-bob", "drive-new")]
  /\ In (EvFetch (googleDrive.createFolder_request "tok" "Notes" (Some "drive-bob"))
                (accepting_provider 0 (about_request "tok")))
        (trace (snd (POST_projects_id_folders (as_user "alice") "p1"
                       (Some notes_under_bob) world_shared))).
Proof.
  split; [| split].
  - apply (folder_row_follows_drive_folder (as_user "alice") "p1" (Some notes_under_bob)
             world_shared).
  - vm_compute. reflexivity.
  - vm_compute. tauto.
Defined.

(** ** Across routes: a project in the trash *)

(** The tree of a project, as the two listings give it. *)
Definition tree_of (id : string) (w : World) : list Folder.t * list FileMetadata.t :=
  (order_by foldersRepository.by_sort_order
     (filter (foldersRepository.matches
                {| ff_project_id := id; ff_parent_id := None; ff_is_deleted := None |})
        (folders w)),
   order_by filesMetadataRepository.newest_first
     (filter (filesMetadataRepository.matches
                {| fl_project_id := Some id; fl_folder_id := None; fl_is_deleted := None |})
        (files_metadata w))).

Lemma GET_projects_id_owner c user id (e : Project.t) w :
  healthy w ->
  requireAuth c = Some user ->
  entity KProject id w e ->
  Project.user_id e = user ->
  exists w',
    GET_projects_id c id w
    = (Ok (reply (RProjectTree e (fst (tree_of (Project.id e) w))
                    (snd (tree_of (Project.id e) w))) 200), w')
    /\ same_state w w'.
Proof.
  intros Hh Hauth He Hu. unfold healthy in Hh. unfold entity in He. world_simpl.
  apply wp_answers. unfold GET_projects_id. apply wp_try_catch. rewrite Hauth.
  unfold storage.getProject, projectsRepository.getByIdWithoutUser,
    storage_getFolders, storage_getFiles, foldersRepository.getAll,
    filesMetadataRepository.getAll.
  path. rewrite Hu. path.
  split; [reflexivity | repeat split].
Qed.

(** X18. Soft-deleting a project does not cascade, and
    [GET /api/projects/:id] does not look at [is_deleted]: after the owner
    has moved a project to the trash (the database answering), the same
    owner is still served the project by its id, now marked deleted, with
    exactly the folders and files the route listed before the delete. *)
Theorem trashed_project_is_still_served :
  forall (c : Variables) (user id : string) (e : Project.t) (w : World),
    healthy w ->
    requireAuth c = Some user ->
    entity KProject id w e ->
    Project.user_id e = user ->
    exists msg w1 w0 w2 e' ds fs,
      GET_projects_id c id w = (Ok (reply (RProjectTree e ds fs) 200), w0)
      /\ route c (Lifecycle SoftDelete KProject id) w = (Ok (json (JSuccess msg) 200), w1)
      /\ GET_projects_id c id w1 = (Ok (reply (RProjectTree e' ds fs) 200), w2)
      /\ Project.id e' = Project.id e
      /\ Project.is_deleted e' = true.
Proof.
  intros c user id e w Hh Hauth He Hu.
  assert (Hid : Project.id e = id).
  { unfold entity in He. world_simpl.
    destruct (filter_single _ _ _ He) as (H & _). apply String.eqb_eq, H. }
  assert (Hown : owned_by KProject e user w).
  { exists e. split; [| exact Hu]. cbn [row_project]. rewrite Hid. exact He. }
  pose proof (lifecycle_ok SoftDelete KProject id c user e w Hh Hauth He Hown
                ltac:(intros H; contradiction H; reflexivity)) as Hrun.
  unfold wp in Hrun. destruct Hrun as (msg & Hr & Happ & _ & Henv).
  destruct Happ as ((deleted & updated & _ & _ & Htable) & Hothers).
  set (w1 := snd (route c (Lifecycle SoftDelete KProject id) w)) in *.
  assert (He1 : entity KProject id w1 (relabel KProject true (Some deleted) updated e))
    by (apply (entity_relabel KProject id true (Some deleted) updated e w w1 He Htable)).
  assert (Hh1 : healthy w1) by (intros n; rewrite Henv; apply Hh).
  destruct (GET_projects_id_owner c user id e w Hh Hauth He Hu) as (w0 & E0 & _).
  destruct (GET_projects_id_owner c user id _ w1 Hh1 Hauth He1 Hu) as (w2 & E2 & _).
  exists msg, w1, w0, w2, (relabel KProject true (Some deleted) updated e).
  do 2 eexists. split; [exact E0 |]. split.
  { apply run_outcome. exact Hr. }
  split; [| split; reflexivity].
  rewrite E2. unfold tree_of. cbn [relabel Project.id fst snd].
  pose proof (Hothers KFolder ltac:(discriminate)) as Hf.
  pose proof (Hothers KFile ltac:(discriminate)) as Hm.
  cbn [table] in Hf, Hm. rewrite Hf, Hm. reflexivity.
Qed.

Lemma trashed_project_is_still_served_witness :
  exists msg w1 w0 w2 e' ds fs,
    GET_projects_id (as_user "alice") "p1" world_alice
    = (Ok (reply (RProjectTree project_p1 ds fs) 200), w0)
    /\ route (as_user "alice") (Lifecycle SoftDelete KProject "p1") world_alice
       = (Ok (json (JSuccess msg) 200), w1)
    /\ GET_projects_id (as_user "alice") "p1" w1
       = (Ok (reply (RProjectTree e' ds fs) 200), w2)
    /\ Project.id e' = Project.id project_p1
    /\ Project.is_deleted e' = true.
Proof.
  apply (trashed_project_is_still_served (as_user "alice") "alice" "p1" project_p1
           world_alice).
  - intros n. reflexivity.
  - reflexivity.
  - reflexivity.
  - reflexivity.
Defined.

(** ** [GET /api/auth/drive-status] *)

(** What the status route says about the token [o] that
    [getValidProviderToken] answered in the world [w1]. *)
Definition status_of (o : option string) (w1 : World) : Reply :=
  if truthy_opt o then
    match net (env w1) (tick w1) (about_request (interpolate o)) with
    | Rejected => RDisconnected "api_error"
    | Responded r =>
        if ok r then
          match body r with
          | Some j => RConnected j
          | None => RDisconnected "api_error"
          end
        else RDisconnected "token_expired"
    end
  else RDisconnected "no_token".

Lemma drive_status_spec c w :
  wp (GET_auth_drive_status c)
     (fun r w' =>
        same_entities w w'
        /\ exists a, r = Ok a
           /\ match requireAuth c with
              | None => a = reply (RError "Unauthorized") 401
              | Some user =>
                  exists o w1,
                    getValidProviderToken user w = (Ok o, w1)
                    /\ a = reply (status_of o w1) 200
                    /\ drive_connections w' = drive_connections w1
                    /\ providerTokensCache w' = providerTokensCache w1
              end) w.
Proof.
  unfold GET_auth_drive_status. apply wp_try_catch.
  destruct (requireAuth c) as [user |].
  2:{ apply wp_ret. split; [apply same_entities_refl |]. eexists. split; reflexivity. }
  apply wp_bind, wp_intro. intros r w1 Hrun.
  pose proof (wp_run _ _ _ _ _ (getValidProviderToken_spec user w) Hrun) as H.
  cbv beta in H. destruct H as ((o & ->) & Hent & _).
  assert (Hleaf : forall b w',
            same_entities w w' ->
            drive_connections w' = drive_connections w1 ->
            providerTokensCache w' = providerTokensCache w1 ->
            status_of o w1 = b ->
            same_entities w w'
            /\ exists a, Ok (reply b 200) = Ok a
               /\ exists o' w1',
                    getValidProviderToken user w = (Ok o', w1')
                    /\ a = reply (status_of o' w1') 200
                    /\ drive_connections w' = drive_connections w1'
                    /\ providerTokensCache w' = providerTokensCache w1').
  { intros b w' H1 H2 H3 <-. split; [exact H1 |]. eexists. split; [reflexivity |].
    exists o, w1. auto. }
  unfold status_of in Hleaf.
  destruct (truthy_opt o) eqn:Htok; cbn [negb];
    [| apply wp_ret, Hleaf; trivial].
  apply wp_try_catch, wp_bind, wp_fetch. intros res Hres. rewrite <- Hres in Hleaf.
  destruct res as [| resp]; cbv beta iota.
  { apply wp_bind, wp_console. cbv beta iota. apply wp_ret, Hleaf; trivial. }
  destruct (ok resp) eqn:Hok; [| apply wp_ret, Hleaf; trivial].
  apply wp_bind, wp_json_of. destruct (body resp) as [j |] eqn:Hbody.
  - apply wp_ret, Hleaf; trivial.
  - apply wp_bind, wp_console. cbv beta iota. apply wp_ret, Hleaf; trivial.
Qed.

(** X19. [GET /api/auth/drive-status] never answers 500: nothing in it can
    throw past its inner handlers. An anonymous caller gets 401; any other
    caller gets 200, and the body is decided by the token that
    [getValidProviderToken] answers and by one more request to the provider
    with it: [connected] exactly when that request is answered ok with a JSON
    body, [no_token] when there is no token, [token_expired] when the answer
    is not ok, [api_error] when the request is rejected or the ok body is
    not JSON. The route itself writes to no table and leaves the credential
    as [getValidProviderToken] left it. *)
Theorem drive_status_never_fails :
  forall (c : Variables) (w : World),
    exists r w',
      GET_auth_drive_status c w = (Ok r, w')
      /\ same_entities w w'
      /\ match requireAuth c with
         | None => r = reply (RError "Unauthorized") 401
         | Some user =>
             exists o w1,
               getValidProviderToken user w = (Ok o, w1)
               /\ r = reply (status_of o w1) 200
               /\ drive_connections w' = drive_connections w1
               /\ providerTokensCache w' = providerTokensCache w1
         end.
Proof.
  intros c w. apply wp_returns.
  eapply wp_mono; [apply drive_status_spec |]. cbv beta.
  intros r w' (Hent & a & -> & H). exists a. auto.
Qed.

(** ** [GET /api/projects/:id/trash] *)

Lemma matches_folder_trash id d :
  foldersRepository.matches
    {| ff_project_id := id; ff_parent_id := None; ff_is_deleted := Some true |} d = true
  <-> Folder.project_id d = id /\ Folder.is_deleted d = true.
Proof.
  unfold foldersRepository.matches. cbn.
  destruct (String.eqb_spec (Folder.project_id d) id), (Folder.is_deleted d); cbn;
    intuition congruence.
Qed.

Lemma matches_file_trash id f :
  id <> "" ->
  filesMetadataRepository.matches
    {| fl_project_id := Some id; fl_folder_id := None; fl_is_deleted := Some true |} f = true
  <-> FileMetadata.project_id f = id /\ FileMetadata.is_deleted f = true.
Proof.
  intros Hid. apply truthy_true in Hid.
  unfold filesMetadataRepository.matches. cbn. rewrite Hid.
  destruct (String.eqb_spec (FileMetadata.project_id f) id), (FileMetadata.is_deleted f);
    cbn; intuition congruence.
Qed.

Lemma GET_trash_spec c projectId w :
  projectId <> "" ->
  wp (GET_projects_id_trash c projectId)
     (fun r w' =>
        same_state w w'
        /\ exists a, r = Ok a
           /\ (http_status a = 200 ->
               exists user p fs ds,
                 requireAuth c = Some user
                 /\ a = json (JTrash fs ds) 200
                 /\ In p (projects w)
                 /\ Project.id p = projectId
                 /\ Project.user_id p = user
                 /\ (forall f, In f fs <->
                               In f (files_metadata w)
                               /\ FileMetadata.project_id f = projectId
                               /\ FileMetadata.is_deleted f = true)
                 /\ (forall d, In d ds <->
                               In d (folders w) /\ Folder.project_id d = projectId
                               /\ Folder.is_deleted d = true))) w.
Proof.
  intros Hid. unfold GET_projects_id_trash. apply wp_try_catch.
  destruct (requireAuth c) as [user |];
    [| apply wp_ret; split; [apply same_state_refl |]; eexists; split; [reflexivity |];
       cbn; discriminate].
  autounfold with store.
  repeat wp_any;
    (split; [repeat split |]; eexists; split; [reflexivity |]; cbn [json http_status];
     try discriminate).
  intros _.
  match goal with
  | H : single (filter _ _) = PgData ?p |- _ =>
      apply single_found in H; destruct H as [Hin Hp]; apply String.eqb_eq in Hp
  end.
  match goal with
  | H : negb (Project.user_id ?p =? user)%string = false |- _ =>
      apply (proj1 (negb_false_iff _)) in H; apply String.eqb_eq in H; rename H into Hu
  end.
  do 4 eexists. split; [reflexivity |]. split; [reflexivity |].
  split; [exact Hin |]. split; [exact Hp |]. split; [exact Hu |].
  split.
  - intros f. rewrite In_order_by, filter_In, (matches_file_trash _ _ Hid). reflexivity.
  - intros d. rewrite In_order_by, filter_In, matches_folder_trash. reflexivity.
Qed.

(** X20. [GET /api/projects/:id/trash] lists, to the owner of the project
    and to nobody else, exactly the files and the folders of that project
    that are soft-deleted (for a project id that is not the empty string),
    and changes no store. Entities of other projects and entities that are
    not deleted never show up in it. *)
Theorem trash_lists_the_deleted :
  forall (c : Variables) (projectId : string) (w w' : World) (r : HttpResponse),
    projectId <> "" ->
    GET_projects_id_trash c projectId w = (Ok r, w') ->
    http_status r = 200 ->
    same_state w w'
    /\ exists user p fs ds,
         requireAuth c = Some user
         /\ r = json (JTrash fs ds) 200
         /\ In p (projects w)
         /\ Project.id p = projectId
         /\ Project.user_id p = user
         /\ (forall f, In f fs <->
                       In f (files_metadata w)
                       /\ FileMetadata.project_id f = projectId
                       /\ FileMetadata.is_deleted f = true)
         /\ (forall d, In d ds <->
                       In d (folders w) /\ Folder.project_id d = projectId
                       /\ Folder.is_deleted d = true).
Proof.
  intros c projectId w w' r Hid Hrun Hst.
  pose proof (wp_run _ _ _ _ _ (GET_trash_spec c projectId w Hid) Hrun) as H.
  cbv beta in H. destruct H as (Hs & a & E & H). injection E as <-.
  split; [exact Hs | exact (H Hst)].
Qed.

Lemma trash_lists_the_deleted_witness :
  same_state world_alice_trashed
    (snd (GET_projects_id_trash (as_user "alice") "p1" world_alice_trashed))
  /\ exists user p fs ds,
       requireAuth (as_user "alice") = Some user
       /\ json (JTrash [file_f1_trashed] []) 200 = json (JTrash fs ds) 200
       /\ In p (projects world_alice_trashed)
       /\ Project.id p = "p1"
       /\ Project.user_id p = user
       /\ (forall f, In f fs <->
                     In f (files_metadata world_alice_trashed)
                     /\ FileMetadata.project_id f = "p1"
                     /\ FileMetadata.is_deleted f = true)
       /\ (forall d, In d ds <->
                     In d (folders world_alice_trashed) /\ Folder.project_id d = "p1"
                     /\ Folder.is_deleted d = true).
Proof.
  apply (trash_lists_the_deleted (as_user "alice") "p1" world_alice_trashed
           (snd (GET_projects_id_trash (as_user "alice") "p1" world_alice_trashed))
           (json (JTrash [file_f1_trashed] []) 200)).
  - discriminate.
  - apply run_outcome. vm_compute. reflexivity.
  - reflexivity.
Defined.

(** ** Across routes: a file in the trash *)

Lemma GET_trash_owner c user id (p : Project.t) w :
  healthy w ->
  requireAuth c = Some user ->
  entity KProject id w p ->
  Project.user_id p = user ->
  exists w',
    GET_projects_id_trash c id w
    = (Ok (json (JTrash
                   (order_by filesMetadataRepository.newest_first
                      (filter (filesMetadataRepository.matches
                                 {| fl_project_id := Some id; fl_folder_id := None;
                                    fl_is_deleted := Some true |}) (files_metadata w)))
                   (order_by foldersRepository.by_sort_order
                      (filter (foldersRepository.matches
                                 {| ff_project_id := id; ff_parent_id := None;
                                    ff_is_deleted := Some true |}) (folders w)))) 200), w')
    /\ same_state w w'.
Proof.
  intros Hh Hauth He Hu. unfold healthy in Hh. unfold entity in He. world_simpl.
  apply wp_answers. unfold GET_projects_id_trash. apply wp_try_catch. rewrite Hauth.
  autounfold with store.
  path. rewrite Hu. path.
  split; [reflexivity | repeat split].
Qed.

(** X21. The write path and the two read paths agree on a file. After the
    owner has soft-deleted a file (the database answering),
    [GET /api/projects/:id] of its project lists no file of that id any more,
    and [GET /api/projects/:id/trash] lists it: the same row, with only its
    lifecycle columns rewritten. *)
Theorem trashed_file_changes_listing :
  forall (c : Variables) (user fid : string) (f : FileMetadata.t) (w : World),
    healthy w ->
    requireAuth c = Some user ->
    entity KFile fid w f ->
    owned_by KFile f user w ->
    exists msg w1 w2 w3 p ds fs tfs tds deleted updated,
      route c (Lifecycle SoftDelete KFile fid) w = (Ok (json (JSuccess msg) 200), w1)
      /\ GET_projects_id c (FileMetadata.project_id f) w1
         = (Ok (reply (RProjectTree p ds fs) 200), w2)
      /\ (forall x, In x fs -> FileMetadata.id x <> fid)
      /\ GET_projects_id_trash c (FileMetadata.project_id f) w1
         = (Ok (json (JTrash tfs tds) 200), w3)
      /\ In (relabel KFile true (Some deleted) updated f) tfs.
Proof.
  intros c user fid f w Hh Hauth He Hown.
  pose proof (lifecycle_ok SoftDelete KFile fid c user f w Hh Hauth He Hown
                ltac:(intros H; contradiction H; reflexivity)) as Hrun.
  unfold wp in Hrun. destruct Hrun as (msg & Hr & Happ & _ & Henv).
  destruct Happ as ((deleted & updated & _ & _ & Htable) & Hothers).
  set (w1 := snd (route c (Lifecycle SoftDelete KFile fid) w)) in *.
  cbn [table row_id] in Htable.
  destruct Hown as (p & Hp & Hu). cbn [row_project] in Hp.
  assert (Hp1 : entity KProject (FileMetadata.project_id f) w1 p).
  { unfold entity. cbn [table row_id].
    pose proof (Hothers KProject ltac:(discriminate)) as E. cbn [table] in E.
    rewrite E. exact Hp. }
  assert (Hh1 : healthy w1) by (intros n; rewrite Henv; apply Hh).
  destruct (GET_projects_id_owner c user _ p w1 Hh1 Hauth Hp1 Hu) as (w2 & E2 & _).
  destruct (GET_trash_owner c user _ p w1 Hh1 Hauth Hp1 Hu) as (w3 & E3 & _).
  assert (Hfid : In f (files_metadata w) /\ FileMetadata.id f = fid).
  { unfold entity in He. cbn [table row_id] in He.
    destruct (filter_single _ _ _ He) as (H1 & H2 & _).
    apply String.eqb_eq in H1. auto. }
  destruct Hfid as [Hin Hfid].
  exists msg, w1, w2, w3, p. do 4 eexists. exists deleted, updated.
  split; [apply run_outcome; exact Hr |].
  split; [exact E2 |]. split; [| split; [exact E3 |]].
  - intros x Hx. unfold tree_of in Hx. cbn [snd] in Hx.
    apply In_order_by, filter_In in Hx. destruct Hx as [Hx Hm].
    rewrite Htable in Hx. apply in_map_iff in Hx. destruct Hx as (y & Ey & Hy).
    destruct (String.eqb_spec (FileMetadata.id y) fid) as [Eid | Eid].
    + subst x. unfold filesMetadataRepository.matches in Hm. cbn in Hm.
      rewrite andb_false_r in Hm. discriminate Hm.
    + subst x. exact Eid.
  - apply In_order_by, filter_In. split.
    + rewrite Htable. apply in_map_iff. exists f. split; [| exact Hin].
      rewrite Hfid, String.eqb_refl. reflexivity.
    + unfold filesMetadataRepository.matches. cbn.
      rewrite String.eqb_refl. destruct (truthy (FileMetadata.project_id f)); reflexivity.
Qed.

Lemma trashed_file_changes_listing_witness :
  exists msg w1 w2 w3 p ds fs tfs tds deleted updated,
    route (as_user "alice") (Lifecycle SoftDelete KFile "f1") world_alice
    = (Ok (json (JSuccess msg) 200), w1)
    /\ GET_projects_id (as_user "alice") (FileMetadata.project_id file_f1) w1
       = (Ok (reply (RProjectTree p ds fs) 200), w2)
    /\ (forall x, In x fs -> FileMetadata.id x <> "f1")
    /\ GET_projects_id_trash (as_user "alice") (FileMetadata.project_id file_f1) w1
       = (Ok (json (JTrash tfs tds) 200), w3)
    /\ In (relabel KFile true (Some deleted) updated file_f1) tfs.
Proof.
  apply (trashed_file_changes_listing (as_user "alice") "alice" "f1" file_f1 world_alice).
  - intros n. reflexivity.
  - reflexivity.
  - reflexivity.
  - exists project_p1. split; reflexivity.
Defined.

(** ** The storage client: the calls that need an ok answer *)

(** The message of the error [createFolder] throws for a response that is
    not ok: [error.message] of the body, else the status text. *)
Definition createFolder_error (r : Response) : string :=
  "Failed to create folder: "
  ++ match body r with
     | Some errorJson => or_else (error_message errorJson) (statusText r)
     | None => statusText r
     end.

(** X22. [createFolder] and [refreshAccessToken] return only for an ok
    response with a JSON body, and a 404 is a failure like any other status
    that is not ok (unlike the four calls that remove or (un)trash a file).
    For a response that is not ok, [createFolder] always throws its own
    error, with the message of the body or else the status text, also when
    the body is not JSON; [refreshAccessToken] reads the body as JSON first,
    so a body that is not JSON surfaces as the parse error instead. *)
Theorem create_and_refresh_need_ok :
  forall (w : World) (r : Response),
    (forall tok name parent,
        net (env w) (4 + tick w)%nat (googleDrive.createFolder_request tok name parent)
        = Responded r ->
        ((exists j, fst (googleDrive.createFolder tok name parent w) = Ok j)
         <-> (ok r = true /\ body r <> None))
        /\ (ok r = false ->
            fst (googleDrive.createFolder tok name parent w)
            = Throw (Error (createFolder_error r)))
        /\ (status r = 404 ->
            exists e, fst (googleDrive.createFolder tok name parent w) = Throw e))
    /\ (forall clientId clientSecret refreshToken,
          net (env w) (tick w)
            (googleDrive.refreshAccessToken_request clientId clientSecret refreshToken)
          = Responded r ->
          ((exists j, fst (googleDrive.refreshAccessToken clientId clientSecret
                             refreshToken w) = Ok j)
           <-> (ok r = true /\ body r <> None))
          /\ (ok r = false -> body r = None ->
              fst (googleDrive.refreshAccessToken clientId clientSecret refreshToken w)
              = Throw SyntaxError)
          /\ (status r = 404 ->
              exists e, fst (googleDrive.refreshAccessToken clientId clientSecret
                               refreshToken w) = Throw e)).
Proof.
  intros w r.
  assert (H404 : status r = 404 -> ok r = false).
  { intros E. unfold ok. rewrite E. reflexivity. }
  split.
  - intros tok name parent Hnet.
    assert (Hrun : fst (googleDrive.createFolder tok name parent w)
                   = if ok r
                     then match body r with
                          | Some j => Ok j
                          | None => Throw SyntaxError
                          end
                     else Throw (Error (createFolder_error r))).
    { unfold googleDrive.createFolder, bind, console, fetch, json_of, ret, throw,
        createFolder_error.
      cbn [fst snd record env trace tick length].
      change (S (S (S (S (length (trace w)))))) with (4 + tick w)%nat.
      rewrite Hnet. cbn [fst snd]. destruct (ok r); cbn [negb fst snd].
      - destruct (body r); reflexivity.
      - reflexivity. }
    rewrite Hrun. split; [| split].
    + destruct (ok r); [destruct (body r) |]; split; intros Hx;
        first [ solve [eauto]
              | solve [split; [reflexivity | discriminate]]
              | (destruct Hx as [j Hj]; discriminate Hj)
              | (destruct Hx as [Hx1 Hx2]; first [discriminate Hx1 | congruence]) ].
    + intros ->. reflexivity.
    + intros E. rewrite (H404 E). eexists. reflexivity.
  - intros clientId clientSecret refreshToken Hnet.
    assert (Hrun : fst (googleDrive.refreshAccessToken clientId clientSecret refreshToken w)
                   = if ok r
                     then match body r with
                          | Some j => Ok j
                          | None => Throw SyntaxError
                          end
                     else match body r with
                          | Some error =>
                              Throw (Error ("Failed to refresh token: "
                                            ++ or_else (error_description error)
                                                 (statusText r)))
                          | None => Throw SyntaxError
                          end).
    { unfold googleDrive.refreshAccessToken, bind, fetch, json_of, ret, throw.
      rewrite Hnet. cbn [fst snd]. destruct (ok r); cbn [negb fst snd];
        destruct (body r); reflexivity. }
    rewrite Hrun. split; [| split].
    + destruct (ok r); destruct (body r); split; intros Hx;
        first [ solve [eauto]
              | solve [split; [reflexivity | discriminate]]
              | (destruct Hx as [j Hj]; discriminate Hj)
              | (destruct Hx as [Hx1 Hx2]; first [discriminate Hx1 | congruence]) ].
    + intros -> ->. reflexivity.
    + intros E. rewrite (H404 E). destruct (body r); eexists; reflexivity.
Qed.

(** The provider of [world_alice] answers 500, without a JSON body, to
    every request that is not a GET: the folder is not created, and the
    error carries the status text. *)
Lemma create_and_refresh_need_ok_witness :
  fst (googleDrive.createFolder "tok" "Notes" None world_alice)
  = Throw (Error "Failed to create folder: Internal Server Error").
Proof.
  exact (proj1 (proj2 (proj1 (create_and_refresh_need_ok world_alice
                                {| status := 500; statusText := "Internal Server Error";
                                   body := None |})
                         "tok" "Notes" None eq_refl)) eq_refl).
Defined.

(** ** [POST /api/projects/:id/files]: the upload *)

Section Upload.

(** [driveFile.webViewLink]: a field of the provider's answer the route
    copies into the row. *)
Variable webViewLink : Json -> option string.

(** What [c.req.parseBody()] throws on a body it cannot read as a form. *)
Variable parseBody_error : Exn.

(** A part of the multipart body that is a [File]: its name, its type and
    the length of its bytes. *)
Record UploadedFile := mkUploadedFile {
  uf_name : string;
  uf_type : string;
  uf_size : Z
}.

Inductive FormValue :=
| FormFile (file : UploadedFile)
| FormText (s : string).

(** [c.req.parseBody()]: [ub_files] are the values under the keys that start
    with [files], in the order of the body. *)
Record UploadBody := mkUploadBody {
  ub_folder_id : option string;
  ub_replace_existing : option string;
  ub_files : list FormValue
}.

(** [c.req.parseBody()]: [None] is a body that cannot be read. *)
Definition parseBody (b : option UploadBody) : M UploadBody :=
  match b with
  | Some v => ret v
  | None => throw parseBody_error
  end.

Definition GOOGLE_UPLOAD_API := "https://www.googleapis.com/upload/drive/v3".

(** The request of [uploadFile]; the bytes themselves are not part of what
    tells two requests apart here. *)
Definition uploadFile_request (accessToken fileName mimeType : string)
  (parentId : option string) : Request :=
  {| method := "POST";
     url := GOOGLE_UPLOAD_API
            ++ "/files?uploadType=multipart&fields=id,name,mimeType,size,thumbnailLink,webViewLink";
     authorization := googleDrive.bearer accessToken;
     payload := fileName :: mimeType :: (match parentId with
                                         | Some p => if truthy p then [p] else []
                                         | None => []
                                         end) |}.

(** [googleDrive.uploadFile] *)
Definition googleDrive_uploadFile (accessToken fileName mimeType : string)
  (parentId : option string) : M Json :=
  response <- fetch (uploadFile_request accessToken fileName mimeType parentId) ;;
  if negb (ok response) then
    error <- json_of response ;;
    throw (Error ("Failed to upload file: "
                  ++ or_else (error_message error) (statusText response)))
  else json_of response.

(** The columns [storage.createFile] hands to the repository. *)
Record InsertFile := mkInsertFile {
  insm_project_id : string;
  insm_folder_id : option string;
  insm_drive_file_id : option string;
  insm_file_name : string;
  insm_mime_type : string;
  insm_size_bytes : option Z;
  insm_web_view_link : option string
}.

(** The inserted row: the given columns and the defaults of the table. An
    answer of the provider without an id leaves [drive_file_id] undefined in
    the insert; the row then carries the empty string here, and nothing below
    is stated about the Drive id of such a row. *)
Definition file_row (n : nat) (e : Env) (file : InsertFile) : FileMetadata.t :=
  {| FileMetadata.id := gen_uuid e n;
     FileMetadata.project_id := insm_project_id file;
     FileMetadata.folder_id := insm_folder_id file;
     FileMetadata.drive_file_id := or_else (insm_drive_file_id file) "";
     FileMetadata.file_name := insm_file_name file;
     FileMetadata.mime_type := insm_mime_type file;
     FileMetadata.size_bytes := insm_size_bytes file;
     FileMetadata.checksum := None;
     FileMetadata.web_view_link := insm_web_view_link file;
     FileMetadata.is_deleted := false;
     FileMetadata.deleted_at := None;
     FileMetadata.created_at := clock e n;
     FileMetadata.updated_at := clock e n |}.

(** [filesMetadataRepository.create] *)
Definition filesMetadataRepository_create (file : InsertFile) : M FileMetadata.t :=
  r <- query "files_metadata" INSERT (fun n w =>
         let row := file_row n (env w) file in
         (PgData row, with_files_metadata (files_metadata w ++ [row]) w)) ;;
  match r with
  | PgError => throw PostgrestError
  | PgData data => ret data
  end.

(** [storage.createFile]; the repository answers a row or throws, so
    [!result] is never taken. *)
Definition storage_createFile (file : InsertFile) : M FileMetadata.t :=
  result <- filesMetadataRepository_create file ;;
  console LOG "File created in Supabase:" ;;
  ret result.

(** [folderId || null], as the value a stored [folder_id] is compared to. *)
Definition folder_or_null (folderId : option string) : JsonValue :=
  match folderId with
  | Some s => if truthy s then JString s else JNull
  | None => JNull
  end.

(** [if (replaceExisting) { ... }]: the row of the same name in the same
    folder, when it has a Drive id, is deleted at the provider and then in
    the table. *)
Definition replace_existing_file (projectId providerToken : string)
  (folderId : option string) (file : UploadedFile) : M unit :=
  allFiles <- storage_getFiles projectId ;;
  match find (fun f => (FileMetadata.file_name f =? uf_name file)%string
                       && strict_eq (FileMetadata.folder_id f) (folder_or_null folderId))
             allFiles with
  | Some existingFile =>
      if truthy (FileMetadata.drive_file_id existingFile) then
        try_catch
          (googleDrive.deleteFile providerToken
             (FileMetadata.drive_file_id existingFile) ;;
           storage.hardDeleteFile (FileMetadata.id existingFile) ;;
           console LOG "Deleted existing file:")
          (fun deleteError => console ERROR "Failed to delete existing file:")
      else ret tt
  | None => ret tt
  end.

(** The two [try] blocks that follow: the upload to the provider, then the
    insert of the row, with the clean-up of the provider's file when the
    insert fails. It answers the list of rows uploaded so far. *)
Definition upload_and_record (projectId providerToken : string)
  (folderId parentDriveId : option string) (file : UploadedFile)
  (uploadedFiles : list FileMetadata.t) : M (list FileMetadata.t) :=
  uploaded <-
    try_catch
      (driveFile <- googleDrive_uploadFile providerToken (uf_name file) (uf_type file)
                      parentDriveId ;;
       console LOG "Uploaded file to Drive:" ;;
       ret (Some driveFile))
      (fun driveError =>
         console ERROR "Failed to upload file to Drive:" ;;
         ret None) ;;
  match uploaded with
  | None => ret uploadedFiles
  | Some driveFile =>
      try_catch
        (fileRecord <- storage_createFile
                         {| insm_project_id := projectId;
                            insm_folder_id :=
                              if truthy_opt folderId then folderId else None;
                            insm_drive_file_id := file_id driveFile;
                            insm_file_name := uf_name file;
                            insm_mime_type := uf_type file;
                            insm_size_bytes := Some (uf_size file);
                            insm_web_view_link :=
                              if truthy_opt (webViewLink driveFile)
                              then webViewLink driveFile else None |} ;;
         ret (uploadedFiles ++ [fileRecord])%list)
        (fun dbError =>
           console ERROR "Database error, cleaning up Drive file:" ;;
           try_catch
             (googleDrive.deleteFile providerToken (interpolate (file_id driveFile)))
             (fun cleanupError => console ERROR "Failed to cleanup Drive file:") ;;
           ret uploadedFiles)
  end.

(** The body of the loop, for one [File]. *)
Definition upload_one (projectId providerToken : string) (folderId : option string)
  (replaceExisting : bool) (parentDriveId : option string) (file : UploadedFile)
  (uploadedFiles : list FileMetadata.t) : M (list FileMetadata.t) :=
  (if replaceExisting
   then replace_existing_file projectId providerToken folderId file
   else ret tt) ;;
  upload_and_record projectId providerToken folderId parentDriveId file uploadedFiles.

(** [for (const [, file] of files) { if (file instanceof File) { ... } }] *)
Fixpoint upload_all (projectId providerToken : string) (folderId : option string)
  (replaceExisting : bool) (parentDriveId : option string) (files : list FormValue)
  (uploadedFiles : list FileMetadata.t) : M (list FileMetadata.t) :=
  match files with
  | [] => ret uploadedFiles
  | FormFile file :: rest =>
      uploadedFiles <- upload_one projectId providerToken folderId replaceExisting
                         parentDriveId file uploadedFiles ;;
      upload_all projectId providerToken folderId replaceExisting parentDriveId rest
        uploadedFiles
  | FormText _ :: rest =>
      upload_all projectId providerToken folderId replaceExisting parentDriveId rest
        uploadedFiles
  end.

(** [app.post("/api/projects/:id/files")] *)
Definition POST_projects_id_files (c : Variables) (projectId : string)
  (body : option UploadBody) : M HttpReply :=
  try_catch
    (match requireAuth c with
     | None => ret (reply (RError "Unauthorized") 401)
     | Some user =>
         project <- storage.getProject projectId ;;
         match project with
         | None => ret (reply (RError "Project not found") 404)
         | Some project =>
             if negb (Project.user_id project =? user)%string then
               ret (reply (RError "Forbidden") 403)
             else
               providerToken <- getValidProviderToken user ;;
               if negb (truthy_opt providerToken) then
                 ret (reply (RError "لم يتم ربط حساب Google Drive. يرجى إعادة تسجيل الدخول.") 400)
               else
                 let providerToken := interpolate providerToken in
                 body <- parseBody body ;;
                 let folderId := ub_folder_id body in
                 let replaceExisting :=
                   match ub_replace_existing body with
                   | Some v => (v =? "true")%string
                   | None => false
                   end in
                 parentDriveId <-
                   (if truthy_opt folderId then
                      folder <- storage.getFolder (interpolate folderId) ;;
                      match folder with
                      | Some folder =>
                          if truthy (Folder.drive_folder_id folder)
                          then ret (Some (Folder.drive_folder_id folder))
                          else ret (Project.root_drive_id project)
                      | None => ret (Project.root_drive_id project)
                      end
                    else ret (Project.root_drive_id project)) ;;
                 uploadedFiles <- upload_all projectId providerToken folderId
                                    replaceExisting parentDriveId (ub_files body) [] ;;
                 ret (reply (RFiles uploadedFiles) 201)
         end
     end)
    (fun error =>
       console ERROR "Upload files error:" ;;
       ret (reply (RFailure error "Failed to upload files") 500)).

End Upload.

Ltac solve_incl := repeat apply incl_tl; apply incl_refl.

Section UploadProofs.

Variable webViewLink : Json -> option string.
Variable parseBody_error : Exn.

(** A row the upload inserted: its columns are those of a [File] among the
    values [sent] in the body, and its Drive id is the one the provider
    answered, with an ok response, to the upload request of that file in this
    run (when the answer carries an id). *)
Definition uploaded_row (tok : string) (parent : option string) (projectId : string)
  (folderId : option string) (sent : list FormValue) (evs : list Event)
  (row : FileMetadata.t) : Prop :=
  FileMetadata.project_id row = projectId
  /\ FileMetadata.folder_id row = (if truthy_opt folderId then folderId else None)
  /\ FileMetadata.is_deleted row = false
  /\ exists file resp j,
       In (FormFile file) sent
       /\ FileMetadata.file_name row = uf_name file
       /\ FileMetadata.mime_type row = uf_type file
       /\ FileMetadata.size_bytes row = Some (uf_size file)
       /\ In (EvFetch (uploadFile_request tok (uf_name file) (uf_type file) parent)
                      (Responded resp)) evs
       /\ ok resp = true
       /\ body resp = Some j
       /\ (forall id, file_id j = Some id -> FileMetadata.drive_file_id row = id)
       /\ FileMetadata.web_view_link row
          = (if truthy_opt (webViewLink j) then webViewLink j else None).

Lemma or_else_some id : or_else (Some id) "" = id.
Proof.
  unfold or_else. destruct (truthy id) eqn:E; [reflexivity |].
  symmetry. apply truthy_false, E.
Qed.

Lemma uploaded_row_mono tok parent projectId folderId sent evs evs' row :
  incl evs evs' ->
  uploaded_row tok parent projectId folderId sent evs row ->
  uploaded_row tok parent projectId folderId sent evs' row.
Proof.
  intros Hincl (H1 & H2 & H3 & file & resp & j & H0 & H4 & H5 & H6 & H7 & H8).
  repeat split; trivial. exists file, resp, j. repeat split; try tauto.
  apply Hincl, H7.
Qed.

Lemma uploaded_rows_mono tok parent projectId folderId sent evs evs' rows :
  incl evs evs' ->
  Forall (uploaded_row tok parent projectId folderId sent evs) rows ->
  Forall (uploaded_row tok parent projectId folderId sent evs') rows.
Proof.
  intros Hincl. apply Forall_impl. intros row. apply uploaded_row_mono, Hincl.
Qed.

Lemma upload_all_appends projectId tok folderId parent sent w0 files :
  forall acc w evs,
    incl files sent ->
    env w = env w0 -> projects w = projects w0 -> folders w = folders w0 ->
    grown w0 w evs ->
    files_metadata w = (files_metadata w0 ++ acc)%list ->
    Forall (uploaded_row tok parent projectId folderId sent evs) acc ->
    wp (upload_all webViewLink projectId tok folderId false parent files acc)
       (fun r w' =>
          exists acc' evs',
            r = Ok acc'
            /\ env w' = env w0 /\ projects w' = projects w0 /\ folders w' = folders w0
            /\ grown w0 w' evs'
            /\ files_metadata w' = (files_metadata w0 ++ acc')%list
            /\ Forall (uploaded_row tok parent projectId folderId sent evs') acc'
            /\ (length acc' <= length acc + length files)%nat) w.
Proof.
  induction files as [| [file | s] rest IH]; intros acc w evs Hsent He Hp Hf Hg Hm HP;
    cbn [upload_all].
  - apply wp_ret. exists acc, evs. repeat split; auto. lia.
  - assert (Hfile : In (FormFile file) sent) by (apply Hsent; left; reflexivity).
    assert (Hrest : incl rest sent) by (intros x Hx; apply Hsent; right; exact Hx).
    apply wp_bind. unfold upload_one, upload_and_record, googleDrive_uploadFile, storage_createFile,
      filesMetadataRepository_create, googleDrive.deleteFile.
    unfold grown in Hg.
    repeat wp_any.
    all: ok_facts.
    all: eapply wp_mono;
      [ eapply IH;
        [ exact Hrest
        | world_simpl; assumption | world_simpl; assumption | world_simpl; assumption
        | solve_grown
        | world_simpl;
          first [ assumption
                | match goal with
                  | H : files_metadata _ = (_ ++ _)%list |- _ =>
                      rewrite H, <- app_assoc; reflexivity
                  end ]
        | first
            [ eapply uploaded_rows_mono; [| eassumption]; solve_incl
            | apply Forall_app; split;
              [ eapply uploaded_rows_mono; [| eassumption]; solve_incl
              | constructor; [| constructor];
                unfold uploaded_row; cbn [file_row FileMetadata.project_id
                  FileMetadata.folder_id FileMetadata.is_deleted FileMetadata.file_name
                  FileMetadata.mime_type FileMetadata.size_bytes
                  FileMetadata.drive_file_id FileMetadata.web_view_link
                  insm_project_id insm_folder_id insm_drive_file_id insm_file_name
                  insm_mime_type insm_size_bytes insm_web_view_link];
                split; [reflexivity |]; split; [reflexivity |]; split; [reflexivity |];
                exists file; do 2 eexists;
                split; [exact Hfile |];
                split; [reflexivity |]; split; [reflexivity |]; split; [reflexivity |];
                split; [find_event |]; split; [eassumption |]; split; [eassumption |];
                split; [intros id Hid; rewrite Hid; apply or_else_some | reflexivity] ] ] ]
      | cbv beta;
        let acc' := fresh "acc'" in
        let evs' := fresh "evs'" in
        let Hlen := fresh "Hlen" in
        intros ? ? (acc' & evs' & ? & ? & ? & ? & ? & ? & ? & Hlen);
        exists acc', evs'; repeat split; try assumption;
        rewrite ?length_app in Hlen; cbn [length] in *; lia ].
  - eapply wp_mono;
      [eapply IH; try eassumption; intros x Hx; apply Hsent; right; exact Hx |].
    cbv beta. intros r w' (acc' & evs' & H1 & H2 & H3 & H4 & H5 & H6 & H7 & Hlen).
    exists acc', evs'. repeat split; try assumption. cbn [length]. lia.
Qed.


(** How [parentDriveId] is chosen. *)
Definition upload_parent (p : Project.t) (folderId : option string) (w : World)
  (parent : option string) : Prop :=
  parent = Project.root_drive_id p
  \/ exists f, In f (folders w)
               /\ Folder.id f = interpolate folderId
               /\ truthy_opt folderId = true
               /\ Folder.drive_folder_id f <> ""
               /\ parent = Some (Folder.drive_folder_id f).

(** How the route can end, for [added] the rows it appended. *)
Inductive UploadOutcome (c : Variables) (projectId : string)
  (request : option UploadBody) (w : World) (r : HttpReply) (w' : World)
  (added : list FileMetadata.t) : Prop :=
| UploadRefused :
    added = [] ->
    reply_status r <> 201 ->
    UploadOutcome c projectId request w r w' added
| UploadDone user p b tok parent evs :
    requireAuth c = Some user ->
    In p (projects w) -> Project.id p = projectId -> Project.user_id p = user ->
    request = Some b ->
    upload_parent p (ub_folder_id b) w parent ->
    grown w w' evs ->
    Forall (uploaded_row tok parent projectId (ub_folder_id b) (ub_files b) evs) added ->
    (length added <= length (ub_files b))%nat ->
    r = reply (RFiles added) 201 ->
    UploadOutcome c projectId request w r w' added.

Ltac upload_refused :=
  repeat split; trivial;
  eexists; exists (@nil FileMetadata.t);
  (split; [reflexivity |]);
  (split; [world_simpl; rewrite ?app_nil_r; first [reflexivity | assumption | congruence] |]);
  apply UploadRefused; [reflexivity | cbn; discriminate].

Lemma POST_files_spec c projectId body w :
  (forall b, body = Some b -> ub_replace_existing b <> Some "true") ->
  wp (POST_projects_id_files webViewLink parseBody_error c projectId body)
     (fun r w' =>
        env w' = env w /\ projects w' = projects w /\ folders w' = folders w
        /\ exists a added,
             r = Ok a
             /\ files_metadata w' = (files_metadata w ++ added)%list
             /\ UploadOutcome c projectId body w a w' added) w.
Proof.
  intros Hre.
  unfold POST_projects_id_files. apply wp_try_catch.
  destruct (requireAuth c) as [user |] eqn:Hauth; [| apply wp_ret; upload_refused].
  unfold storage.getProject, projectsRepository.getByIdWithoutUser.
  repeat wp_any.
  all: try solve [upload_refused].
  match goal with
  | H : single (filter _ _) = PgData ?p |- _ =>
      apply single_found in H; destruct H as [Hin Hid]; apply String.eqb_eq in Hid
  end.
  match goal with
  | H : negb (Project.user_id ?p =? user)%string = false |- _ =>
      apply (proj1 (negb_false_iff _)) in H; apply String.eqb_eq in H; rename H into Hu
  end.
  eapply wp_mono; [apply getValidProviderToken_spec |]. cbv beta.
  intros r w1 ((o & ->) & (He & Hps & Hfs & Hfm) & (evs1 & Hevs1 & _)).
  world_simpl.
  destruct (truthy_opt o) eqn:Htok; cbn [negb]; [| apply wp_ret; upload_refused].
  apply wp_bind. unfold parseBody.
  destruct body as [b |]; [apply wp_ret | apply wp_throw; repeat wp_any; upload_refused].
  assert (Hfalse : match ub_replace_existing b with
                   | Some v => (v =? "true")%string
                   | None => false
                   end = false).
  { destruct (ub_replace_existing b) as [v |] eqn:Ev; [| reflexivity].
    destruct (String.eqb_spec v "true") as [-> | Hne]; [| reflexivity].
    exfalso. exact (Hre b eq_refl Ev). }
  rewrite Hfalse. clear Hfalse.
  unfold storage.getFolder, foldersRepository.getById.
  repeat wp_any.
  all: try solve [upload_refused].
  all: eapply wp_mono;
    [ eapply (upload_all_appends projectId (interpolate o) (ub_folder_id b) _
                (ub_files b) w);
      [ apply incl_refl
      | world_simpl; assumption | world_simpl; assumption | world_simpl; assumption
      | solve_grown
      | world_simpl; rewrite app_nil_r; assumption
      | apply Forall_nil ]
    | cbv beta;
      intros r w' (acc' & evs' & -> & He' & Hp' & Hf' & Hg' & Hm' & HP' & Hlen);
      apply wp_ret; repeat split; trivial;
      exists (reply (RFiles acc') 201), acc';
      split; [reflexivity |]; split; [assumption |];
      eapply UploadDone with (8 := HP');
      [ eassumption | eassumption | eassumption | eassumption | reflexivity
      | unfold upload_parent; ok_facts; parent_found
      | eassumption | cbn [length] in Hlen; lia | reflexivity ] ].
Qed.

(** X23. [POST /api/projects/:id/files] with a body whose [replace_existing]
    is not the string [true] always answers, never changes [projects] or
    [folders], and only appends to [files_metadata]. Either it appends
    nothing and the status is not 201; or the caller owns the project of the
    path, the status is 201, the answer is the list of the appended rows, and
    every appended row belongs to that project and to the [folder_id] of the
    body and carries the name, type and size of a [File] among the values of
    the body, one for which the provider answered the upload request ok in
    this very run, with the link of that answer and, when the answer carries
    one, its Drive id. There are at most as many new rows as values in the
    body. The Drive parent is the project's root or the Drive folder of the
    row that [folder_id] names, whatever project that row belongs to. *)
Theorem upload_appends_what_drive_accepted :
  forall (c : Variables) (projectId : string) (body : option UploadBody) (w : World),
    (forall b, body = Some b -> ub_replace_existing b <> Some "true") ->
    exists r w' added,
      POST_projects_id_files webViewLink parseBody_error c projectId body w = (Ok r, w')
      /\ env w' = env w
      /\ projects w' = projects w
      /\ folders w' = folders w
      /\ files_metadata w' = (files_metadata w ++ added)%list
      /\ UploadOutcome c projectId body w r w' added.
Proof.
  intros c projectId body w Hre.
  assert (Hrun : exists a w',
             POST_projects_id_files webViewLink parseBody_error c projectId body w
             = (Ok a, w')
             /\ (env w' = env w /\ projects w' = projects w /\ folders w' = folders w
                 /\ exists added,
                      files_metadata w' = (files_metadata w ++ added)%list
                      /\ UploadOutcome c projectId body w a w' added)).
  { apply wp_returns.
    eapply wp_mono; [apply POST_files_spec, Hre |]. cbv beta.
    intros r w' (He & Hp & Hf & a & added & -> & Hm & Hout).
    exists a. repeat split; trivial. exists added. auto. }
  destruct Hrun as (r & w' & Hrun & He & Hp & Hf & added & Hm & Hout).
  exists r, w', added. auto 10.
Qed.

End UploadProofs.

(** Two files of the same name, sent by Alice to her project under Bob's
    folder. *)
Definition two_copies : UploadBody :=
  {| ub_folder_id := Some "d-bob";
     ub_replace_existing := None;
     ub_files := [ FormFile {| uf_name := "a.pdf"; uf_type := "application/pdf";
                               uf_size := 10 |};
                   FormText "note";
                   FormFile {| uf_name := "a.pdf"; uf_type := "application/pdf";
                               uf_size := 20 |} ] |}.

Lemma upload_appends_what_drive_accepted_witness :
  (exists r w' added,
      POST_projects_id_files (fun _ => None) SyntaxError (as_user "alice") "p1"
        (Some two_copies) world_shared = (Ok r, w')
      /\ env w' = env world_shared
      /\ projects w' = projects world_shared
      /\ folders w' = folders world_shared
      /\ files_metadata w' = (files_metadata world_shared ++ added)%list
      /\ UploadOutcome (fun _ => None) (as_user "alice") "p1" (Some two_copies)
           world_shared r w' added)
  /\ map (fun f => (FileMetadata.project_id f, FileMetadata.folder_id f,
                    FileMetadata.file_name f, FileMetadata.size_bytes f,
                    FileMetadata.drive_file_id f))
       (files_metadata (snd (POST_projects_id_files (fun _ => None) SyntaxError
                               (as_user "alice") "p1" (Some two_copies) world_shared)))
     = [ ("p1", Some "d-bob", "a.pdf", Some 10, "drive-new");
         ("p1", Some "d-bob", "a.pdf", Some 20, "drive-new") ]
  /\ In (EvFetch (uploadFile_request "tok" "a.pdf" "application/pdf" (Some "drive-bob"))
                (accepting_provider 0 (about_request "tok")))
        (trace (snd (POST_projects_id_files (fun _ => None) SyntaxError
                       (as_user "alice") "p1" (Some two_copies) world_shared))).
Proof.
  split; [| split].
  - apply (upload_appends_what_drive_accepted (fun _ => None) SyntaxError
             (as_user "alice") "p1" (Some two_copies) world_shared).
    intros b Hb. injection Hb as <-. cbn. discriminate.
  - vm_compute. reflexivity.
  - vm_compute. tauto.
Defined.

(** ** The upload with [replace_existing]: what is written and what is deleted *)

Section UploadInvariant.

Variable webViewLink : Json -> option string.
Variable parseBody_error : Exn.
Variable projectId tok : string.
Variable folderId parent : option string.
Variable w0 : World.
Variable sent : list FormValue.
Variable replaceExisting : bool.

(** A row the upload replaced: it has the id of a row [existing], stored
    before the run or inserted by it, that the listing of the project gave for
    the name of a [File] of the body, in the folder of the body, and the
    provider answered the request to delete the Drive file of [existing] ok or
    with 404 in this run. *)
Definition replaced_row (evs : list Event) (row : FileMetadata.t) : Prop :=
  exists existing file resp,
    (In existing (files_metadata w0)
     \/ uploaded_row webViewLink tok parent projectId folderId sent evs existing)
    /\ FileMetadata.id existing = FileMetadata.id row
    /\ In (FormFile file) sent
    /\ FileMetadata.file_name existing = uf_name file
    /\ strict_eq (FileMetadata.folder_id existing) (folder_or_null folderId) = true
    /\ FileMetadata.is_deleted existing = false
    /\ (projectId <> "" -> FileMetadata.project_id existing = projectId)
    /\ FileMetadata.drive_file_id existing <> ""
    /\ In (EvFetch (googleDrive.deleteFile_request tok
                      (FileMetadata.drive_file_id existing)) (Responded resp)) evs
    /\ (ok resp = true \/ status resp = 404).

Lemma replaced_row_mono evs evs' row :
  incl evs evs' -> replaced_row evs row -> replaced_row evs' row.
Proof.
  intros Hincl (x & file & resp & H0 & H1 & H2 & H3 & H4 & H5 & H6 & H7 & H8 & H9).
  exists x, file, resp. repeat split; trivial.
  - destruct H0 as [H0 | H0]; [left; exact H0 | right].
    eapply uploaded_row_mono; eassumption.
  - apply Hincl, H8.
Qed.

(** What every step of the loop keeps. *)
Definition upload_inv (w : World) (evs : list Event) : Prop :=
  env w = env w0 /\ projects w = projects w0 /\ folders w = folders w0
  /\ grown w0 w evs
  /\ (forall row, In row (files_metadata w) ->
        In row (files_metadata w0)
        \/ uploaded_row webViewLink tok parent projectId folderId sent evs row)
  /\ (forall row, In row (files_metadata w0) ->
        In row (files_metadata w) \/ (replaceExisting = true /\ replaced_row evs row)).

Lemma matches_file_live id f :
  filesMetadataRepository.matches
    {| fl_project_id := Some id; fl_folder_id := None; fl_is_deleted := None |} f = true ->
  FileMetadata.is_deleted f = false /\ (id <> "" -> FileMetadata.project_id f = id).
Proof.
  unfold filesMetadataRepository.matches. cbn. intros H.
  apply andb_prop in H. destruct H as [H1 H2].
  apply andb_prop in H1. destruct H1 as [H1 _].
  split.
  - destruct (FileMetadata.is_deleted f); [discriminate H2 | reflexivity].
  - intros Hid. apply truthy_true in Hid. rewrite Hid in H1.
    apply String.eqb_eq, H1.
Qed.

Lemma In_delete_where {A} (sel : A -> bool) (l : list A) (x : A) :
  In x (delete_where sel l) <-> In x l /\ sel x = false.
Proof.
  unfold delete_where. rewrite filter_In, negb_true_iff. reflexivity.
Qed.

Lemma inv_keep w evs w' evs' :
  upload_inv w evs ->
  env w' = env w -> projects w' = projects w -> folders w' = folders w ->
  files_metadata w' = files_metadata w ->
  grown w0 w' evs' -> incl evs evs' ->
  upload_inv w' evs'.
Proof.
  intros (He & Hp & Hf & Hg & Hnew & Hold) He' Hp' Hf' Hm' Hg' Hincl.
  repeat split; try congruence.
  - intros row Hin. rewrite Hm' in Hin.
    destruct (Hnew row Hin) as [H | H]; [left; exact H | right].
    eapply uploaded_row_mono; eassumption.
  - intros row Hin. rewrite Hm'.
    destruct (Hold row Hin) as [H | [Hre H]]; [left; exact H | right].
    split; [exact Hre |]. eapply replaced_row_mono; eassumption.
Qed.

Lemma inv_delete w evs w' evs' sel :
  replaceExisting = true ->
  upload_inv w evs ->
  env w' = env w -> projects w' = projects w -> folders w' = folders w ->
  files_metadata w' = delete_where sel (files_metadata w) ->
  grown w0 w' evs' -> incl evs evs' ->
  (forall row, In row (files_metadata w) -> sel row = true -> replaced_row evs' row) ->
  upload_inv w' evs'.
Proof.
  intros Hre (He & Hp & Hf & Hg & Hnew & Hold) He' Hp' Hf' Hm' Hg' Hincl Hsel.
  repeat split; try congruence.
  - intros row Hin. rewrite Hm' in Hin. apply In_delete_where in Hin.
    destruct (Hnew row (proj1 Hin)) as [H | H]; [left; exact H | right].
    eapply uploaded_row_mono; eassumption.
  - intros row Hin. rewrite Hm'.
    destruct (Hold row Hin) as [H | [_ H]].
    + destruct (sel row) eqn:E.
      * right. split; [exact Hre |]. apply Hsel; assumption.
      * left. apply In_delete_where. auto.
    + right. split; [exact Hre |]. eapply replaced_row_mono; eassumption.
Qed.

Lemma inv_append w evs w' evs' new :
  upload_inv w evs ->
  env w' = env w -> projects w' = projects w -> folders w' = folders w ->
  files_metadata w' = (files_metadata w ++ [new])%list ->
  grown w0 w' evs' -> incl evs evs' ->
  uploaded_row webViewLink tok parent projectId folderId sent evs' new ->
  upload_inv w' evs'.
Proof.
  intros (He & Hp & Hf & Hg & Hnew & Hold) He' Hp' Hf' Hm' Hg' Hincl Hrow.
  repeat split; try congruence.
  - intros row Hin. rewrite Hm' in Hin. apply in_app_or in Hin.
    destruct Hin as [Hin | [<- | []]]; [| right; exact Hrow].
    destruct (Hnew row Hin) as [H | H]; [left; exact H | right].
    eapply uploaded_row_mono; eassumption.
  - intros row Hin. rewrite Hm'.
    destruct (Hold row Hin) as [H | [Hre H]];
      [left; apply in_or_app; left; exact H | right].
    split; [exact Hre |]. eapply replaced_row_mono; eassumption.
Qed.

Ltac grown_from H :=
  unfold grown in *; world_simpl; rewrite H; grow.

Ltac keep_inv Hinv Hg :=
  eexists; eapply inv_keep;
  [ exact Hinv | reflexivity | reflexivity | reflexivity | reflexivity
  | grown_from Hg | solve_incl ].

Lemma replace_existing_file_spec file w evs :
  replaceExisting = true ->
  In (FormFile file) sent ->
  upload_inv w evs ->
  wp (replace_existing_file projectId tok folderId file)
     (fun _ w' => exists evs', upload_inv w' evs') w.
Proof.
  intros Hre Hsent Hinv. assert (Hg : grown w0 w evs) by apply Hinv.
  unfold replace_existing_file, storage_getFiles, filesMetadataRepository.getAll,
    googleDrive.deleteFile, storage.hardDeleteFile, filesMetadataRepository.hardDelete.
  repeat wp_any.
  all: try solve [keep_inv Hinv Hg].
  apply find_some in Heqo. destruct Heqo as [Hin Hsel].
  apply In_order_by, filter_In in Hin. destruct Hin as [Hin Hlive].
  apply matches_file_live in Hlive. destruct Hlive as [Hlive Hproject].
  apply andb_prop in Hsel. destruct Hsel as [Hname Hfolder].
  apply String.eqb_eq in Hname. apply truthy_true in Heqb.
  eexists. eapply inv_delete;
    [ exact Hre | exact Hinv | reflexivity | reflexivity | reflexivity | reflexivity
    | grown_from Hg | solve_incl | ].
  intros row _ Hid. unfold filesMetadataRepository.has_id in Hid.
  apply String.eqb_eq in Hid.
  exists t, file, r. repeat split; trivial.
  - destruct Hinv as (_ & _ & _ & _ & Hnew & _).
    destruct (Hnew t Hin) as [Hold | Hup]; [left; exact Hold | right].
    eapply uploaded_row_mono; [| exact Hup]. solve_incl.
  - symmetry. exact Hid.
  - find_event.
  - destruct (ok r); [left; reflexivity | right].
    cbn in Heqb0. apply negb_false_iff, Z.eqb_eq in Heqb0. exact Heqb0.
Qed.

Lemma upload_and_record_spec file acc w evs :
  In (FormFile file) sent ->
  upload_inv w evs ->
  wp (upload_and_record webViewLink projectId tok folderId parent file acc)
     (fun r w' => (exists a, r = Ok a) /\ exists evs', upload_inv w' evs') w.
Proof.
  intros Hsent Hinv. assert (Hg : grown w0 w evs) by apply Hinv.
  unfold upload_and_record, googleDrive_uploadFile, storage_createFile,
    filesMetadataRepository_create, googleDrive.deleteFile.
  repeat wp_any.
  all: ok_facts.
  all: (split; [eexists; reflexivity |]).
  all: try solve [keep_inv Hinv Hg].
  eexists. eapply inv_append;
    [ exact Hinv | reflexivity | reflexivity | reflexivity | reflexivity
    | grown_from Hg | solve_incl | ].
  unfold uploaded_row.
  cbn [file_row FileMetadata.project_id FileMetadata.folder_id FileMetadata.is_deleted
       FileMetadata.file_name FileMetadata.mime_type FileMetadata.size_bytes
       FileMetadata.drive_file_id FileMetadata.web_view_link
       insm_project_id insm_folder_id insm_drive_file_id insm_file_name
       insm_mime_type insm_size_bytes insm_web_view_link].
  split; [reflexivity |]. split; [reflexivity |]. split; [reflexivity |].
  exists file, r, j. repeat split; trivial.
  - find_event.
  - intros id Hid. rewrite Hid. apply or_else_some.
Qed.

Lemma upload_all_keeps files :
  forall acc w evs,
    incl files sent ->
    upload_inv w evs ->
    wp (upload_all webViewLink projectId tok folderId replaceExisting parent files acc)
       (fun _ w' => exists evs', upload_inv w' evs') w.
Proof.
  induction files as [| [file | s] rest IH]; intros acc w evs Hsent Hinv;
    cbn [upload_all].
  - apply wp_ret. exists evs. exact Hinv.
  - apply wp_bind. unfold upload_one. apply wp_bind.
    assert (Hfile : In (FormFile file) sent) by (apply Hsent; left; reflexivity).
    assert (Hrest : incl rest sent) by (intros x Hx; apply Hsent; right; exact Hx).
    assert (Hnext : forall w1 evs1, upload_inv w1 evs1 ->
              wp (upload_and_record webViewLink projectId tok folderId parent file acc)
                 (fun r w' =>
                    match r with
                    | Ok a =>
                        wp (upload_all webViewLink projectId tok folderId replaceExisting
                              parent rest a)
                           (fun _ w'' => exists evs', upload_inv w'' evs') w'
                    | Throw e => exists evs', upload_inv w' evs'
                    end) w1).
    { intros w1 evs1 H1. eapply wp_mono; [apply (upload_and_record_spec _ _ _ _ Hfile H1) |].
      cbv beta. intros r w' ((a & ->) & evs' & H'). apply (IH a w' evs' Hrest H'). }
    destruct replaceExisting eqn:Hre.
    + eapply wp_mono; [apply (replace_existing_file_spec file w evs Hre Hfile Hinv) |].
      cbv beta. intros r w' (evs' & H').
      destruct r as [[] | e]; [apply (Hnext w' evs' H') | exists evs'; exact H'].
    + apply wp_ret. apply (Hnext w evs Hinv).
  - apply (IH acc w evs); [| exact Hinv].
    intros x Hx. apply Hsent. right. exact Hx.
Qed.

End UploadInvariant.

Section UploadRoute.

Variable webViewLink : Json -> option string.
Variable parseBody_error : Exn.

(** What a run of the route that passed every check has done to
    [files_metadata]. *)
Definition upload_effect (c : Variables) (projectId : string)
  (request : option UploadBody) (w w' : World) : Prop :=
  exists user p b tok parent evs,
    requireAuth c = Some user
    /\ In p (projects w) /\ Project.id p = projectId /\ Project.user_id p = user
    /\ request = Some b
    /\ upload_parent p (ub_folder_id b) w parent
    /\ grown w w' evs
    /\ (forall row, In row (files_metadata w') ->
          In row (files_metadata w)
          \/ uploaded_row webViewLink tok parent projectId (ub_folder_id b) (ub_files b)
               evs row)
    /\ (forall row, In row (files_metadata w) ->
          In row (files_metadata w')
          \/ (ub_replace_existing b = Some "true"
              /\ replaced_row webViewLink projectId tok (ub_folder_id b) parent w
                   (ub_files b) evs row)).

Lemma upload_effect_record c projectId request w w' e :
  upload_effect c projectId request w w' ->
  upload_effect c projectId request w (record e w').
Proof.
  intros (user & p & b & tok & parent & evs & H1 & H2 & H3 & H4 & H5 & H6 & Hg
          & Hnew & Hold).
  exists user, p, b, tok, parent, (e :: evs).
  repeat split; trivial.
  - unfold grown in *. cbn. rewrite Hg. reflexivity.
  - intros row Hrow. destruct (Hnew row Hrow) as [H | H]; [left; exact H | right].
    eapply uploaded_row_mono; [| exact H]. apply incl_tl, incl_refl.
  - intros row Hrow.
    destruct (Hold row Hrow) as [H | [Hre H]]; [left; exact H | right].
    split; [exact Hre |]. eapply replaced_row_mono; [| exact H].
    apply incl_tl, incl_refl.
Qed.

Lemma replace_existing_true (x : option string) :
  match x with
  | Some v => (v =? "true")%string
  | None => false
  end = true ->
  x = Some "true".
Proof.
  destruct x as [v |]; [| discriminate].
  intros H. apply String.eqb_eq in H. rewrite H. reflexivity.
Qed.

Ltac untouched :=
  repeat split; trivial;
  first [ eexists; reflexivity
        | left; world_simpl; first [reflexivity | assumption | congruence] ].

Lemma POST_files_effect c projectId body w :
  wp (POST_projects_id_files webViewLink parseBody_error c projectId body)
     (fun r w' =>
        env w' = env w /\ projects w' = projects w /\ folders w' = folders w
        /\ (exists a, r = Ok a)
        /\ (files_metadata w' = files_metadata w
            \/ upload_effect c projectId body w w')) w.
Proof.
  unfold POST_projects_id_files. apply wp_try_catch.
  destruct (requireAuth c) as [user |] eqn:Hauth; [| apply wp_ret; untouched].
  unfold storage.getProject, projectsRepository.getByIdWithoutUser.
  repeat wp_any.
  all: try solve [untouched].
  match goal with
  | H : single (filter _ _) = PgData ?p |- _ =>
      apply single_found in H; destruct H as [Hin Hid]; apply String.eqb_eq in Hid
  end.
  match goal with
  | H : negb (Project.user_id ?p =? user)%string = false |- _ =>
      apply (proj1 (negb_false_iff _)) in H; apply String.eqb_eq in H; rename H into Hu
  end.
  eapply wp_mono; [apply getValidProviderToken_spec |]. cbv beta.
  intros r w1 ((o & ->) & (He & Hps & Hfs & Hfm) & (evs1 & Hevs1 & _)).
  world_simpl.
  destruct (truthy_opt o) eqn:Htok; cbn [negb]; [| apply wp_ret; untouched].
  apply wp_bind. unfold parseBody.
  destruct body as [b |]; [apply wp_ret | apply wp_throw; repeat wp_any; untouched].
  unfold storage.getFolder, foldersRepository.getById.
  repeat wp_any.
  all: try solve [untouched].
  all: match goal with
       | |- wp (upload_all _ _ _ _ _ ?parent _ _) _ ?w2 =>
           assert (Hparent : upload_parent data (ub_folder_id b) w parent)
             by (unfold upload_parent; ok_facts; parent_found);
           assert (Hstart : exists evs,
                     upload_inv webViewLink projectId (interpolate o) (ub_folder_id b)
                       parent w (ub_files b)
                       match ub_replace_existing b with
                       | Some v => (v =? "true")%string
                       | None => false
                       end w2 evs)
             by (eexists; unfold upload_inv; world_simpl;
                 split; [assumption |]; split; [assumption |]; split; [assumption |];
                 split; [solve_grown |];
                 split; intros row Hrow; left; congruence)
       end.
  all: destruct Hstart as [evs Hstart].
  all: eapply wp_mono; [apply (upload_all_keeps _ _ _ _ _ _ _ _ _ _ _ _
                                 (incl_refl _) Hstart) |].
  all: cbv beta; intros r w' (evs' & He' & Hp' & Hf' & Hg' & Hnew & Hold).
  all: assert (Heffect : upload_effect c projectId (Some b) w w')
         by (exists user, data, b, (interpolate o); do 2 eexists;
             repeat split; try eassumption; try reflexivity;
             intros row Hrow; destruct (Hold row Hrow) as [Hkept | [Hre' Hrep]];
             [left; exact Hkept | right; split; [apply replace_existing_true, Hre' | exact Hrep]]).
  all: destruct r as [a | e]; repeat wp_any; world_simpl.
  all: repeat split; trivial; first [ eexists; reflexivity
          | right; first [exact Heffect | apply upload_effect_record, Heffect] ].
Qed.

(** X24. [POST /api/projects/:id/files], whatever the body and also with
    [replace_existing], always answers and never changes [projects] or
    [folders]. Either [files_metadata] is as it was, or the caller owns the
    project of the path and: every row that is there afterwards was there
    before or was inserted for a [File] among the values of the body that the
    provider accepted in this run; and every row that is gone has the id of a
    non-deleted row, stored before the run or inserted by it, that carried
    the name of a [File] of the body in the folder of the body and for whose
    Drive file the provider answered the delete request ok or with 404 in
    this run, which happens only when [replace_existing] is the string
    [true]. *)
Theorem upload_writes_and_replaces :
  forall (c : Variables) (projectId : string) (body : option UploadBody) (w : World),
    exists r w',
      POST_projects_id_files webViewLink parseBody_error c projectId body w = (Ok r, w')
      /\ env w' = env w
      /\ projects w' = projects w
      /\ folders w' = folders w
      /\ (files_metadata w' = files_metadata w
          \/ upload_effect c projectId body w w').
Proof.
  intros c projectId body w. apply wp_returns.
  eapply wp_mono; [apply POST_files_effect |]. cbv beta.
  intros r w' (He & Hp & Hf & (a & ->) & H). exists a. auto.
Qed.

End UploadRoute.

(** A provider that deletes but takes no upload. *)
Definition deleting_provider (n : nat) (req : Request) : FetchResult :=
  if (method req =? "POST")%string then Rejected else accepting_provider n req.

Definition world_replacing : World :=
  {| env := {| isProduction := true;
               GOOGLE_CLIENT_ID := None;
               GOOGLE_CLIENT_SECRET := None;
               net := deleting_provider;
               db_error := fun _ => false;
               clock := fun n => 1700000000000 + Z.of_nat n;
               gen_uuid := fun _ => "f-new";
               getFullYear := fun _ => "2024";
               payload_of := fun _ => None |};
     projects := [project_p1];
     folders := [];
     files_metadata := [file_f1];
     drive_connections := [];
     providerTokensCache := [("alice", {| token := Some "tok"; refreshToken := None |})];
     trace := [] |}.

Definition new_plan : UploadBody :=
  {| ub_folder_id := None;
     ub_replace_existing := Some "true";
     ub_files := [ FormFile {| uf_name := "plan.pdf"; uf_type := "application/pdf";
                               uf_size := 2048 |} ] |}.

(** Alice replaces [plan.pdf]; the provider deletes the old file and takes
    no new one: the answer is 201 with no file, and the old row is gone. *)
Lemma upload_writes_and_replaces_witness :
  (exists r w',
      POST_projects_id_files (fun _ => None) SyntaxError (as_user "alice") "p1"
        (Some new_plan) world_replacing = (Ok r, w')
      /\ env w' = env world_replacing
      /\ projects w' = projects world_replacing
      /\ folders w' = folders world_replacing
      /\ (files_metadata w' = files_metadata world_replacing
          \/ upload_effect (fun _ => None) (as_user "alice") "p1" (Some new_plan)
               world_replacing w'))
  /\ fst (POST_projects_id_files (fun _ => None) SyntaxError (as_user "alice") "p1"
            (Some new_plan) world_replacing)
     = Ok (reply (RFiles []) 201)
  /\ files_metadata world_replacing = [file_f1]
  /\ files_metadata (snd (POST_projects_id_files (fun _ => None) SyntaxError
                            (as_user "alice") "p1" (Some new_plan) world_replacing))
     = [].
Proof.
  split; [| split; [| split]].
  - apply (upload_writes_and_replaces (fun _ => None) SyntaxError (as_user "alice") "p1"
             (Some new_plan) world_replacing).
  - vm_compute. reflexivity.
  - reflexivity.
  - vm_compute. reflexivity.
Defined.

(** ** C9: the root storage reference of a project *)

(** Every project of [w] stems from a project of [w0] with the same id and
    the same [root_drive_id]. *)
Definition roots_kept (w0 w : World) : Prop :=
  forall p', In p' (projects w) ->
    exists p, In p (projects w0)
              /\ Project.id p' = Project.id p
              /\ Project.root_drive_id p' = Project.root_drive_id p.

Lemma roots_kept_refl w : roots_kept w w.
Proof. intros p Hp. exists p. auto. Qed.

Lemma roots_kept_same w0 w w' :
  projects w' = projects w -> roots_kept w0 w -> roots_kept w0 w'.
Proof. intros E H p' Hp'. rewrite E in Hp'. exact (H p' Hp'). Qed.

Lemma roots_kept_update w0 w w' sel u :
  Project.set_root_drive_id u = None ->
  projects w' = update_where sel (Project.apply u) (projects w) ->
  roots_kept w0 w -> roots_kept w0 w'.
Proof.
  intros Hu E H p' Hp'. rewrite E in Hp'. unfold update_where in Hp'.
  apply in_map_iff in Hp'. destruct Hp' as (q & <- & Hq).
  destruct (H q Hq) as (p & Hp & Hid & Hroot). exists p. split; [exact Hp |].
  destruct (sel q); [| auto].
  cbn [Project.apply Project.id Project.root_drive_id]. rewrite Hu. auto.
Qed.

Lemma roots_kept_delete w0 w w' sel :
  projects w' = delete_where sel (projects w) ->
  roots_kept w0 w -> roots_kept w0 w'.
Proof.
  intros E H p' Hp'. rewrite E in Hp'. unfold delete_where in Hp'.
  apply filter_In in Hp'. exact (H p' (proj1 Hp')).
Qed.

(** The side conditions of a frame by [roots_kept]: a step that leaves
    [projects] alone, an update that assigns no [root_drive_id], or a
    delete. *)
Ltac roots_side :=
  intros;
  first
    [ eassumption
    | eapply roots_kept_same; [reflexivity | eassumption]
    | eapply roots_kept_update; [| reflexivity |]; [reflexivity | eassumption]
    | eapply roots_kept_delete; [reflexivity | eassumption] ].

Ltac roots_step :=
  first
    [ apply preserves_bind; [| intros ?]
    | apply preserves_try_catch; [| intros ?]
    | apply preserves_if_truthy; intros ?
    | apply preserves_for_each; intros ?
    | apply preserves_console; roots_side
    | apply preserves_date_now; roots_side
    | apply preserves_fetch; roots_side
    | apply preserves_query; roots_side
    | apply preserves_modify_cache; roots_side
    | solve [auto with frame]
    | match goal with
      | |- preserves _ (match ?x with _ => _ end) => destruct x
      | |- preserves _ (if ?x then _ else _) => destruct x
      | |- preserves _ (let _ := _ in _) => cbv zeta
      end
    | progress autounfold with model
    | progress unfold getValidProviderToken, mirror ].

Ltac roots := repeat roots_step.

Lemma lifecycle_keeps_roots c t k id :
  preserves roots_kept (route c (Lifecycle t k id)).
Proof.
  destruct t, k; cbn [route];
    unfold DELETE_projects_id, POST_projects_id_restore, DELETE_projects_id_permanent,
      DELETE_folders_id, POST_folders_id_restore, DELETE_folders_id_permanent,
      DELETE_files_id, POST_files_id_restore, DELETE_files_id_permanent;
    roots.
Qed.

Lemma list_trash_keeps_roots c id :
  preserves roots_kept (route c (ListTrash id)).
Proof. cbn [route]. unfold GET_projects_id_trash. roots. Qed.

Lemma empty_trash_keeps_roots c id :
  preserves roots_kept (route c (EmptyTrash id)).
Proof. cbn [route]. unfold DELETE_projects_id_trash. roots. Qed.

(** The projects of [w0] are the first projects of [w], as they were. *)
Definition projects_appended (w0 w : World) : Prop :=
  exists rows, projects w = (projects w0 ++ rows)%list.

Lemma projects_appended_refl w : projects_appended w w.
Proof. exists []. symmetry. apply app_nil_r. Qed.

Lemma projects_appended_same w0 w w' :
  projects w' = projects w -> projects_appended w0 w -> projects_appended w0 w'.
Proof. intros E (rows & H). exists rows. congruence. Qed.

Lemma projects_appended_insert w0 w w' row :
  projects w' = (projects w ++ [row])%list ->
  projects_appended w0 w -> projects_appended w0 w'.
Proof.
  intros E (rows & H). exists (rows ++ [row])%list.
  rewrite E, H. symmetry. apply app_assoc.
Qed.

Ltac appended_side :=
  intros;
  first
    [ eassumption
    | eapply projects_appended_same; [reflexivity | eassumption]
    | eapply projects_appended_insert; [reflexivity | eassumption] ].

Ltac appended_step :=
  first
    [ apply preserves_bind; [| intros ?]
    | apply preserves_try_catch; [| intros ?]
    | apply preserves_if_truthy; intros ?
    | apply preserves_console; appended_side
    | apply preserves_date_now; appended_side
    | apply preserves_fetch; appended_side
    | apply preserves_query; appended_side
    | apply preserves_modify_cache; appended_side
    | solve [auto with frame]
    | match goal with
      | |- preserves _ (match ?x with _ => _ end) => destruct x
      | |- preserves _ (if ?x then _ else _) => destruct x
      | |- preserves _ (let _ := _ in _) => cbv zeta
      end
    | progress autounfold with model
    | progress unfold getValidProviderToken ].

Lemma create_appends c body :
  preserves projects_appended (route c (CreateProject body)).
Proof. cbn [route]. unfold POST_projects. repeat appended_step. Qed.

(** [p'] is [p] but for its title, its status and [updated_at]. *)
Definition patched (p p' : Project.t) : Prop :=
  Project.id p' = Project.id p
  /\ Project.user_id p' = Project.user_id p
  /\ Project.description p' = Project.description p
  /\ Project.root_drive_id p' = Project.root_drive_id p
  /\ Project.is_deleted p' = Project.is_deleted p
  /\ Project.deleted_at p' = Project.deleted_at p
  /\ Project.created_at p' = Project.created_at p.

(** The projects of [w] are those of [w0], in their order, each one patched. *)
Definition projects_patched (w0 w : World) : Prop :=
  Forall2 patched (projects w0) (projects w).

Lemma patched_refl p : patched p p.
Proof. repeat split. Qed.

Lemma projects_patched_refl w : projects_patched w w.
Proof.
  unfold projects_patched. induction (projects w); constructor;
    [apply patched_refl | assumption].
Qed.

Lemma projects_patched_same w0 w w' :
  projects w' = projects w -> projects_patched w0 w -> projects_patched w0 w'.
Proof. unfold projects_patched. intros ->. exact (fun H => H). Qed.

Lemma projects_patched_update w0 w w' sel u :
  Project.set_root_drive_id u = None ->
  Project.set_is_deleted u = None ->
  Project.set_deleted_at u = None ->
  projects w' = update_where sel (Project.apply u) (projects w) ->
  projects_patched w0 w -> projects_patched w0 w'.
Proof.
  unfold projects_patched. intros H1 H2 H3 -> H. unfold update_where.
  induction H as [| p q ps qs Hpq Hrest IH]; cbn [map]; constructor; [| exact IH].
  destruct (sel q); [| exact Hpq].
  destruct Hpq as (Ha & Hb & Hc & Hd & He & Hf & Hg).
  unfold patched. cbn [Project.apply Project.id Project.user_id Project.description
    Project.root_drive_id Project.is_deleted Project.deleted_at Project.created_at].
  rewrite H1, H2, H3. cbn [Project.assign]. auto 10.
Qed.

Ltac patched_side :=
  intros;
  first
    [ eassumption
    | eapply projects_patched_same; [reflexivity | eassumption]
    | eapply projects_patched_update; [| | | reflexivity |];
      [reflexivity | reflexivity | reflexivity | eassumption] ].

Ltac patched_step :=
  first
    [ apply preserves_bind; [| intros ?]
    | apply preserves_try_catch; [| intros ?]
    | apply preserves_console; patched_side
    | apply preserves_date_now; patched_side
    | apply preserves_query; patched_side
    | solve [auto with frame]
    | match goal with
      | |- preserves _ (match ?x with _ => _ end) => destruct x
      | |- preserves _ (if ?x then _ else _) => destruct x
      | |- preserves _ (let _ := _ in _) => cbv zeta
      end
    | progress autounfold with model ].

Lemma update_patches c id body :
  preserves projects_patched (route c (UpdateProject id body)).
Proof. cbn [route]. unfold PATCH_projects_id. repeat patched_step. Qed.

(** C9. No call of the project, folder, file and trash routes changes the
    [root_drive_id] of a project. The update route leaves the rows of
    [projects] in place and changes nothing in a row but its title, its status
    and [updated_at]. After a lifecycle, list-trash or empty-trash call every
    project row stems from a row of the same id that had the same
    [root_drive_id] before the call (soft delete and restore assign the
    lifecycle columns, hard delete removes rows). The creation of a project
    leaves the rows that were there exactly as they were and only appends. *)
Theorem root_drive_id_is_immutable :
  forall (c : Variables) (call : ApiCall) (w : World),
    match call with
    | CreateProject _ => projects_appended w (snd (route c call w))
    | UpdateProject _ _ => projects_patched w (snd (route c call w))
    | _ => roots_kept w (snd (route c call w))
    end.
Proof.
  intros c call w.
  destruct call as [body | id body | t k id | id | id].
  - apply (create_appends c body w w (projects_appended_refl w)).
  - apply (update_patches c id body w w (projects_patched_refl w)).
  - apply (lifecycle_keeps_roots c t k id w w (roots_kept_refl w)).
  - apply (list_trash_keeps_roots c id w w (roots_kept_refl w)).
  - apply (empty_trash_keeps_roots c id w w (roots_kept_refl w)).
Qed.

(** ** C8: the creation of a project, provider first, table second *)

(** The name of the Drive folder and of the project: [`${title} - ${yearSuffix}`],
    the year being [academicYear] or the year of the clock read at the [n]-th
    effect. *)
Definition display_name (b : CreateProjectBody) (e : Env) (n : nat) : string :=
  interpolate (cp_title b) ++ " - "
  ++ (if truthy_opt (cp_academicYear b)
      then interpolate (cp_academicYear b)
      else getFullYear e (clock e n)).

(** The console line that ends the clean-up of the Drive folder. *)
Definition cleanup_line (res : FetchResult) : Event :=
  if mirror_fails res
  then EvConsole ERROR "Failed to cleanup Drive folder:"
  else EvConsole LOG "Drive folder cleaned up after DB create error".

(** No insert into [projects]. *)
Definition not_project_insert (e : Event) : Prop :=
  forall failed, e <> EvQuery "projects" INSERT failed.

(** What the run leaves on the trace from the request that creates the Drive
    folder up to the insert, newest first. *)
Definition create_then_insert (tok name : string) (resp : Response) (failed : bool)
  : list Event :=
  [ EvQuery "projects" INSERT failed;
    EvConsole LOG "Creating project in Supabase:";
    EvConsole LOG "Drive folder created successfully:";
    EvConsole LOG "Folder created successfully:";
    EvConsole LOG "Response status:";
    EvFetch (googleDrive.createFolder_request tok name None) (Responded resp) ].

(** How the route can end. *)
Inductive CreateOutcome (c : Variables) (request : option CreateProjectBody)
  (w : World) (r : HttpResponse) (w' : World) : Prop :=
| CreateRefused evs :
    (* no insert was tried, nothing was written *)
    grown w w' evs ->
    Forall not_project_insert evs ->
    projects w' = projects w ->
    http_status r <> 201 ->
    CreateOutcome c request w r w'
| CreateDone user b tok name resp j row pre :
    (* the provider created the folder, then the row was inserted *)
    requireAuth c = Some user ->
    request = Some b ->
    name = display_name b (env w) (tick w) ->
    trace w' = (EvConsole LOG "Project created in Supabase:"
                  :: create_then_insert tok name resp false ++ pre ++ trace w)%list ->
    ok resp = true ->
    body resp = Some j ->
    projects w' = (projects w ++ [row])%list ->
    Project.user_id row = user ->
    Project.title row = name ->
    Project.root_drive_id row = Some (or_else (file_id j) "") ->
    Project.status row = or_else (cp_status b) "active" ->
    Project.is_deleted row = false ->
    r = json (JCreated row name) 201 ->
    CreateOutcome c request w r w'
| CreateCompensated b tok name resp j res pre :
    (* the provider created the folder, the insert failed, and the folder was
       asked to be deleted again, once *)
    request = Some b ->
    name = display_name b (env w) (tick w) ->
    trace w' = (EvConsole ERROR "Create project error:"
                  :: cleanup_line res
                  :: EvFetch (googleDrive.deleteFile_request tok (interpolate (file_id j)))
                       res
                  :: EvConsole ERROR "Database create error, cleaning up Drive folder:"
                  :: EvConsole ERROR "Error creating project:"
                  :: create_then_insert tok name resp true ++ pre ++ trace w)%list ->
    ok resp = true ->
    body resp = Some j ->
    projects w' = projects w ->
    r = json (JFailure PostgrestError "فشل في إنشاء المشروع") 500 ->
    CreateOutcome c request w r w'.

Lemma background_not_insert evs :
  forallb background evs = true -> Forall not_project_insert evs.
Proof.
  intros H. apply Forall_forall. intros e He failed ->.
  rewrite forallb_forall in H. specialize (H _ He). discriminate H.
Qed.

Ltac no_insert :=
  repeat first
    [ apply Forall_nil
    | apply Forall_cons; [intros ?; discriminate |]
    | apply Forall_app; split
    | apply background_not_insert; assumption ].

Ltac saga_refused :=
  repeat split; trivial;
  eexists; (split; [reflexivity |]);
  eapply CreateRefused;
  [ solve_grown | no_insert
  | world_simpl; first [reflexivity | assumption | congruence]
  | cbn; discriminate ].

Lemma or_else_active x : or_else (Some (or_else x "active")) "active" = or_else x "active".
Proof.
  unfold or_else. destruct x as [s |]; [| reflexivity].
  destruct (truthy s) eqn:E; [rewrite E |]; reflexivity.
Qed.

Lemma same_tail {A} (a : A) (l l' : list A) : l = l' -> a :: l = a :: l'.
Proof. intros ->. reflexivity. Qed.

(** The trace of the goal is the events the statement lists, then older ones. *)
Ltac listed_trace :=
  world_simpl;
  repeat match goal with
         | H : trace ?w1 = (_ ++ _)%list |- context [trace ?w1] => rewrite H
         end;
  unfold create_then_insert; cbn [app];
  repeat apply same_tail;
  grow.

Ltac named :=
  unfold display_name;
  repeat match goal with
         | H : truthy_opt (cp_academicYear _) = _ |- _ => rewrite H
         end;
  reflexivity.

Ltac saga_done :=
  ok_facts; world_simpl; repeat split; trivial;
  eexists; (split; [reflexivity |]);
  eapply CreateDone;
  [ eassumption | first [reflexivity | eassumption] | | listed_trace
  | eassumption | eassumption
  | world_simpl; match goal with H : projects _ = projects _ |- _ => rewrite H end;
    reflexivity
  | reflexivity | reflexivity | reflexivity | apply or_else_active | reflexivity
  | reflexivity ];
  named.

Ltac saga_compensated :=
  ok_facts; world_simpl; repeat split; trivial;
  eexists; (split; [reflexivity |]);
  lazymatch goal with
  | |- context [record (EvFetch (googleDrive.deleteFile_request _ _) ?x)] =>
      eapply CreateCompensated with (res := x)
  end;
  [ first [reflexivity | eassumption] |
  | unfold cleanup_line, mirror_fails;
    repeat match goal with
           | H : ok ?r = _ |- context [ok ?r] => rewrite H
           | H : negb (ok ?r) && _ = _ |- context [negb (ok ?r) && _] => rewrite H
           | H : (status ?r =? 404) = _ |- context [status ?r =? 404] => rewrite H
           end;
    cbn [negb andb];
    listed_trace
  | eassumption | eassumption
  | world_simpl; first [assumption | congruence]
  | reflexivity ];
  named.

Lemma POST_projects_spec c body w :
  wp (POST_projects c body)
     (fun r w' =>
        env w' = env w /\ folders w' = folders w
        /\ files_metadata w' = files_metadata w
        /\ exists a, r = Ok a /\ CreateOutcome c body w a w') w.
Proof.
  unfold POST_projects. apply wp_try_catch.
  destruct (requireAuth c) as [user |] eqn:Hauth; [| apply wp_ret; saga_refused].
  unfold storage.getProjects, projectsRepository.getAll.
  repeat wp_any.
  all: try solve [saga_refused].
  all: (eapply wp_mono; [apply getValidProviderToken_spec |]); cbv beta;
    intros r w1 ((o & ->) & (He & Hps & Hfs & Hfm) & (evs1 & Hevs1 & Hback));
    world_simpl;
    (destruct (truthy_opt o) eqn:Htok; [| repeat wp_any; saga_refused]).
  all: unfold googleDrive.createFolder, storage.createProject, projectsRepository.create,
    googleDrive.deleteFile.
  all: repeat wp_any.
  all: try solve [saga_refused].
  all: try solve [saga_done].
  all: solve [saga_compensated].
Qed.

(** C8. The creation of a project writes to the provider first and to the
    table second, and ends in one of three ways. Either no insert into
    [projects] is tried and [projects] is as it was (every refusal, and a
    Drive folder that could not be created: the answer is not 201). Or the
    provider answered the request to create the folder ok with a JSON body,
    the insert that followed succeeded, and exactly one row was appended: the
    caller's, titled like the Drive folder, with the id of that folder as its
    [root_drive_id]; the answer is 201. Or the provider created the folder
    and the insert that followed failed: then the route asked the provider,
    once, to delete that very folder, wrote one line on the console for the
    outcome of that request (an error line when it failed) and nothing else,
    [projects] is as it was and the answer is the 500 of the database error.
    In no case do [folders] or [files_metadata] change. *)
Theorem project_creation_compensates :
  forall (c : Variables) (body : option CreateProjectBody) (w : World),
    exists r w',
      POST_projects c body w = (Ok r, w')
      /\ env w' = env w
      /\ folders w' = folders w
      /\ files_metadata w' = files_metadata w
      /\ CreateOutcome c body w r w'.
Proof.
  intros c body w. apply wp_returns.
  eapply wp_mono; [apply POST_projects_spec |]. cbv beta.
  intros r w' (He & Hf & Hm & a & -> & H). exists a. auto.
Qed.

(** A store that answers the listing and fails the insert, and a provider
    that accepts everything. *)
Definition world_failing_insert : World :=
  {| env := {| isProduction := true;
               GOOGLE_CLIENT_ID := None;
               GOOGLE_CLIENT_SECRET := None;
               net := accepting_provider;
               db_error := fun n => Nat.leb 5 n;
               clock := fun n => 1700000000000 + Z.of_nat n;
               gen_uuid := fun _ => "p-new";
               getFullYear := fun _ => "2024";
               payload_of := fun _ => None |};
     projects := [project_p1];
     folders := [];
     files_metadata := [];
     drive_connections := [];
     providerTokensCache := [("alice", {| token := Some "tok"; refreshToken := None |})];
     trace := [] |}.

Definition physics_2024 : CreateProjectBody :=
  {| cp_title := Some "Physics"; cp_academicYear := Some "2024"; cp_status := None |}.

(** Alice creates a project; the Drive folder is created, the insert fails:
    the folder is asked to be deleted again, no row is added, the answer is
    500. *)
Lemma project_creation_compensates_witness :
  (exists r w',
      POST_projects (as_user "alice") (Some physics_2024) world_failing_insert = (Ok r, w')
      /\ env w' = env world_failing_insert
      /\ folders w' = folders world_failing_insert
      /\ files_metadata w' = files_metadata world_failing_insert
      /\ CreateOutcome (as_user "alice") (Some physics_2024) world_failing_insert r w')
  /\ fst (POST_projects (as_user "alice") (Some physics_2024) world_failing_insert)
     = Ok (json (JFailure PostgrestError "فشل في إنشاء المشروع") 500)
  /\ projects (snd (POST_projects (as_user "alice") (Some physics_2024)
                      world_failing_insert))
     = [project_p1]
  /\ In (EvFetch (googleDrive.deleteFile_request "tok" "drive-new")
                (accepting_provider 0 (about_request "tok")))
        (trace (snd (POST_projects (as_user "alice") (Some physics_2024)
                       world_failing_insert))).
Proof.
  split; [| split; [| split]].
  - apply (project_creation_compensates (as_user "alice") (Some physics_2024)
             world_failing_insert).
  - vm_compute. reflexivity.
  - vm_compute. reflexivity.
  - vm_compute. tauto.
Defined.

(** ** C3: emptying the trash of a project *)

Lemma filter_twice {A} (f g : A -> bool) (l : list A) :
  filter f (filter g l) = filter (fun x => g x && f x) l.
Proof.
  induction l as [| x l IH]; [reflexivity |].
  cbn [filter]. destruct (g x); cbn [andb filter]; [| exact IH].
  destruct (f x); [f_equal |]; exact IH.
Qed.

(** Rows deleted one id after the other. *)
Lemma fold_delete_where {A} (key : A -> string) (ds : list A) :
  forall rows,
    fold_left (fun rows d => delete_where (fun r => (key r =? key d)%string) rows) ds rows
    = filter (fun r => negb (existsb (fun d => (key r =? key d)%string) ds)) rows.
Proof.
  induction ds as [| d ds IH]; intros rows; cbn [fold_left existsb].
  - induction rows as [| r rows IHr]; [reflexivity |].
    cbn [filter negb]. f_equal. exact IHr.
  - rewrite IH. unfold delete_where. rewrite filter_twice.
    apply filter_ext. intros r. rewrite negb_orb. reflexivity.
Qed.

Lemma same_key_same_row {A} (key : A -> string) (rows : list A) (r d : A) :
  NoDup (map key rows) -> In r rows -> In d rows -> key r = key d -> r = d.
Proof.
  induction rows as [| x rows IH]; intros Hnd Hr Hd Hk; [contradiction |].
  cbn [map] in Hnd. inversion Hnd as [| k ks Hnot Hrest]. subst.
  destruct Hr as [-> | Hr], Hd as [-> | Hd].
  - reflexivity.
  - exfalso. apply Hnot. rewrite Hk. apply in_map, Hd.
  - exfalso. apply Hnot. rewrite <- Hk. apply in_map, Hr.
  - apply IH; assumption.
Qed.

(** With one row per id, deleting the ids of the selected rows deletes the
    selected rows and no other. *)
Lemma purge_selected {A} (key : A -> string) (sel : A -> bool) (rows ds : list A) :
  NoDup (map key rows) ->
  (forall d, In d ds <-> In d rows /\ sel d = true) ->
  filter (fun r => negb (existsb (fun d => (key r =? key d)%string) ds)) rows
  = filter (fun r => negb (sel r)) rows.
Proof.
  intros Hnd Hds. apply filter_ext_in. intros r Hr. f_equal.
  destruct (sel r) eqn:Hsel.
  - apply existsb_exists. exists r. split; [apply Hds; auto | apply String.eqb_refl].
  - destruct (existsb (fun d => (key r =? key d)%string) ds) eqn:E; [| reflexivity].
    apply existsb_exists in E. destruct E as (d & Hd & Hk).
    apply String.eqb_eq in Hk. apply Hds in Hd. destruct Hd as [Hd Hseld].
    rewrite (same_key_same_row key rows r d Hnd Hr Hd Hk) in Hsel. congruence.
Qed.

(** The two loops of the route. *)
Definition purge_file (providerToken : option string) (file : FileMetadata.t) : M unit :=
  (if truthy (FileMetadata.drive_file_id file) && truthy_opt providerToken
   then
     try_catch
       (googleDrive.permanentDeleteFile (interpolate providerToken)
          (FileMetadata.drive_file_id file))
       (fun driveError => console ERROR "Failed to delete Drive file:")
   else ret tt) ;;
  storage.hardDeleteFile (FileMetadata.id file) ;;
  ret tt.

Definition purge_folder (providerToken : option string) (folder : Folder.t) : M unit :=
  (if truthy (Folder.drive_folder_id folder) && truthy_opt providerToken
   then
     try_catch
       (googleDrive.permanentDeleteFile (interpolate providerToken)
          (Folder.drive_folder_id folder))
       (fun driveError => console ERROR "Failed to delete Drive folder:")
   else ret tt) ;;
  storage.hardDeleteFolder (Folder.id folder) ;;
  ret tt.

Lemma purge_files_spec tok (l : list FileMetadata.t) :
  forall w,
    healthy w ->
    wp (for_each l (purge_file tok))
       (fun r w' =>
          r = Ok tt /\ env w' = env w /\ projects w' = projects w
          /\ folders w' = folders w
          /\ files_metadata w'
             = fold_left (fun rows d =>
                            delete_where (fun r => (FileMetadata.id r
                                                    =? FileMetadata.id d)%string) rows)
                 l (files_metadata w)) w.
Proof.
  induction l as [| file l IH]; intros w Hh; cbn [for_each fold_left].
  - apply wp_ret. repeat split.
  - unfold healthy in Hh. apply wp_bind.
    unfold purge_file at 1. unfold googleDrive.permanentDeleteFile,
      storage.hardDeleteFile, filesMetadataRepository.hardDelete.
    repeat wp_any_h.
    all: (eapply wp_mono; [apply IH; intros n; world_simpl; apply Hh |]); cbv beta;
      intros ? ? (-> & He & Hp & Hf & Hm); world_simpl;
      repeat split; trivial.
Qed.

Lemma purge_folders_spec tok (l : list Folder.t) :
  forall w,
    healthy w ->
    wp (for_each l (purge_folder tok))
       (fun r w' =>
          r = Ok tt /\ env w' = env w /\ projects w' = projects w
          /\ files_metadata w' = files_metadata w
          /\ folders w'
             = fold_left (fun rows d =>
                            delete_where (fun r => (Folder.id r =? Folder.id d)%string) rows)
                 l (folders w)) w.
Proof.
  induction l as [| folder l IH]; intros w Hh; cbn [for_each fold_left].
  - apply wp_ret. repeat split.
  - unfold healthy in Hh. apply wp_bind.
    unfold purge_folder at 1. unfold googleDrive.permanentDeleteFile,
      storage.hardDeleteFolder, foldersRepository.hardDelete.
    repeat wp_any_h.
    all: (eapply wp_mono; [apply IH; intros n; world_simpl; apply Hh |]); cbv beta;
      intros ? ? (-> & He & Hp & Hf & Hm); world_simpl;
      repeat split; trivial.
Qed.

(** A file, a folder in the trash of the project [projectId]. *)
Definition trashed_file (projectId : string) (f : FileMetadata.t) : bool :=
  (FileMetadata.project_id f =? projectId)%string && FileMetadata.is_deleted f.

Definition trashed_folder (projectId : string) (d : Folder.t) : bool :=
  (Folder.project_id d =? projectId)%string && Folder.is_deleted d.

Lemma empty_trash_spec c user projectId (p : Project.t) w :
  healthy w ->
  requireAuth c = Some user ->
  entity KProject projectId w p ->
  Project.user_id p = user ->
  projectId <> "" ->
  NoDup (map FileMetadata.id (files_metadata w)) ->
  NoDup (map Folder.id (folders w)) ->
  wp (route c (EmptyTrash projectId))
     (fun r w' =>
        exists msg, r = Ok (json (JSuccess msg) 200)
        /\ env w' = env w
        /\ projects w' = projects w
        /\ files_metadata w'
           = filter (fun f => negb (trashed_file projectId f)) (files_metadata w)
        /\ folders w'
           = filter (fun d => negb (trashed_folder projectId d)) (folders w)) w.
Proof.
  intros Hh Hauth He Hu Hid Hfiles Hfolders.
  assert (Hh' := Hh). unfold healthy in Hh. unfold entity in He. world_simpl.
  cbn [route]. unfold DELETE_projects_id_trash.
  apply wp_try_catch. rewrite Hauth. cbv beta iota.
  unfold storage.getProject, projectsRepository.getByIdWithoutUser.
  path. rewrite Hu. path.
  eapply wp_mono; [apply getValidProviderToken_spec |]. cbv beta.
  intros r w1 ((tok & ->) & (Henv & Hps & Hfs & Hfm) & _).
  world_simpl.
  assert (Hh1 : healthy w1) by (intros n; rewrite Henv; apply Hh).
  unfold storage.getDeletedFiles, filesMetadataRepository.getAll.
  path.
  match goal with
  | |- wp (for_each ?l _) _ ?W =>
      eapply wp_mono;
      [ apply (purge_files_spec tok l W); intros n; world_simpl; rewrite Henv; apply Hh |]
  end.
  cbv beta. intros r w2 (-> & Henv2 & Hps2 & Hfs2 & Hfm2). world_simpl.
  unfold storage.getDeletedFolders, foldersRepository.getAll.
  path.
  match goal with
  | |- wp (for_each ?l _) _ ?W =>
      eapply wp_mono;
      [ apply (purge_folders_spec tok l W); intros n; world_simpl;
        rewrite Henv2, Henv; apply Hh |]
  end.
  cbv beta. intros r w3 (-> & Henv3 & Hps3 & Hfm3 & Hfs3). world_simpl.
  apply wp_ret. eexists. split; [reflexivity |].
  split; [congruence |]. split; [congruence |]. split.
  - rewrite Hfm3, Hfm2, Hfm.
    rewrite (fold_delete_where FileMetadata.id).
    apply purge_selected; [exact Hfiles |].
    intros d. rewrite In_order_by, filter_In, (matches_file_trash projectId d Hid).
    unfold trashed_file. rewrite andb_true_iff, String.eqb_eq. reflexivity.
  - rewrite Hfs3, Hfs2, Hfs.
    rewrite (fold_delete_where Folder.id).
    apply purge_selected; [exact Hfolders |].
    intros d. rewrite In_order_by, filter_In, (matches_folder_trash projectId d).
    unfold trashed_folder. rewrite andb_true_iff, String.eqb_eq. reflexivity.
Qed.

(** C3. Emptying the trash of a project, called by its owner while the store
    answers and every row has an id of its own: the answer is success;
    [files_metadata] and [folders] lose exactly the rows of that project whose
    [is_deleted] is true, every other row stays as it was and where it was;
    [projects] is unchanged. This holds for every behaviour of the provider:
    a request to the provider that fails is caught and the row is deleted all
    the same. *)
Theorem empty_trash_purges_the_trash :
  forall (c : Variables) (user projectId : string) (p : Project.t) (w : World),
    healthy w ->
    requireAuth c = Some user ->
    entity KProject projectId w p ->
    Project.user_id p = user ->
    projectId <> "" ->
    NoDup (map FileMetadata.id (files_metadata w)) ->
    NoDup (map Folder.id (folders w)) ->
    exists msg w',
      route c (EmptyTrash projectId) w = (Ok (json (JSuccess msg) 200), w')
      /\ projects w' = projects w
      /\ files_metadata w'
         = filter (fun f => negb (trashed_file projectId f)) (files_metadata w)
      /\ folders w'
         = filter (fun d => negb (trashed_folder projectId d)) (folders w).
Proof.
  intros c user projectId p w Hh Hauth He Hu Hid Hfiles Hfolders.
  pose proof (empty_trash_spec c user projectId p w Hh Hauth He Hu Hid Hfiles Hfolders)
    as H.
  unfold wp in H. destruct (route c (EmptyTrash projectId) w) as [r w'].
  cbn [fst snd] in H. destruct H as (msg & -> & _ & Hp & Hf & Hd).
  exists msg, w'. auto.
Qed.

Definition file_f2 : FileMetadata.t :=
  {| FileMetadata.id := "f2"; FileMetadata.project_id := "p1";
     FileMetadata.folder_id := Some "d1"; FileMetadata.drive_file_id := "drive-f2";
     FileMetadata.file_name := "notes.txt"; FileMetadata.mime_type := "text/plain";
     FileMetadata.size_bytes := Some 12; FileMetadata.checksum := None;
     FileMetadata.web_view_link := None; FileMetadata.is_deleted := false;
     FileMetadata.deleted_at := None; FileMetadata.created_at := 21;
     FileMetadata.updated_at := 21 |}.

Definition folder_d2_trashed : Folder.t :=
  {| Folder.id := "d2"; Folder.project_id := "p1"; Folder.parent_id := None;
     Folder.drive_folder_id := "drive-d2"; Folder.folder_name := "Week 2";
     Folder.sort_order := 1; Folder.is_deleted := true; Folder.deleted_at := Some 31;
     Folder.created_at := 16; Folder.updated_at := 31 |}.

(** Alice's project with a file and a folder in the trash and a file and a
    folder outside it; the provider fails every delete. *)
Definition world_mixed_trash : World :=
  with_folders [folder_d1; folder_d2_trashed]
    (with_files_metadata [file_f1_trashed; file_f2] world_alice).

Lemma empty_trash_purges_the_trash_witness :
  exists msg w',
    route (as_user "alice") (EmptyTrash "p1") world_mixed_trash
    = (Ok (json (JSuccess msg) 200), w')
    /\ projects w' = [project_p1]
    /\ files_metadata w' = [file_f2]
    /\ folders w' = [folder_d1].
Proof.
  apply (empty_trash_purges_the_trash (as_user "alice") "alice" "p1" project_p1
           world_mixed_trash).
  - intros n. reflexivity.
  - reflexivity.
  - reflexivity.
  - reflexivity.
  - discriminate.
  - repeat constructor; cbn; intuition discriminate.
  - repeat constructor; cbn; intuition discriminate.
Defined.
